(** * Qmetrics: metrics and resampling engine

    A shallow embedding of the numeric core of the Qmetrics dashboard
    (monte_carlo.py, metrics_calculation.py, data_processing.py and the
    two table helpers of visualize.py), with the properties of its
    specification stated and proved over that embedding.

    Conventions.
    - A float is an IEEE-754 binary64 value ([spec_float] at precision 53,
      maximal exponent 1024), so NaN, the infinities and signed zeros
      behave as they do in Python and numpy.
    - A raising call is a [Raise e]; a returning one is a [Ret v].
    - numpy's and pandas' own routines (the generator behind
      [np.random], [np.percentile], float [**], date parsing, the
      time-series block of the metrics) are fields of the interfaces
      [NumpyRandom] and [Externals]: the code under study is embedded, the
      libraries it calls are specified. *)

From stdpp Require Import gmap strings list fin_maps pretty.
From Stdlib Require Import Ascii Floats.SpecFloat.

Local Open Scope Z_scope.

(* ===================================================================== *)
(** * Part I. Definitions                                                  *)
(* ===================================================================== *)

(** ** Floats *)

Definition float64 : Type := spec_float.

Definition f64_prec : Z := 53.
Definition f64_emax : Z := 1024.

Definition f64_of_Z (z : Z) : float64 := binary_normalize f64_prec f64_emax z 0 false.

Definition fadd : float64 -> float64 -> float64 := SFadd f64_prec f64_emax.
Definition fsub : float64 -> float64 -> float64 := SFsub f64_prec f64_emax.
Definition fmul : float64 -> float64 -> float64 := SFmul f64_prec f64_emax.
Definition fdiv : float64 -> float64 -> float64 := SFdiv f64_prec f64_emax.
Definition fabs : float64 -> float64 := SFabs.

Definition fzero : float64 := S754_zero false.
Definition fone : float64 := f64_of_Z 1.
Definition fnan : float64 := S754_nan.
Definition finf : float64 := S754_infinity false.

(** [a < b], [a > b], [a >= b], [a == b], [a != b] of Python floats: every
    comparison with NaN is false, except [!=] which is true. *)
Definition flt (a b : float64) : bool := SFltb a b.
Definition fgt (a b : float64) : bool := SFltb b a.
Definition fge (a b : float64) : bool := SFleb b a.
Definition feq (a b : float64) : bool := SFeqb a b.
Definition fne (a b : float64) : bool := negb (SFeqb a b).

Definition is_nan (a : float64) : bool :=
  match a with S754_nan => true | _ => false end.

(** [bool(x)] of a float: false exactly for the two zeros. NaN is truthy. *)
Definition truthy (a : float64) : bool := fne a fzero.

(** ** Exceptions and results *)

Inductive exn : Type :=
| KeyError (msg : string)
| ValueError (msg : string)
| TypeError (msg : string)
| IndexError (msg : string)
| AttributeError (msg : string)
| ZeroDivisionError (msg : string).

Inductive result (A : Type) : Type :=
| Ret (a : A)
| Raise (e : exn).
Arguments Ret {A} a.
Arguments Raise {A} e.

#[global] Instance result_ret : MRet result := fun _ a => Ret a.
#[global] Instance result_bind : MBind result := fun _ _ f m =>
  match m with
  | Ret a => f a
  | Raise e => Raise e
  end.

Definition raises {A} (r : result A) : Prop := exists e, r = Raise e.

(** ** int64 counters *)

Definition wrap64 (z : Z) : Z := (z + 2 ^ 63) mod 2 ^ 64 - 2 ^ 63.

(** ** numpy arrays

    An array is its shape and its elements in row-major order. *)

Record ndarray : Type := mk_ndarray { shape : list nat; data : list float64 }.

Definition ndim (a : ndarray) : nat := length (shape a).

Definition ndarray_wf (a : ndarray) : Prop :=
  length (data a) = foldr Nat.mul 1%nat (shape a).

(** The [r] rows of [c] elements of a row-major buffer. *)
Fixpoint chunk {A} (c r : nat) (d : list A) : list (list A) :=
  match r with
  | O => []
  | S r' => take c d :: chunk c r' (drop c d)
  end.

(** [a.reshape(1, -1)] of a 1-D array. *)
Definition reshape_1_row (a : ndarray) : ndarray :=
  mk_ndarray [1%nat; length (data a)] (data a).

(** What a caller can pass where an array is expected. *)
Inductive pyvalue : Type :=
| VNdarray (a : ndarray)
| VList (l : list float64).

(** ** metrics_calculation.py: scalar streak counters *)

Definition loss_step (st : Z * Z) (profit : float64) : Z * Z :=
  let '(max_loss_streak, current_loss_streak) := st in
  if flt profit fzero then
    let current_loss_streak := current_loss_streak + 1 in
    if current_loss_streak >? max_loss_streak
    then (current_loss_streak, current_loss_streak)
    else (max_loss_streak, current_loss_streak)
  else (max_loss_streak, 0).

Definition max_consecutive_losses (profits : list float64) : Z :=
  fst (fold_left loss_step profits (0, 0)).

Definition win_step (st : Z * Z) (profit : float64) : Z * Z :=
  let '(max_win_streak, current_win_streak) := st in
  if fgt profit fzero then
    let current_win_streak := current_win_streak + 1 in
    if current_win_streak >? max_win_streak
    then (current_win_streak, current_win_streak)
    else (max_win_streak, current_win_streak)
  else (max_win_streak, 0).

Definition max_consecutive_wins (profits : list float64) : Z :=
  fst (fold_left win_step profits (0, 0)).

(** ** monte_carlo.py: vectorised streak counters *)

(** [mask[:, i]] of a boolean matrix given by its rows. *)
Definition column (i : nat) (mask : list (list bool)) : list bool :=
  map (fun row => nth i row false) mask.

(** One turn of the column loop: [np.where(mask[:, i], current + 1, 0)]
    on int64, then [np.maximum(max_streaks, current)]. *)
Definition streak_column_step (mask : list (list bool)) (st : list Z * list Z) (i : nat)
  : list Z * list Z :=
  let '(max_streaks, current_streak) := st in
  let current_streak :=
    zip_with (fun (b : bool) c => if b then wrap64 (c + 1) else 0)
             (column i mask) current_streak in
  (zip_with Z.max max_streaks current_streak, current_streak).

Definition streaks_of_mask (r c : nat) (mask : list (list bool)) : list Z :=
  fst (fold_left (streak_column_step mask) (seq 0 c)
         (replicate r 0, replicate r 0)).

Definition calculate_max_consecutive_losing_trades (simulated_trades : ndarray)
  : result (list Z) :=
  match shape simulated_trades with
  | [r; c] =>
      let losing := map (map (fun x => flt x fzero)) (chunk c r (data simulated_trades)) in
      Ret (streaks_of_mask r c losing)
  | _ => Raise (ValueError "simulated_trades must be a 2D array.")
  end.

Definition calculate_max_consecutive_winning_trades (simulated_trades : ndarray)
  : result (list Z) :=
  match shape simulated_trades with
  | [r; c] =>
      let winning := map (map (fun x => fgt x fzero)) (chunk c r (data simulated_trades)) in
      Ret (streaks_of_mask r c winning)
  | _ => Raise (ValueError "simulated_trades must be a 2D array.")
  end.

(** The specification's wording of a streak: the longest run of
    consecutive elements satisfying [p]. [n] is that length when some
    window of [n] consecutive elements satisfies [p] throughout and no
    longer window does. *)
Definition run_at {A} (p : A -> bool) (l : list A) (i n : nat) : Prop :=
  (i + n <= length l)%nat /\
  forall j x, (i <= j < i + n)%nat -> l !! j = Some x -> p x = true.

Definition longest_run {A} (p : A -> bool) (l : list A) (n : nat) : Prop :=
  (exists i, run_at p l i n) /\ (forall i m, run_at p l i m -> (m <= n)%nat).

(** Both scalar counters are one loop over the sign test of the row. *)
Definition flag_step (st : Z * Z) (b : bool) : Z * Z :=
  let '(mx, cur) := st in
  if b then
    let cur := cur + 1 in
    if cur >? mx then (cur, cur) else (mx, cur)
  else (mx, 0).

Definition flag_state (flags : list bool) : Z * Z := fold_left flag_step flags (0, 0).

(** What the loop knows after reading [l]: [cur] is the length of the
    run that ends at the end of [l], [mx] the longest run anywhere. *)
Definition streak_invariant {A} (p : A -> bool) (l : list A) (st : Z * Z) : Prop :=
  0 <= snd st /\ 0 <= fst st
  /\ run_at p l (length l - Z.to_nat (snd st)) (Z.to_nat (snd st))
  /\ (forall m, (m <= length l)%nat -> run_at p l (length l - m) m ->
                (m <= Z.to_nat (snd st))%nat)
  /\ longest_run p l (Z.to_nat (fst st)).

(** ** monte_carlo.py: drawdown per path *)

(** [np.maximum] on two floats: NaN wins, otherwise the larger. *)
Definition np_maximum (a b : float64) : float64 :=
  if fge a b || is_nan a then a else b.

(** [np.maximum.accumulate] along one row. *)
Fixpoint maximum_accumulate_from (acc : float64) (row : list float64) : list float64 :=
  match row with
  | [] => []
  | x :: row' => let acc' := np_maximum acc x in acc' :: maximum_accumulate_from acc' row'
  end.

Definition maximum_accumulate (row : list float64) : list float64 :=
  match row with
  | [] => []
  | x :: row' => x :: maximum_accumulate_from x row'
  end.

Definition zero_size_reduction : exn :=
  ValueError "zero-size array to reduction operation maximum which has no identity".

(** [row.max()]: a reduction with [np.maximum], which has no identity. *)
Definition row_max (row : list float64) : result float64 :=
  match row with
  | [] => Raise zero_size_reduction
  | x :: row' => Ret (fold_left np_maximum row' x)
  end.

Fixpoint max_axis1 (rows : list (list float64)) : result (list float64) :=
  match rows with
  | [] => Ret []
  | row :: rows' =>
      m ← row_max row;
      ms ← max_axis1 rows';
      Ret (m :: ms)
  end.

Definition drawdown_row (as_percentage : bool) (row : list float64) : list float64 :=
  let roll_max := maximum_accumulate row in
  let drawdowns := zip_with fsub roll_max row in
  if as_percentage then
    let safe_roll_max := map (fun m => if feq m fzero then fone else m) roll_max in
    zip_with (fun d s => fmul (fdiv d s) (f64_of_Z 100)) drawdowns safe_roll_max
  else drawdowns.

Definition not_1d_or_2d : exn := ValueError "cumulative_profits must be a 1D or 2D array.".

Definition calculate_max_drawdown (cumulative_profits : pyvalue) (as_percentage : bool)
  : result (list float64) :=
  match cumulative_profits with
  | VList _ => Raise (TypeError "cumulative_profits must be a NumPy array.")
  | VNdarray a =>
      a2 ← (if decide (ndim a = 1%nat) then Ret (reshape_1_row a)
            else if decide (ndim a ≠ 2%nat) then Raise not_1d_or_2d
            else Ret a);
      match shape a2 with
      | [r; c] =>
          if decide (c = 0%nat) then Raise zero_size_reduction
          else max_axis1 (map (drawdown_row as_percentage) (chunk c r (data a2)))
      | _ => Raise not_1d_or_2d
      end
  end.

(** ** pandas frames

    A frame is its columns in order, each a name and its cells. A numeric
    cell is a float (NaN is the missing number), a timestamp cell counts
    seconds, [CNaT] is the missing timestamp. *)

Inductive cell : Type :=
| CNum (x : float64)
| CStr (s : string)
| CTime (t : Z)
| CNaT.

Definition DataFrame : Type := list (string * list cell).

Definition columns (df : DataFrame) : list string := map fst df.

Fixpoint get_column (name : string) (df : DataFrame) : option (list cell) :=
  match df with
  | [] => None
  | (n, cells) :: df' => if String.eqb n name then Some cells else get_column name df'
  end.

Definition has_column (name : string) (df : DataFrame) : bool :=
  match get_column name df with Some _ => true | None => false end.

(** [len(df)]: the length of the index, here of the first column. *)
Definition frame_len (df : DataFrame) : nat :=
  match df with
  | [] => O
  | (_, cells) :: _ => length cells
  end.

(** [df[name]] as a read: [KeyError] when the column is absent. *)
Definition getitem (name : string) (df : DataFrame) : result (list cell) :=
  match get_column name df with
  | Some cells => Ret cells
  | None => Raise (KeyError name)
  end.

(** [df[name] = cells]: replaces the column in place, or appends it. *)
Fixpoint setitem (name : string) (cells : list cell) (df : DataFrame) : DataFrame :=
  match df with
  | [] => [(name, cells)]
  | (n, old) :: df' =>
      if String.eqb n name then (n, cells) :: df' else (n, old) :: setitem name cells df'
  end.

(** The floats of a numeric column; anything else in it is outside what
    the arithmetic of the engine accepts. *)
Fixpoint as_floats (cells : list cell) : result (list float64) :=
  match cells with
  | [] => Ret []
  | CNum x :: cells' => xs ← as_floats cells'; Ret (x :: xs)
  | _ :: _ => Raise (TypeError "unsupported operand type(s)")
  end.

(** ** monte_carlo.py: resampling

    [np.random] is the process-wide generator: a state, the state a seed
    installs, a draw of an index below a bound and a draw of a
    permutation. Index draws stay below their bound and a permutation
    draw permutes: that is all the engine relies on. *)

Class NumpyRandom : Type := {
  rng_state : Type;
  rng_of_seed : Z -> rng_state;
  random_index : nat -> rng_state -> nat * rng_state;
  random_permutation : list float64 -> rng_state -> list float64 * rng_state;
  random_index_bound : forall bound g, (0 < bound)%nat -> (fst (random_index bound g) < bound)%nat;
  random_permutation_perm : forall l g, Permutation (fst (random_permutation l g)) l
}.

Section MonteCarlo.
Context `{NumpyRandom}.

(** [np.random.seed(seed)]: the legacy seeding takes 32-bit seeds. *)
Definition np_random_seed (seed : Z) (g : rng_state) : result unit * rng_state :=
  if (0 <=? seed) && (seed <? 2 ^ 32) then (Ret tt, rng_of_seed seed)
  else (Raise (ValueError "Seed must be between 0 and 2**32 - 1"), g).

Fixpoint draw_indices (k bound : nat) (g : rng_state) : list nat * rng_state :=
  match k with
  | O => ([], g)
  | S k' =>
      let '(i, g1) := random_index bound g in
      let '(rest, g2) := draw_indices k' bound g1 in
      (i :: rest, g2)
  end.

Definition negative_dimensions : exn := ValueError "negative dimensions are not allowed".

(** [np.random.choice(a, size=(rows, cols), replace=True)]: an empty
    population is refused unless no sample is asked for, then the indices
    are drawn. *)
Definition np_random_choice (a : list float64) (rows cols : Z) (g : rng_state)
  : result ndarray * rng_state :=
  if (length a =? 0)%nat && negb (rows * cols =? 0)
  then (Raise (ValueError "'a' cannot be empty unless no samples are taken"), g)
  else if (rows <? 0) || (cols <? 0) then (Raise negative_dimensions, g)
  else
    let size := (Z.to_nat rows * Z.to_nat cols)%nat in
    let '(indices, g1) := draw_indices size (length a) g in
    (Ret (mk_ndarray [Z.to_nat rows; Z.to_nat cols] (map (fun i => nth i a fnan) indices)), g1).

(** The loop of the shuffling method: one permutation per path, cut to
    [num_trades]. *)
Fixpoint shuffled_rows (num_simulations : nat) (profits : list float64) (num_trades : nat)
    (g : rng_state) : list (list float64) * rng_state :=
  match num_simulations with
  | O => ([], g)
  | S k =>
      let '(shuffled_profits, g1) := random_permutation profits g in
      let '(rows, g2) := shuffled_rows k profits num_trades g1 in
      (take num_trades shuffled_profits :: rows, g2)
  end.

Definition unknown_method (method : string) : exn :=
  ValueError ("Unknown method: " +:+ method
              +:+ ". Choose either 'random_choice' or 'randomized_shuffling'.").

Definition too_many_trades (num_trades total_trades_available : Z) : exn :=
  ValueError ("For 'randomized_shuffling', num_trades (" +:+ pretty num_trades
              +:+ ") cannot exceed the total number of available trades ("
              +:+ pretty total_trades_available +:+ ").").

Definition monte_carlo_simulation (trades : DataFrame) (num_simulations : Z)
    (num_trades : option Z) (method : string) (seed : option Z) (g : rng_state)
  : result ndarray * rng_state :=
  match get_column "Profit" trades with
  | None => (Raise (KeyError "The input DataFrame must contain a 'Profit' column."), g)
  | Some cells =>
      match as_floats cells with
      | Raise e => (Raise e, g)
      | Ret profits =>
          let total_trades_available := Z.of_nat (length profits) in
          let num_trades := default total_trades_available num_trades in
          if negb (String.eqb method "random_choice" || String.eqb method "randomized_shuffling")
          then (Raise (unknown_method method), g)
          else if String.eqb method "randomized_shuffling"
                  && (num_trades >? total_trades_available)
          then (Raise (too_many_trades num_trades total_trades_available), g)
          else
            let '(seeded, g0) :=
              match seed with
              | Some s => np_random_seed s g
              | None => (Ret tt, g)
              end in
            match seeded with
            | Raise e => (Raise e, g0)
            | Ret _ =>
                if String.eqb method "random_choice"
                then np_random_choice profits num_simulations num_trades g0
                else if (num_simulations <? 0) || (num_trades <? 0)
                then (Raise negative_dimensions, g0)
                else
                  let '(rows, g1) :=
                    shuffled_rows (Z.to_nat num_simulations) profits
                                  (Z.to_nat num_trades) g0 in
                  (Ret (mk_ndarray [Z.to_nat num_simulations; Z.to_nat num_trades]
                                   (concat rows)), g1)
            end
      end
  end.

End MonteCarlo.

(** A small generator to run the engine with: a linear congruential
    state, indices by remainder, permutations by rotation. *)
Definition lcg_next (g : Z) : Z := (1103515245 * g + 12345) mod 2 ^ 31.

Definition lcg_permutation (l : list float64) (g : Z) : list float64 * Z :=
  (rotate (Z.to_nat (g mod Z.of_nat (length l))) l, lcg_next g).

Definition lcg_index (bound : nat) (g : Z) : nat * Z :=
  (Z.to_nat (g mod Z.of_nat bound), lcg_next g).

#[refine] Instance lcg_random : NumpyRandom := {
  rng_state := Z;
  rng_of_seed := fun s => s;
  random_index := lcg_index;
  random_permutation := lcg_permutation
}.
Proof.
  - intros bound g Hb. simpl.
    pose proof (Z.mod_pos_bound g (Z.of_nat bound)). lia.
  - intros l g. simpl. unfold rotate. rewrite Permutation_app_comm.
    now rewrite take_drop.
Defined.

(** ** What pandas and numpy do on their own

    The routines of the libraries that the engine calls and that are not
    arithmetic on single floats. [parse_datetime] is [pd.to_datetime] on
    one cell; a timestamp stays what it is and a missing one stays missing.
    [time_series_block] stands for the daily equity curve and the
    statistics read from it (resampling, percentage changes, deviations,
    the power in the growth rate); [buy_and_hold_block] for the daily
    price curve of the benchmark. Their outcome is left open: what is
    proved of the engine holds whether they return or raise. *)

Inductive parsed : Type :=
| Parsed (t : Z)
| Missing
| Unparsable.

Record TimeSeriesStats : Type := mk_stats {
  equity_curve : DataFrame;
  expected_shortfall : float64;
  sqn : float64;
  sharpe_ratio : float64;
  sortino_ratio : float64;
  cagr : float64;
  annual_return_dollar : float64;
  annual_volatility : float64;
  max_drawdown : float64;
  percentage_drawdown : float64;
  dd_period : Z
}.

Class Externals : Type := {
  parse_datetime : cell -> parsed;
  parse_datetime_time : forall t, parse_datetime (CTime t) = Parsed t;
  parse_datetime_nat : parse_datetime CNaT = Missing;
  year_of : Z -> Z;
  month_of : Z -> Z;
  month_name : Z -> string;
  np_power : float64 -> float64 -> float64;
  np_percentile : list float64 -> Z -> float64;
  time_series_block : DataFrame -> string -> float64 -> float64 -> result TimeSeriesStats;
  buy_and_hold_block : DataFrame -> string -> cell -> float64 -> result (DataFrame * float64 * float64)
}.

(** ** Frames: dates, rows, order *)

Section FrameOperations.
Context `{Externals}.

(** [pd.to_datetime(column)]: an unparsable cell raises. *)
Fixpoint to_datetime (cells : list cell) : result (list cell) :=
  match cells with
  | [] => Ret []
  | c :: cells' =>
      match parse_datetime c with
      | Unparsable => Raise (ValueError "Unknown datetime string format")
      | Parsed t => cs ← to_datetime cells'; Ret (CTime t :: cs)
      | Missing => cs ← to_datetime cells'; Ret (CNaT :: cs)
      end
  end.

(** [pd.to_datetime(column, errors='coerce')]: an unparsable cell becomes NaT. *)
Definition to_datetime_coerce (cells : list cell) : list cell :=
  map (fun c => match parse_datetime c with
                | Parsed t => CTime t
                | Missing | Unparsable => CNaT
                end) cells.

End FrameOperations.

(** [df.iloc[rows]]: the rows at the given positions, in that order. *)
Definition take_rows (rows : list nat) (df : DataFrame) : DataFrame :=
  map (fun '(name, cells) => (name, omap (fun i => cells !! i) rows)) df.

(** Order of the sort keys: timestamps ascending, missing ones last. *)
Definition key_le (a b : cell) : bool :=
  match a, b with
  | CTime x, CTime y => x <=? y
  | CTime _, _ => true
  | _, CTime _ => false
  | _, _ => true
  end.

Fixpoint insert_by_key (k : cell * nat) (sorted : list (cell * nat)) : list (cell * nat) :=
  match sorted with
  | [] => [k]
  | k' :: sorted' =>
      if key_le (fst k) (fst k') then k :: sorted else k' :: insert_by_key k sorted'
  end.

(** Positions of the rows in sorted order (equal keys keep their order). *)
Definition argsort (keys : list cell) : list nat :=
  map snd (foldr insert_by_key [] (zip keys (seq 0 (length keys)))).

(** [df.sort_values(by=name)]. *)
Definition sort_values (name : string) (df : DataFrame) : result DataFrame :=
  keys ← getitem name df;
  Ret (take_rows (argsort keys) df).

Definition same_key (a b : cell) : bool :=
  match a, b with
  | CTime x, CTime y => x =? y
  | CNaT, CNaT => true
  | CNum x, CNum y => feq x y || (is_nan x && is_nan y)
  | CStr x, CStr y => String.eqb x y
  | _, _ => false
  end.

(** Positions of the first row of every key. *)
Fixpoint first_occurrences (seen : list cell) (keys : list cell) (i : nat) : list nat :=
  match keys with
  | [] => []
  | k :: keys' =>
      if existsb (same_key k) seen then first_occurrences seen keys' (S i)
      else i :: first_occurrences (k :: seen) keys' (S i)
  end.

(** [df.drop_duplicates(subset=[name])]. *)
Definition drop_duplicates (name : string) (df : DataFrame) : result DataFrame :=
  keys ← getitem name df;
  Ret (take_rows (first_occurrences [] keys 0) df).

(** ** Frames: selection, filtering, joining *)

(** [df[names]]: the named columns in the order asked for. *)
Fixpoint select_columns (names : list string) (df : DataFrame) : result DataFrame :=
  match names with
  | [] => Ret []
  | name :: names' =>
      cells ← getitem name df;
      rest ← select_columns names' df;
      Ret ((name, cells) :: rest)
  end.

(** Positions at which a boolean mask holds. *)
Fixpoint mask_positions (mask : list bool) (i : nat) : list nat :=
  match mask with
  | [] => []
  | b :: mask' => if b then i :: mask_positions mask' (S i) else mask_positions mask' (S i)
  end.

(** [df[mask]]. *)
Definition filter_rows (mask : list bool) (df : DataFrame) : DataFrame :=
  take_rows (mask_positions mask 0) df.

(** [df.empty]. *)
Definition frame_empty (df : DataFrame) : bool := (frame_len df =? 0)%nat.

(** [df.rename(columns=mapping)]. *)
Definition rename_columns (mapping : list (string * string)) (df : DataFrame) : DataFrame :=
  map (fun '(name, cells) =>
         match find (fun '(old, _) => String.eqb old name) mapping with
         | Some (_, new) => (new, cells)
         | None => (name, cells)
         end) df.

(** Pairs of positions (left, right) with equal keys, in the order of the
    left rows. *)
Definition join_positions (lkeys rkeys : list cell) : list (nat * nat) :=
  flat_map (fun '(i, k) =>
              flat_map (fun '(j, k') => if same_key k k' then [(i, j)] else [])
                       (zip (seq 0 (length rkeys)) rkeys))
           (zip (seq 0 (length lkeys)) lkeys).

Definition is_member (name : string) (names : list string) : bool :=
  existsb (String.eqb name) names.

(** [pd.merge(left, right, on=key, suffixes=(sl, sr))], an inner join:
    the key column, then the other columns of [left], then those of
    [right]; a name the two share takes the suffix of its side. *)
Definition merge (left right : DataFrame) (key sl sr : string) : result DataFrame :=
  lkeys ← getitem key left;
  rkeys ← getitem key right;
  let pairs := join_positions lkeys rkeys in
  let lrest := List.filter (fun '(n, _) => negb (String.eqb n key)) left in
  let rrest := List.filter (fun '(n, _) => negb (String.eqb n key)) right in
  let lname n := if is_member n (columns rrest) then n +:+ sl else n in
  let rname n := if is_member n (columns lrest) then n +:+ sr else n in
  Ret ((key, omap (fun p => lkeys !! fst p) pairs)
         :: map (fun '(n, cells) => (lname n, omap (fun p => cells !! fst p) pairs)) lrest
         ++ map (fun '(n, cells) => (rname n, omap (fun p => cells !! snd p) pairs)) rrest).

(** ** Strings *)

Definition ascii_lower (c : ascii) : ascii :=
  let n := nat_of_ascii c in
  if (65 <=? n)%nat && (n <=? 90)%nat then ascii_of_nat (n + 32) else c.

Fixpoint lower (s : string) : string :=
  match s with
  | EmptyString => EmptyString
  | String c s' => String (ascii_lower c) (lower s')
  end.

(** [sub in s]. *)
Definition contains (sub s : string) : bool :=
  match String.index 0 sub s with Some _ => true | None => false end.

(** One cell of [series.str.contains(pat, case=False, na=False)]. *)
Definition str_contains_nocase (pat : string) (c : cell) : bool :=
  match c with
  | CStr s => contains (lower pat) (lower s)
  | _ => false
  end.

(** ** data_processing.py: the normaliser *)

Definition final_format_cols : list string :=
  ["Trade #"; "Type"; "lots"; "Entry Date"; "Exit Date";
   "Entry Price"; "Exit Price"; "Profit"; "Total Commission"; "Net Profit"].

Definition required_columns : list string := ["Type"; "Trade #"; "Date/Time"; "Contracts"].

Definition column_not_found (column input_filename : string) : exn :=
  ValueError ("Column '" +:+ column +:+ "' not found in file: " +:+ input_filename
              +:+ ". If your file is in final format, make sure all final columns exist.").

Definition no_price_column (input_filename : string) : exn :=
  ValueError ("No 'Price' column found in file: " +:+ input_filename
              +:+ ". Make sure your file has a column starting with 'Price', or it's already in final format.").

Definition no_profit_column (input_filename : string) : exn :=
  ValueError ("Unable to detect correct 'Profit' column in file: " +:+ input_filename +:+ ".").

Definition no_entry_or_exit (input_filename : string) : exn :=
  ValueError ("File " +:+ input_filename
              +:+ " must contain both 'Entry' and 'Exit' trades, or be in final format.").

(** The loop over [required_columns]. *)
Fixpoint check_required (names : list string) (df : DataFrame) (input_filename : string)
  : result unit :=
  match names with
  | [] => Ret tt
  | column :: names' =>
      if has_column column df then check_required names' df input_filename
      else Raise (column_not_found column input_filename)
  end.

(** Everything before the first write: the schema checks and the lots. *)
Definition schema_and_lots (trade_data : DataFrame) (input_filename : string)
  : result (string * string * list float64) :=
  _ ← check_required required_columns trade_data input_filename;
  match find (String.prefix "Price") (columns trade_data) with
  | None => Raise (no_price_column input_filename)
  | Some price_column =>
      match find (contains "Profit") (columns trade_data) with
      | None => Raise (no_profit_column input_filename)
      | Some profit_column =>
          contracts ← getitem "Contracts" trade_data;
          contracts ← as_floats contracts;
          Ret (price_column, profit_column,
               map (fun x => fdiv x (f64_of_Z 100000)) contracts)
      end
  end.

(** The pairing of entries and exits, on the frame that has its [Lots] and
    [Commission] columns. *)
Definition pair_trades (trade_data : DataFrame) (price_column profit_column : string)
    (input_filename : string) : result DataFrame :=
  types ← getitem "Type" trade_data;
  let entries := filter_rows (map (str_contains_nocase "Entry") types) trade_data in
  let exits := filter_rows (map (str_contains_nocase "Exit") types) trade_data in
  if frame_empty entries || frame_empty exits then Raise (no_entry_or_exit input_filename)
  else
    left ← select_columns ["Trade #"; "Date/Time"; price_column; "Contracts"; "Commission"] entries;
    right ← select_columns ["Trade #"; "Date/Time"; price_column; profit_column; "Contracts"] exits;
    paired_trades ← merge left right "Trade #" "_Entry" "_Exit";
    entry_types ← getitem "Type" entries;
    let side := if negb (frame_empty entries) then default (CStr "N/A") (head entry_types)
                else CStr "N/A" in
    let paired_trades := setitem "Type" (replicate (frame_len paired_trades) side) paired_trades in
    let formatted_trades :=
      rename_columns [("Date/Time_Entry", "Entry Date");
                      ("Date/Time_Exit", "Exit Date");
                      (price_column +:+ "_Entry", "Entry Price");
                      (price_column +:+ "_Exit", "Exit Price");
                      ("Contracts_Entry", "Contracts");
                      (profit_column, "Profit");
                      ("Commission_Entry", "Commission")] paired_trades in
    commission ← getitem "Commission" formatted_trades;
    let formatted_trades := setitem "Total Commission" commission formatted_trades in
    profit ← getitem "Profit" formatted_trades;
    profit ← as_floats profit;
    total_commission ← getitem "Total Commission" formatted_trades;
    total_commission ← as_floats total_commission;
    let formatted_trades :=
      setitem "Net Profit" (map CNum (zip_with fsub profit total_commission)) formatted_trades in
    select_columns ["Trade #"; "Type"; "Contracts"; "Entry Date"; "Exit Date";
                    "Entry Price"; "Exit Price"; "Profit"; "Total Commission"; "Net Profit"]
                   formatted_trades.

Section Normaliser.
Context `{Externals}.

(** The body of the [try]: its outcome, and the caller's frame as the
    body leaves it. *)
Definition format_trade_data_body (trade_data : DataFrame) (input_filename : string)
  : result DataFrame * DataFrame :=
  if forallb (fun col => has_column col trade_data) final_format_cols then
    let entry_date := to_datetime_coerce (default [] (get_column "Entry Date" trade_data)) in
    let trade_data := setitem "Entry Date" entry_date trade_data in
    let exit_date := to_datetime_coerce (default [] (get_column "Exit Date" trade_data)) in
    let trade_data := setitem "Exit Date" exit_date trade_data in
    (select_columns final_format_cols trade_data, trade_data)
  else
    match schema_and_lots trade_data input_filename with
    | Raise e => (Raise e, trade_data)
    | Ret (price_column, profit_column, lots) =>
        let trade_data := setitem "Lots" (map CNum lots) trade_data in
        let commission := map (fun x => CNum (fmul x (f64_of_Z 4))) lots in
        let trade_data := setitem "Commission" commission trade_data in
        (pair_trades trade_data price_column profit_column input_filename, trade_data)
    end.

End Normaliser.

(** ** The objects the caller holds

    Frames are passed by reference: the store maps an object to the frame
    it currently is. A function that writes into its argument writes into
    the store; a [.copy()] is a value of its own. *)

Abbreviation loc := positive (only parsing).
Abbreviation store := (gmap positive DataFrame) (only parsing).

Section Boundary.
Context `{Externals}.

(** [format_trade_data]: the [except] turns every exception of the body
    into the absent result. An argument that is no frame fails in the body
    as well. *)
Definition format_trade_data (st : store) (trade_data : loc) (input_filename : string)
  : option DataFrame * store :=
  match st !! trade_data with
  | None => (None, st)
  | Some df =>
      let '(outcome, df') := format_trade_data_body df input_filename in
      (match outcome with Ret formatted => Some formatted | Raise _ => None end,
       <[trade_data := df']> st)
  end.

End Boundary.

(** ** metrics_calculation.py: the metrics *)

(** [series.sum()] and [series.mean()]: missing numbers are skipped; the
    mean of nothing is NaN. *)
Definition series_sum (xs : list float64) : float64 :=
  fold_left fadd (List.filter (fun x => negb (is_nan x)) xs) fzero.

Definition series_mean (xs : list float64) : float64 :=
  let present := List.filter (fun x => negb (is_nan x)) xs in
  match present with
  | [] => fnan
  | _ => fdiv (series_sum xs) (f64_of_Z (Z.of_nat (length present)))
  end.

(** [x or 0]. *)
Definition or_zero (x : float64) : float64 := if truthy x then x else fzero.

(** The values behind the entries of the metrics mapping (the mapping
    holds their renderings by f-strings). *)
Record Metrics : Type := mk_metrics {
  buy_and_hold_return : option (float64 * float64);
  number_of_trades : Z;
  win_rate : float64;
  risk_reward_ratio : float64;
  total_net_profit : float64;
  total_net_profit_pct : float64;
  series_stats : TimeSeriesStats;
  max_consec_losses : Z;
  max_consec_wins : Z
}.

Definition DEFAULT_RISK_FREE_RATE : float64 := fdiv (f64_of_Z 2) (f64_of_Z 100).

(** The default of the [initial_balance] parameters. *)
Definition default_balance : float64 := f64_of_Z 10000.

Definition out_of_bounds : exn := IndexError "single positional indexer is out-of-bounds".

Section Metrics.
Context `{Externals}.

Definition calculate_buy_and_hold (trades : DataFrame) (date_column : string)
    (initial_balance : float64) : result (DataFrame * float64 * float64) :=
  (* trades = trades.copy() *)
  dates ← getitem date_column trades;
  dates ← to_datetime dates;
  let trades := setitem date_column dates trades in
  trades_sorted ← sort_values date_column trades;
  trades_sorted ← drop_duplicates date_column trades_sorted;
  (* first_trade = trades_sorted.iloc[0] *)
  if (frame_len trades_sorted =? 0)%nat then Raise out_of_bounds
  else
    prices ← getitem "Entry Price" trades_sorted;
    match prices with
    | [] => Raise out_of_bounds
    | buy_price :: _ =>
        buy_and_hold_block trades_sorted date_column buy_price initial_balance
    end.

Definition calculate_metrics (trades : DataFrame) (date_column : string)
    (initial_balance risk_free_rate : float64) (include_buy_and_hold : bool)
  : result (Metrics * DataFrame) :=
  (* trades = trades.copy() *)
  dates ← getitem date_column trades;
  dates ← to_datetime dates;
  let trades := setitem date_column dates trades in
  trades ← sort_values date_column trades;
  net_profit ← getitem "Net Profit" trades;
  net_profit ← as_floats net_profit;
  let total_profit := series_sum net_profit in
  let number_of_trades := Z.of_nat (frame_len trades) in
  let winning_trades := Z.of_nat (length (List.filter (fun x => fgt x fzero) net_profit)) in
  let winning_percentage :=
    if number_of_trades >? 0
    then fmul (fdiv (f64_of_Z winning_trades) (f64_of_Z number_of_trades)) (f64_of_Z 100)
    else fzero in
  let average_win := or_zero (series_mean (List.filter (fun x => fgt x fzero) net_profit)) in
  let average_loss := or_zero (series_mean (List.filter (fun x => flt x fzero) net_profit)) in
  let risk_reward_ratio :=
    if fne average_win fzero then fdiv (fabs average_loss) average_win else finf in
  let max_consec_losses := max_consecutive_losses net_profit in
  let max_consec_wins := max_consecutive_wins net_profit in
  let total_net_profit := total_profit in
  let total_net_profit_pct :=
    if fne initial_balance fzero
    then fmul (fdiv total_net_profit initial_balance) (f64_of_Z 100)
    else fzero in
  stats ← time_series_block trades date_column initial_balance risk_free_rate;
  bah ← (if include_buy_and_hold
         then '(_, bah_dollar, bah_pct) ← calculate_buy_and_hold trades date_column initial_balance;
              Ret (Some (bah_dollar, bah_pct))
         else Ret None);
  Ret (mk_metrics bah number_of_trades winning_percentage risk_reward_ratio
         total_net_profit total_net_profit_pct stats max_consec_losses max_consec_wins,
       equity_curve stats).

End Metrics.

(** ** visualize.py: the two tables *)

(** The values behind one line of the confidence-level table. *)
Record MonteCarloRow : Type := mk_row {
  mc_level : Z;
  mc_net_profit : float64;
  mc_r_expectancy : float64;
  mc_annual_return : float64;
  mc_max_drawdown : float64;
  mc_return_dd_ratio : float64
}.

Definition confidence_levels : list Z := [50; 70; 80; 90; 95; 98; 100].

(** [len(a)]: the first dimension. *)
Definition ndarray_len (a : ndarray) : result Z :=
  match shape a with
  | [] => Raise (TypeError "len() of unsized object")
  | r :: _ => Ret (Z.of_nat r)
  end.

(** [a[:, -1]]: the last element of every row. *)
Definition last_column (a : ndarray) : result (list float64) :=
  match shape a with
  | [r; c] =>
      if (c =? 0)%nat then Raise (IndexError "index -1 is out of bounds for axis 1 with size 0")
      else Ret (omap (fun row : list float64 => last row) (chunk c r (data a)))
  | _ => Raise (IndexError "too many indices for array")
  end.

(** [1 / n] on Python integers. *)
Definition int_reciprocal (n : Z) : result float64 :=
  if n =? 0 then Raise (ZeroDivisionError "division by zero")
  else Ret (fdiv fone (f64_of_Z n)).

Section Tables.
Context `{Externals}.

(** The body of the loop over the confidence levels. *)
Definition monte_carlo_row (cumulative_profits : ndarray) (initial_balance : float64)
    (level : Z) : result MonteCarloRow :=
  max_dd ← calculate_max_drawdown (VNdarray cumulative_profits) false;
  finals ← last_column cumulative_profits;
  let net_profit := np_percentile (map (fun x => fsub x initial_balance) finals) level in
  let max_drawdown := np_percentile max_dd level in
  let return_dd_ratio :=
    if fne max_drawdown fzero then fdiv net_profit max_drawdown else finf in
  let r_expectancy := fdiv net_profit initial_balance in
  n ← ndarray_len cumulative_profits;
  exponent ← int_reciprocal n;
  let annual_return :=
    fsub (np_power (fdiv (fadd net_profit initial_balance) initial_balance) exponent) fone in
  Ret (mk_row level net_profit r_expectancy annual_return max_drawdown return_dd_ratio).

Fixpoint monte_carlo_rows (cumulative_profits : ndarray) (initial_balance : float64)
    (levels : list Z) : result (list MonteCarloRow) :=
  match levels with
  | [] => Ret []
  | level :: levels' =>
      row ← monte_carlo_row cumulative_profits initial_balance level;
      rows ← monte_carlo_rows cumulative_profits initial_balance levels';
      Ret (row :: rows)
  end.

(** The lines of the table that [display_monte_carlo_metrics] shows. *)
Definition display_monte_carlo_metrics (cumulative_profits : ndarray)
    (initial_balance : float64) : result (list MonteCarloRow) :=
  monte_carlo_rows cumulative_profits initial_balance confidence_levels.

(** The [.dt] accessor: the column has to hold timestamps. *)
Fixpoint dt (cells : list cell) : result (list (option Z)) :=
  match cells with
  | [] => Ret []
  | CTime t :: cells' => ts ← dt cells'; Ret (Some t :: ts)
  | CNaT :: cells' => ts ← dt cells'; Ret (None :: ts)
  | _ :: _ => Raise (AttributeError "Can only use .dt accessor with datetimelike values")
  end.

Definition year_cell (t : option Z) : cell :=
  match t with
  | Some t => CStr (pretty (year_of t))
  | None => CStr "nan"
  end.

Definition month_name_cell (t : option Z) : cell :=
  match t with
  | Some t => CStr (month_name (month_of t))
  | None => CNum fnan
  end.

Definition month_cell (t : option Z) : cell :=
  match t with
  | Some t => CNum (f64_of_Z (month_of t))
  | None => CNum fnan
  end.

Definition groupby_column_not_found (name : string) : exn :=
  KeyError ("Column not found: " +:+ name).

(** [df.groupby(keys)[name]]: the selection of a column from a grouped
    frame; a column that is not there is reported in the words of the
    grouping, not as the bare name. *)
Definition groupby_getitem (name : string) (df : DataFrame) : result (list cell) :=
  match get_column name df with
  | Some cells => Ret cells
  | None => Raise (groupby_column_not_found name)
  end.

(** The writes of [monthly_performance_table] into the frame it is given,
    in their order, and the first read of the grouping after them. The
    table itself goes to the display. *)
Definition monthly_performance_frame (trades : DataFrame) (date_column : string)
  : result unit * DataFrame :=
  match getitem date_column trades ≫= to_datetime with
  | Raise e => (Raise e, trades)
  | Ret dates =>
      let trades := setitem date_column dates trades in
      match getitem date_column trades ≫= dt with
      | Raise e => (Raise e, trades)
      | Ret ts =>
          let trades := setitem "Year" (map year_cell ts) trades in
          match getitem date_column trades ≫= dt with
          | Raise e => (Raise e, trades)
          | Ret ts =>
              let trades := setitem "Month" (map month_name_cell ts) trades in
              match getitem date_column trades ≫= dt with
              | Raise e => (Raise e, trades)
              | Ret ts =>
                  let trades := setitem "Month_Num" (map month_cell ts) trades in
                  (profit ← groupby_getitem "Profit" trades; _ ← as_floats profit; Ret tt,
                   trades)
              end
          end
      end
  end.

Definition not_subscriptable : exn := TypeError "'NoneType' object is not subscriptable".

Definition monthly_performance_table (st : store) (trades : loc) (date_column : string)
    (initial_balance : float64) (mode : string) : result unit * store :=
  match st !! trades with
  | None => (Raise not_subscriptable, st)
  | Some df =>
      let '(outcome, df') := monthly_performance_frame df date_column in
      (outcome, <[trades := df']> st)
  end.

(** [calculate_metrics] on an object of the caller: it starts with
    [trades = trades.copy()] and works on the copy. *)
Definition calculate_metrics_call (st : store) (trades : loc) (date_column : string)
    (initial_balance risk_free_rate : float64) (include_buy_and_hold : bool)
  : result (Metrics * DataFrame) * store :=
  match st !! trades with
  | None => (Raise (AttributeError "'NoneType' object has no attribute 'copy'"), st)
  | Some df =>
      let copy := df in
      (calculate_metrics copy date_column initial_balance risk_free_rate include_buy_and_hold,
       st)
  end.

End Tables.

(** ** utils.py and metrics_calculation.py: the remaining scalar helpers *)

(** [a <= b] of Python floats. *)
Definition fle (a b : float64) : bool := SFleb a b.

Definition interpret_sqn (sqn : float64) : string :=
  if flt sqn (f64_of_Z 1) then "Very hard to trade"
  else if fle (f64_of_Z 1) sqn && flt sqn (f64_of_Z 2) then "Average"
  else if fle (f64_of_Z 2) sqn && flt sqn (f64_of_Z 3) then "Good"
  else if fle (f64_of_Z 3) sqn && flt sqn (f64_of_Z 5) then "Excellent"
  else if fle (f64_of_Z 5) sqn && flt sqn (f64_of_Z 7) then "Superb"
  else "Holy Grail".

Definition fneg_inf : float64 := S754_infinity true.

(** [series.cummax()]: the running maximum over the numbers present; a
    missing number stays missing and does not move the maximum. *)
Definition cummax (xs : list float64) : list float64 :=
  let vals := map (fun x => if is_nan x then fneg_inf else x) xs in
  zip_with (fun x m => if is_nan x then fnan else m) xs (maximum_accumulate vals).

Definition drawdown_period_step (st : Z * Z) (drawdown : bool) : Z * Z :=
  let '(max_dd_period, current_dd_period) := st in
  if drawdown then
    let current_dd_period := current_dd_period + 1 in
    if current_dd_period >? max_dd_period
    then (current_dd_period, current_dd_period)
    else (max_dd_period, current_dd_period)
  else (max_dd_period, 0).

Definition max_drawdown_period (cumulative_profit : list float64) : Z :=
  let rolling_max := cummax cumulative_profit in
  let in_drawdown := zip_with flt cumulative_profit rolling_max in
  fst (fold_left drawdown_period_step in_drawdown (0, 0)).


(** The key a number is compared by: comparing two numbers is comparing
    their keys in lexicographic order. *)
Definition float_key (x : float64) : Z * Z * Z :=
  match x with
  | S754_nan => (0, 0, 0)
  | S754_zero _ => (0, 0, 0)
  | S754_infinity true => (-2, 0, 0)
  | S754_infinity false => (2, 0, 0)
  | S754_finite true m e => (-1, - e, Z.neg m)
  | S754_finite false m e => (1, e, Z.pos m)
  end.

Definition key_lt (k1 k2 : Z * Z * Z) : Prop :=
  let '(a1, b1, c1) := k1 in
  let '(a2, b2, c2) := k2 in
  a1 < a2 \/ (a1 = a2 /\ (b1 < b2 \/ (b1 = b2 /\ c1 < c2))).

(** A number that is neither missing nor infinite. *)
Definition is_finite (x : float64) : bool :=
  match x with
  | S754_zero _ | S754_finite _ _ _ => true
  | S754_nan | S754_infinity _ => false
  end.

(** Row [i] of a raw export is an entry (resp. an exit) of trade [k]. *)
Definition entry_row (types ids : list cell) (i : nat) (k : cell) : Prop :=
  exists t, types !! i = Some t /\ ids !! i = Some k /\ str_contains_nocase "Entry" t = true.

Definition exit_row (types ids : list cell) (j : nat) (k : cell) : Prop :=
  exists t, types !! j = Some t /\ ids !! j = Some k /\ str_contains_nocase "Exit" t = true.

(** ** Sample inputs *)

(** Two simulated paths of three trades: [[100, -50, -50], [-50, 30, -10]]. *)
Definition two_paths : ndarray :=
  mk_ndarray [2%nat; 3%nat] (map f64_of_Z [100; -50; -50; -50; 30; -10]).

(** One cumulative-profit path as a 1-D array: [100, 120, 80, 90]. *)
Definition one_path : ndarray :=
  mk_ndarray [4%nat] (map f64_of_Z [100; 120; 80; 90]).

(** A pool of three historical profits: [10, -5, 20]. *)
Definition pool_profits : list float64 := map f64_of_Z [10; -5; 20].
Definition pool_cells : list cell := map CNum pool_profits.
Definition pool_ledger : DataFrame := [("Profit", pool_cells)].

(** A stand-in for the libraries, to run the engine on examples: only
    timestamps parse, a year has 365 days of 86400 seconds, the
    time-series blocks return flat curves. *)
Definition plain_parse (c : cell) : parsed :=
  match c with
  | CTime t => Parsed t
  | CNaT => Missing
  | CNum x => if is_nan x then Missing else Unparsable
  | CStr _ => Unparsable
  end.

Definition plain_stats (trades : DataFrame) : TimeSeriesStats :=
  mk_stats trades fnan fzero fzero fzero fzero fzero fzero fzero fzero 0.

#[refine] Instance plain_externals : Externals := {
  parse_datetime := plain_parse;
  year_of := fun t => 1970 + t / (365 * 86400);
  month_of := fun t => 1 + (t / (30 * 86400)) mod 12;
  month_name := fun m => "M" +:+ pretty m;
  np_power := fun x y => x;
  np_percentile := fun xs q => hd fnan xs;
  time_series_block := fun trades _ _ _ => Ret (plain_stats trades);
  buy_and_hold_block := fun trades _ _ _ => Ret (trades, fzero, fzero)
}.
Proof.
  - reflexivity.
  - reflexivity.
Defined.

(** The same stand-in with a time-series block that fails, as the
    resampling of the equity curve can. *)
Definition series_failure : exn := ValueError "cannot resample the equity curve".

Definition failing_series_externals : Externals := {|
  parse_datetime := plain_parse;
  parse_datetime_time := fun t => eq_refl;
  parse_datetime_nat := eq_refl;
  year_of := fun t => 1970 + t / (365 * 86400);
  month_of := fun t => 1 + (t / (30 * 86400)) mod 12;
  month_name := fun m => "M" +:+ pretty m;
  np_power := fun x y => x;
  np_percentile := fun xs q => hd fnan xs;
  time_series_block := fun _ _ _ _ => Raise series_failure;
  buy_and_hold_block := fun trades _ _ _ => Ret (trades, fzero, fzero)
|}.

(** A canonical ledger with no trade. *)
Definition empty_ledger : DataFrame :=
  map (fun name => (name, []))
      ["Trade #"; "Type"; "lots"; "Entry Date"; "Exit Date"; "Entry Price";
       "Exit Price"; "Profit"; "Total Commission"; "Net Profit"].

(** A ledger of one losing trade (net profit -50). *)
Definition one_loss_ledger : DataFrame :=
  [("Entry Date", [CTime 0]); ("Entry Price", [CNum (f64_of_Z 1)]);
   ("Profit", [CNum (f64_of_Z (-46))]); ("Net Profit", [CNum (f64_of_Z (-50))])].

(** A ledger that lacks its [Net Profit] column. *)
Definition ledger_without_net_profit : DataFrame :=
  [("Entry Date", [CTime 0]); ("Entry Price", [CNum (f64_of_Z 1)]);
   ("Profit", [CNum (f64_of_Z 10)])].

(** A raw export: a long trade (1), a short trade (2) and an entry that
    was never closed (3). *)
Definition raw_trades : DataFrame :=
  [("Trade #", map (fun z => CNum (f64_of_Z z)) [1; 1; 2; 2; 3]);
   ("Type", map CStr ["Entry Long"; "Exit Long"; "Entry Short"; "Exit Short"; "Entry Short"]);
   ("Date/Time", map CTime [0; 100; 200; 300; 400]);
   ("Price USD", map (fun z => CNum (f64_of_Z z)) [10; 12; 20; 21; 30]);
   ("Contracts", map (fun z => CNum (f64_of_Z z)) [100000; 100000; 200000; 200000; 100000]);
   ("Profit USD", map (fun z => CNum (f64_of_Z z)) [0; 50; 0; -20; 0])].

(** What the normaliser makes of [raw_trades]. *)
Definition raw_trades_formatted : DataFrame :=
  Eval vm_compute in
    match fst (format_trade_data_body (H := plain_externals) raw_trades "trades.csv") with
    | Ret formatted => formatted
    | Raise _ => []
    end.

(** Cumulative balances of two simulated paths over three days, from a
    balance of 100: [[110, 120, 130], [90, 95, 100]]. *)
Definition two_paths_three_days : ndarray :=
  mk_ndarray [2%nat; 3%nat] (map f64_of_Z [110; 120; 130; 90; 95; 100]).

(** The session of a caller that holds the ledger of one losing trade. *)
Definition session : store := {[ 1%positive := one_loss_ledger ]}.

(** A ledger already in final format, its dates still to be parsed. *)
Definition final_ledger : DataFrame :=
  [("Net Profit", [CNum (f64_of_Z 46); CNum (f64_of_Z (-24))]);
   ("Trade #", [CNum (f64_of_Z 1); CNum (f64_of_Z 2)]);
   ("Type", [CStr "Long"; CStr "Short"]);
   ("lots", [CNum (f64_of_Z 1); CNum (f64_of_Z 1)]);
   ("Entry Date", [CTime 0; CStr "not a date"]);
   ("Exit Date", [CTime 100; CNaT]);
   ("Entry Price", [CNum (f64_of_Z 10); CNum (f64_of_Z 20)]);
   ("Exit Price", [CNum (f64_of_Z 12); CNum (f64_of_Z 21)]);
   ("Profit", [CNum (f64_of_Z 50); CNum (f64_of_Z (-20))]);
   ("Total Commission", [CNum (f64_of_Z 4); CNum (f64_of_Z 4)]);
   ("Comment", [CStr "a"; CStr "b"])].

(** A portfolio export: net profits only, no [Profit] column. *)
Definition ledger_without_profit : DataFrame :=
  [("Entry Date", [CTime 0]); ("Strategy", [CStr "A"]);
   ("Net Profit", [CNum (f64_of_Z 10)])].

(** Three trades uploaded out of date order: a loss on day 3, a win on
    day 1, a loss on day 2. *)
Definition three_trades : DataFrame :=
  [("Entry Date", map CTime [259200; 86400; 172800]);
   ("Entry Price", map (fun z => CNum (f64_of_Z z)) [10; 11; 12]);
   ("Profit", map (fun z => CNum (f64_of_Z z)) [-1; 14; -3]);
   ("Net Profit", map (fun z => CNum (f64_of_Z z)) [-5; 10; -7])].

(* ===================================================================== *)
(** * Part II. Properties                                                  *)
(* ===================================================================== *)

(** ** Streak counters *)

Section Streaks.

Lemma loss_state_flags (profits : list float64) st :
  fold_left loss_step profits st
  = fold_left flag_step (map (fun x => flt x fzero) profits) st.
Proof.
  revert st. induction profits as [|x xs IH]; intros st; simpl; [reflexivity|].
  rewrite IH. f_equal.
Qed.

Lemma win_state_flags (profits : list float64) st :
  fold_left win_step profits st
  = fold_left flag_step (map (fun x => fgt x fzero) profits) st.
Proof.
  revert st. induction profits as [|x xs IH]; intros st; simpl; [reflexivity|].
  rewrite IH. f_equal.
Qed.

Lemma flag_state_snoc flags b :
  flag_state (flags ++ [b]) = flag_step (flag_state flags) b.
Proof. unfold flag_state. rewrite fold_left_app. reflexivity. Qed.

(** The counters stay between 0 and the number of elements read. *)
Lemma flag_state_bounds flags :
  0 <= snd (flag_state flags) <= fst (flag_state flags)
  /\ fst (flag_state flags) <= Z.of_nat (length flags).
Proof.
  induction flags as [|b flags IH] using rev_ind.
  - simpl. lia.
  - rewrite flag_state_snoc, length_app. simpl length.
    destruct (flag_state flags) as [mx cur]. simpl in IH. simpl.
    destruct b; simpl; [|lia].
    destruct (Z.gtb_spec (cur + 1) mx); simpl; lia.
Qed.

Lemma zip_with_map_same {A B C D} (f : B -> C -> D) (g : A -> B) (h : A -> C) l :
  zip_with f (map g l) (map h l) = map (fun x => f (g x) (h x)) l.
Proof. induction l as [|x l IH]; simpl; [reflexivity|]. now rewrite IH. Qed.

Lemma replicate_as_map {A B} (l : list A) (b : B) :
  replicate (length l) b = map (fun _ => b) l.
Proof. induction l as [|x l IH]; simpl; [reflexivity|]. now rewrite IH. Qed.

Lemma take_succ_nth (row : list bool) i :
  (i < length row)%nat -> take (S i) row = take i row ++ [nth i row false].
Proof.
  revert i. induction row as [|x row IH]; intros i Hi; simpl in Hi; [lia|].
  destruct i as [|i]; simpl; [reflexivity|]. rewrite IH by lia. reflexivity.
Qed.

(** After [i] turns of the column loop, every path holds the state the
    scalar loop has after the first [i] elements of its row. *)
Lemma column_loop_state (mask : list (list bool)) (c i : nat) :
  Forall (fun row => length row = c) mask ->
  (i <= c)%nat -> Z.of_nat c < 2 ^ 63 ->
  fold_left (streak_column_step mask) (seq 0 i)
    (replicate (length mask) 0, replicate (length mask) 0)
  = (map (fun row => fst (flag_state (take i row))) mask,
     map (fun row => snd (flag_state (take i row))) mask).
Proof.
  intros Hrect Hi Hc. induction i as [|i IH].
  - simpl. rewrite !replicate_as_map. reflexivity.
  - rewrite seq_S, fold_left_app, IH by lia. simpl.
    unfold column. rewrite zip_with_map_same, zip_with_map_same.
    f_equal; apply map_ext_Forall; eapply Forall_impl; try exact Hrect;
      intros row Hrow; simpl in Hrow;
      rewrite (take_succ_nth row i) by lia; rewrite flag_state_snoc;
      pose proof (flag_state_bounds (take i row)) as [Hb1 Hb2];
      rewrite length_take in Hb2;
      destruct (flag_state (take i row)) as [mx cur]; simpl in *;
      assert (Hw : wrap64 (cur + 1) = cur + 1)
        by (unfold wrap64; rewrite Z.mod_small; lia);
      destruct (nth i row false); simpl; rewrite ?Hw;
      try destruct (Z.gtb_spec (cur + 1) mx); simpl; lia.
Qed.

Lemma streaks_of_mask_rows (mask : list (list bool)) (c : nat) :
  Forall (fun row => length row = c) mask -> Z.of_nat c < 2 ^ 63 ->
  streaks_of_mask (length mask) c mask = map (fun row => fst (flag_state row)) mask.
Proof.
  intros Hrect Hc. unfold streaks_of_mask.
  rewrite (column_loop_state mask c c) by (assumption || lia). simpl.
  apply map_ext_Forall. eapply Forall_impl; try exact Hrect.
  intros row Hrow. simpl in Hrow. rewrite firstn_all2 by lia. reflexivity.
Qed.

Lemma chunk_length {A} (c r : nat) (d : list A) : length (chunk c r d) = r.
Proof. revert d. induction r as [|r IH]; intros d; simpl; [reflexivity|]. now rewrite IH. Qed.

Lemma chunk_rectangular {A} (c r : nat) (d : list A) :
  length d = (r * c)%nat -> Forall (fun row => length row = c) (chunk c r d).
Proof.
  revert d. induction r as [|r IH]; intros d Hd; simpl; constructor.
  - rewrite length_take. lia.
  - apply IH. rewrite length_drop. lia.
Qed.

End Streaks.

(** ** The scalar counter computes the longest run *)

Section LongestRun.
Context {A : Type} (p : A -> bool).

Lemma run_at_zero (l : list A) i : (i <= length l)%nat -> run_at p l i 0.
Proof. intros Hi. split; [lia|]. intros j x Hj. lia. Qed.

Lemma run_at_prefix (l : list A) b i n :
  (i + n <= length l)%nat -> run_at p (l ++ [b]) i n <-> run_at p l i n.
Proof.
  intros Hin. split; intros [Hlen Hall]; (split; [rewrite ?length_app; simpl; lia|]).
  - intros j x Hj Hx. apply (Hall j x Hj). rewrite lookup_app_l by lia. exact Hx.
  - intros j x Hj Hx. apply (Hall j x Hj). rewrite lookup_app_l in Hx by lia. exact Hx.
Qed.

Lemma run_at_extend (l : list A) b i n :
  p b = true -> run_at p l i n -> (i + n = length l)%nat ->
  run_at p (l ++ [b]) i (S n).
Proof.
  intros Hb [Hlen Hall] Hend. split; [rewrite length_app; simpl; lia|].
  intros j x Hj Hx. destruct (decide (j < length l)%nat) as [Hlt|Hge].
  - rewrite lookup_app_l in Hx by lia. apply (Hall j x); [lia|exact Hx].
  - rewrite lookup_app_r in Hx by lia.
    replace (j - length l)%nat with 0%nat in Hx by lia. simpl in Hx. congruence.
Qed.

Lemma run_at_last (l : list A) b i n :
  run_at p (l ++ [b]) i (S n) -> (i + S n = length l + 1)%nat ->
  p b = true /\ run_at p l i n.
Proof.
  intros [Hlen Hall] Hend. split.
  - apply (Hall (length l) b); [lia|].
    rewrite lookup_app_r by lia. now rewrite Nat.sub_diag.
  - split; [lia|]. intros j x Hj Hx. apply (Hall j x); [lia|].
    rewrite lookup_app_l by lia. exact Hx.
Qed.

Lemma streak_invariant_holds (l : list A) :
  streak_invariant p l (flag_state (map p l)).
Proof.
  induction l as [|b l IH] using rev_ind.
  - unfold streak_invariant, flag_state. simpl.
    split; [lia|]. split; [lia|].
    split; [apply run_at_zero; simpl; lia|].
    split; [intros m Hm _; simpl in Hm; lia|].
    split; [exists 0%nat; apply run_at_zero; simpl; lia|].
    intros i m [Hlen _]. simpl in Hlen. lia.
  - rewrite map_app. simpl map. rewrite flag_state_snoc.
    pose proof (flag_state_bounds (map p l)) as [Hb1 Hb2]. rewrite length_map in Hb2.
    destruct (flag_state (map p l)) as [mx cur].
    destruct IH as (Hc & Hm & Hsuf & Hsufmax & [[i0 Hrun] Hlong]).
    unfold streak_invariant. simpl in *.
    assert (Hlen : length (l ++ [b]) = S (length l))
      by (rewrite length_app; simpl; lia).
    destruct (p b) eqn:Hpb; simpl.
    + (* the run that ends here grows by one *)
      assert (Hsuf' : run_at p (l ++ [b]) (length l - Z.to_nat cur) (S (Z.to_nat cur))).
      { apply run_at_extend; [exact Hpb|exact Hsuf|]. lia. }
      assert (Hsufmax' : forall m, (m <= S (length l))%nat ->
                run_at p (l ++ [b]) (S (length l) - m) m -> (m <= S (Z.to_nat cur))%nat).
      { intros m Hmle Hr. destruct m as [|m]; [lia|].
        apply run_at_last in Hr; [|lia]. destruct Hr as [_ Hr].
        replace (S (length l) - S m)%nat with (length l - m)%nat in Hr by lia.
        apply Hsufmax in Hr; lia. }
      assert (Hany : forall i m, run_at p (l ++ [b]) i m ->
                (m <= Z.to_nat mx)%nat \/ (m <= S (Z.to_nat cur))%nat).
      { intros i m Hr. pose proof Hr as [Hle _]. rewrite Hlen in Hle.
        destruct (decide (i + m <= length l)%nat) as [Hin|Hout].
        - left. apply (Hlong i). apply (run_at_prefix l b i m Hin). exact Hr.
        - right. apply Hsufmax'; [lia|].
          replace (S (length l) - m)%nat with i by lia. exact Hr. }
      destruct (Z.gtb_spec (cur + 1) mx) as [Hgt|Hle]; simpl; rewrite Hlen;
        replace (Z.to_nat (cur + 1)) with (S (Z.to_nat cur)) by lia;
        replace (S (length l) - S (Z.to_nat cur))%nat
          with (length l - Z.to_nat cur)%nat by lia;
        (split; [lia|split; [lia|split; [exact Hsuf'|split; [exact Hsufmax'|]]]]).
      * split; [eexists; exact Hsuf'|].
        intros i m Hr. destruct (Hany i m Hr); lia.
      * split.
        -- exists i0. pose proof Hrun as [Hle0 _].
           apply (run_at_prefix l b i0 _ Hle0). exact Hrun.
        -- intros i m Hr. destruct (Hany i m Hr); lia.
    + (* the run is broken: only the empty run ends here *)
      assert (Hnone : forall i m, run_at p (l ++ [b]) i (S m) ->
                (i + S m = length l + 1)%nat -> False).
      { intros i m Hr He. apply run_at_last in Hr; [|exact He].
        destruct Hr as [Hr _]. congruence. }
      rewrite Hlen. change (Z.to_nat 0) with 0%nat. rewrite ?Nat.sub_0_r.
      split; [lia|split; [lia|split; [|split]]].
      * apply run_at_zero. rewrite Hlen. lia.
      * intros m Hmle Hr. destruct m as [|m]; [lia|].
        exfalso. apply (Hnone _ _ Hr). lia.
      * split.
        -- exists i0. pose proof Hrun as [Hle0 _].
           apply (run_at_prefix l b i0 _ Hle0). exact Hrun.
        -- intros i m Hr. pose proof Hr as [Hle _]. rewrite Hlen in Hle.
           destruct (decide (i + m <= length l)%nat) as [Hin|Hout].
           ++ apply (Hlong i). apply (run_at_prefix l b i m Hin). exact Hr.
           ++ destruct m as [|m]; [lia|]. exfalso. apply (Hnone _ _ Hr). lia.
Qed.

Lemma flag_state_longest_run (l : list A) :
  longest_run p l (Z.to_nat (fst (flag_state (map p l)))).
Proof. apply (streak_invariant_holds l). Qed.

End LongestRun.

Example max_consecutive_losses_example :
  max_consecutive_losses (map f64_of_Z [100; -50; -50; -50; 30; -10]) = 3
  /\ max_consecutive_wins (map f64_of_Z [100; -50; -50; -50; 30; -10]) = 1.
Proof. split; vm_compute; reflexivity. Qed.

(** A zero profit is neither a loss nor a win: it ends both streaks. *)
Lemma zero_resets_both_streaks (mx cur : Z) :
  loss_step (mx, cur) fzero = (mx, 0) /\ win_step (mx, cur) fzero = (mx, 0).
Proof. split; reflexivity. Qed.

(** C8. On a 2-D matrix of per-trade profits (shape [(r, c)], the counters
    being int64 and [c] below 2^63 as every array length is), the
    vectorised per-path streak functions return, at row [i], what the
    scalar reference returns on row [i]: losing against
    [max_consecutive_losses], winning against [max_consecutive_wins]. That
    value is the length of the longest run of strictly negative (resp.
    strictly positive) values of the row; a zero belongs to neither run. *)
Theorem vectorised_streaks_refine_scalar (a : ndarray) (r c : nat) :
  shape a = [r; c] -> ndarray_wf a -> Z.of_nat c < 2 ^ 63 ->
  calculate_max_consecutive_losing_trades a
    = Ret (map max_consecutive_losses (chunk c r (data a)))
  /\ calculate_max_consecutive_winning_trades a
    = Ret (map max_consecutive_wins (chunk c r (data a)))
  /\ Forall (fun row =>
       longest_run (fun x => flt x fzero) row (Z.to_nat (max_consecutive_losses row))
       /\ longest_run (fun x => fgt x fzero) row (Z.to_nat (max_consecutive_wins row)))
       (chunk c r (data a)).
Proof.
  intros Hshape Hwf Hc.
  assert (Hrect : Forall (fun row => length row = c) (chunk c r (data a))).
  { apply chunk_rectangular. unfold ndarray_wf in Hwf. rewrite Hshape in Hwf.
    simpl in Hwf. lia. }
  assert (Hmask : forall f : float64 -> bool,
             streaks_of_mask r c (map (map f) (chunk c r (data a)))
             = map (fun row => fst (flag_state (map f row))) (chunk c r (data a))).
  { intros f.
    replace r with (length (map (map f) (chunk c r (data a)))) at 1
      by (rewrite length_map; apply chunk_length).
    rewrite streaks_of_mask_rows with (c := c); [|
      apply Forall_map; eapply Forall_impl; [exact Hrect|];
      intros row Hrow; simpl in *; now rewrite length_map | exact Hc].
    rewrite map_map. reflexivity. }
  split; [|split].
  - unfold calculate_max_consecutive_losing_trades. rewrite Hshape, Hmask.
    f_equal. apply map_ext. intros row. unfold max_consecutive_losses.
    now rewrite loss_state_flags.
  - unfold calculate_max_consecutive_winning_trades. rewrite Hshape, Hmask.
    f_equal. apply map_ext. intros row. unfold max_consecutive_wins.
    now rewrite win_state_flags.
  - apply Forall_forall. intros row _. split.
    + unfold max_consecutive_losses. rewrite loss_state_flags.
      apply flag_state_longest_run.
    + unfold max_consecutive_wins. rewrite win_state_flags.
      apply flag_state_longest_run.
Qed.

Lemma vectorised_streaks_refine_scalar_witness :
  calculate_max_consecutive_losing_trades two_paths
    = Ret (map max_consecutive_losses (chunk 3 2 (data two_paths)))
  /\ calculate_max_consecutive_winning_trades two_paths
    = Ret (map max_consecutive_wins (chunk 3 2 (data two_paths)))
  /\ Forall (fun row =>
       longest_run (fun x => flt x fzero) row (Z.to_nat (max_consecutive_losses row))
       /\ longest_run (fun x => fgt x fzero) row (Z.to_nat (max_consecutive_wins row)))
       (chunk 3 2 (data two_paths)).
Proof.
  apply (vectorised_streaks_refine_scalar two_paths 2 3); [reflexivity|reflexivity|lia].
Defined.

(** ** Drawdown per path *)

Section Drawdown.

Lemma maximum_accumulate_length (row : list float64) :
  length (maximum_accumulate row) = length row.
Proof.
  destruct row as [|x row]; simpl; [reflexivity|]. f_equal.
  revert x. induction row as [|y row IH]; intros x; simpl; [reflexivity|].
  now rewrite IH.
Qed.

Lemma drawdown_row_length (as_percentage : bool) (row : list float64) :
  length (drawdown_row as_percentage row) = length row.
Proof.
  unfold drawdown_row. destruct as_percentage;
    rewrite ?length_zip_with, ?length_map, ?length_zip_with, !maximum_accumulate_length; lia.
Qed.

(** The reduction fails in one way only: on an empty row. *)
Lemma max_axis1_raise (rows : list (list float64)) (e : exn) :
  max_axis1 rows = Raise e -> e = zero_size_reduction.
Proof.
  induction rows as [|row rows IH]; simpl; [discriminate|].
  destruct row as [|x row]; simpl; [congruence|].
  destruct (max_axis1 rows) as [ms|e']; simpl; [discriminate|].
  intros [= <-]. now apply IH.
Qed.

Lemma max_axis1_single (row : list float64) :
  row <> [] -> exists v, max_axis1 [row] = Ret [v].
Proof. destruct row as [|x row]; [congruence|]. intros _. simpl. eauto. Qed.

Lemma zero_size_is_not_dimension_error : zero_size_reduction <> not_1d_or_2d.
Proof. discriminate. Qed.

(** A 2-D input (after the reshape, if any) never meets the dimension error. *)
Lemma drawdown_2d_no_dimension_error (a2 : ndarray) (pct : bool) r c :
  shape a2 = [r; c] ->
  (if decide (c = 0%nat) then Raise zero_size_reduction
   else max_axis1 (map (drawdown_row pct) (chunk c r (data a2))))
  <> Raise not_1d_or_2d.
Proof.
  intros _. destruct (decide (c = 0%nat)); [discriminate|].
  intros H. apply max_axis1_raise in H. discriminate.
Qed.

End Drawdown.

(** C9 as the specification words it: every 1-D array would come back as
    a vector of one element. The empty path does not: reshaped to the row
    of a [(1, 0)] matrix it has no maximum, and the call raises the
    ValueError of the reduction, with or without percentages. *)
Lemma max_drawdown_empty_path_raises :
  shape (mk_ndarray [0%nat] []) = [0%nat] /\ ndarray_wf (mk_ndarray [0%nat] [])
  /\ (forall as_percentage : bool,
        calculate_max_drawdown (VNdarray (mk_ndarray [0%nat] [])) as_percentage
        = Raise zero_size_reduction
        /\ ~ (exists v, calculate_max_drawdown (VNdarray (mk_ndarray [0%nat] [])) as_percentage
                        = Ret [v])).
Proof.
  split; [reflexivity|]. split; [reflexivity|].
  intros as_percentage.
  assert (Hrun : calculate_max_drawdown (VNdarray (mk_ndarray [0%nat] [])) as_percentage
                 = Raise zero_size_reduction) by (destruct as_percentage; reflexivity).
  split; [exact Hrun|]. intros [v Hv]. rewrite Hrun in Hv. discriminate.
Qed.

(** C9 (amended). [calculate_max_drawdown] takes a 1-D array (shape
    [(n,)]) as one path: the outcome is the outcome on the same elements
    laid out as the single row of a [(1, n)] matrix. For a non-empty path
    that is a vector of one element; for the empty path it is the
    ValueError of a reduction over no element, which is not the dimension
    error. The dimension error ("must be a 1D or 2D array") is raised for
    exactly the arrays whose number of dimensions is neither 1 nor 2. *)
Theorem max_drawdown_one_dimensional_input (a : ndarray) (n : nat) (as_percentage : bool) :
  shape a = [n] -> ndarray_wf a ->
  calculate_max_drawdown (VNdarray a) as_percentage
    = calculate_max_drawdown (VNdarray (mk_ndarray [1%nat; n] (data a))) as_percentage
  /\ ((0 < n)%nat ->
      exists v, calculate_max_drawdown (VNdarray a) as_percentage = Ret [v])
  /\ (n = 0%nat ->
      calculate_max_drawdown (VNdarray a) as_percentage = Raise zero_size_reduction
      /\ zero_size_reduction <> not_1d_or_2d)
  /\ (forall b : ndarray,
        calculate_max_drawdown (VNdarray b) as_percentage = Raise not_1d_or_2d
        <-> ndim b <> 1%nat /\ ndim b <> 2%nat).
Proof.
  intros Hshape Hwf.
  assert (Hlen : length (data a) = n).
  { unfold ndarray_wf in Hwf. rewrite Hshape in Hwf. simpl in Hwf. lia. }
  assert (H1 : calculate_max_drawdown (VNdarray a) as_percentage
               = calculate_max_drawdown (VNdarray (mk_ndarray [1%nat; n] (data a)))
                   as_percentage).
  { unfold calculate_max_drawdown, ndim, reshape_1_row. rewrite Hshape, Hlen. reflexivity. }
  split; [exact H1|split; [|split]].
  - intros Hn. rewrite H1. unfold calculate_max_drawdown, ndim. simpl.
    destruct (decide (n = 0%nat)) as [->|_]; [lia|].
    apply max_axis1_single. intros Hnil.
    apply (f_equal (@length float64)) in Hnil.
    rewrite drawdown_row_length, length_take in Hnil. simpl in Hnil. lia.
  - intros ->. split; [|discriminate]. rewrite H1. reflexivity.
  - intros b. unfold calculate_max_drawdown, ndim, reshape_1_row.
    destruct (shape b) as [|d1 [|d2 [|d3 ds]]] eqn:Hb; simpl.
    + split; [intros _; lia|reflexivity].
    + split; [|lia]. intros H. exfalso.
      revert H. apply (drawdown_2d_no_dimension_error
                         (mk_ndarray [1%nat; length (data b)] (data b)) as_percentage
                         1 (length (data b))). reflexivity.
    + rewrite Hb. split; [|lia]. intros H. exfalso.
      revert H. now apply (drawdown_2d_no_dimension_error b as_percentage d1 d2).
    + split; [intros _; lia|reflexivity].
Qed.

Lemma max_drawdown_one_dimensional_input_witness :
  calculate_max_drawdown (VNdarray one_path) false
    = calculate_max_drawdown (VNdarray (mk_ndarray [1%nat; 4%nat] (data one_path))) false
  /\ ((0 < 4)%nat -> exists v, calculate_max_drawdown (VNdarray one_path) false = Ret [v])
  /\ (4%nat = 0%nat ->
      calculate_max_drawdown (VNdarray one_path) false = Raise zero_size_reduction
      /\ zero_size_reduction <> not_1d_or_2d)
  /\ (forall b : ndarray,
        calculate_max_drawdown (VNdarray b) false = Raise not_1d_or_2d
        <-> ndim b <> 1%nat /\ ndim b <> 2%nat).
Proof.
  apply (max_drawdown_one_dimensional_input one_path 4 false); reflexivity.
Defined.

Example max_drawdown_one_path :
  calculate_max_drawdown (VNdarray one_path) false = Ret [f64_of_Z 40].
Proof. vm_compute. reflexivity. Qed.

(** A flat series has a 0% drawdown, not NaN, also when it is flat at 0. *)
Example max_drawdown_flat_percentage :
  calculate_max_drawdown (VNdarray (mk_ndarray [3%nat] [fzero; fzero; fzero])) true
  = Ret [fzero].
Proof. vm_compute. reflexivity. Qed.

(** ** Resampling *)

Section Resampling.
Context `{NumpyRandom}.

Lemma shuffled_rows_spec (num_simulations : nat) (profits : list float64) g :
  let rows := fst (shuffled_rows num_simulations profits (length profits) g) in
  length rows = num_simulations
  /\ Forall (fun row => row ≡ₚ profits) rows.
Proof.
  revert g. induction num_simulations as [|k IH]; intros g; simpl.
  - split; [reflexivity|constructor].
  - pose proof (random_permutation_perm profits g) as Hperm.
    destruct (random_permutation profits g) as [sh g1]. simpl in Hperm.
    specialize (IH g1). destruct (shuffled_rows k profits (length profits) g1) as [rows g2].
    simpl in *. destruct IH as [Hlen Hall]. split; [now rewrite Hlen|].
    constructor; [|exact Hall].
    rewrite firstn_all2; [exact Hperm|]. apply Permutation_length in Hperm. lia.
Qed.

Lemma chunk_concat {A} (c : nat) (rows : list (list A)) :
  Forall (fun row => length row = c) rows ->
  chunk c (length rows) (concat rows) = rows.
Proof.
  induction 1 as [|row rows Hrow _ IH]; simpl; [reflexivity|].
  rewrite take_app_length' by (symmetry; exact Hrow).
  rewrite drop_app_length' by (symmetry; exact Hrow). now rewrite IH.
Qed.

(** Once seeded, the draw no longer depends on what the generator held. *)
Lemma np_random_seed_forgets (s : Z) (g1 g2 : rng_state) :
  fst (np_random_seed s g1) = fst (np_random_seed s g2)
  /\ (fst (np_random_seed s g1) = Ret tt ->
      snd (np_random_seed s g1) = snd (np_random_seed s g2)).
Proof.
  unfold np_random_seed. destruct ((0 <=? s) && (s <? 2 ^ 32)); simpl.
  - split; reflexivity.
  - split; [reflexivity|discriminate].
Qed.

End Resampling.

(** C2. On a ledger with a numeric [Profit] column of [n] profits, the
    shuffling method ("randomized_shuffling", sampling without replacement)
    fails with the [ValueError] of the parameter check (the specification's
    InvalidParameterError) whenever [num_trades > n]; with [num_trades = n]
    (given, or left to its default), a non-negative number of simulations
    and an admissible seed, it returns a [num_simulations x n] matrix every
    row of which is a permutation of the pool. *)
Theorem shuffling_is_without_replacement `{NumpyRandom}
    (trades : DataFrame) (cells : list cell) (profits : list float64)
    (num_simulations : Z) (seed : option Z) (g : rng_state) :
  get_column "Profit" trades = Some cells ->
  as_floats cells = Ret profits ->
  (forall num_trades : Z,
      num_trades > Z.of_nat (length profits) ->
      fst (monte_carlo_simulation trades num_simulations (Some num_trades)
             "randomized_shuffling" seed g)
      = Raise (too_many_trades num_trades (Z.of_nat (length profits))))
  /\ (forall num_trades : option Z,
      default (Z.of_nat (length profits)) num_trades = Z.of_nat (length profits) ->
      0 <= num_simulations ->
      match seed with Some s => 0 <= s < 2 ^ 32 | None => True end ->
      exists m : ndarray,
        fst (monte_carlo_simulation trades num_simulations num_trades
               "randomized_shuffling" seed g) = Ret m
        /\ shape m = [Z.to_nat num_simulations; length profits]
        /\ Forall (fun row => row ≡ₚ profits)
             (chunk (length profits) (Z.to_nat num_simulations) (data m))).
Proof.
  intros Hcol Hfloats. split.
  - intros num_trades Hgt. unfold monte_carlo_simulation.
    rewrite Hcol, Hfloats. simpl.
    destruct (Z.gtb_spec num_trades (Z.of_nat (length profits))); [reflexivity|lia].
  - intros num_trades Hnt Hsims Hseed. unfold monte_carlo_simulation.
    rewrite Hcol, Hfloats, Hnt. simpl.
    destruct (Z.gtb_spec (Z.of_nat (length profits)) (Z.of_nat (length profits))); [lia|].
    assert (Hseeded : exists g0,
               match seed with
               | Some s => np_random_seed s g
               | None => (Ret tt, g)
               end = (Ret tt, g0)).
    { destruct seed as [s|]; [|eauto]. unfold np_random_seed.
      destruct (Z.leb_spec 0 s); [|lia]. destruct (Z.ltb_spec s (2 ^ 32)); [|lia].
      simpl. eauto. }
    destruct Hseeded as [g0 ->].
    destruct (Z.ltb_spec num_simulations 0); [lia|].
    destruct (Z.ltb_spec (Z.of_nat (length profits)) 0); [lia|]. simpl.
    rewrite Nat2Z.id.
    pose proof (shuffled_rows_spec (Z.to_nat num_simulations) profits g0) as [Hlen Hall].
    destruct (shuffled_rows (Z.to_nat num_simulations) profits (length profits) g0)
      as [rows g1]. simpl in *.
    eexists. split; [reflexivity|]. simpl. split; [reflexivity|].
    rewrite <- Hlen, chunk_concat; [exact Hall|].
    eapply Forall_impl; [exact Hall|]. intros row Hrow. simpl.
    now apply Permutation_length.
Qed.

Lemma shuffling_is_without_replacement_witness :
  get_column "Profit" pool_ledger = Some pool_cells
  /\ as_floats pool_cells = Ret pool_profits
  /\ (forall num_trades : Z,
      num_trades > Z.of_nat (length pool_profits) ->
      fst (monte_carlo_simulation (H := lcg_random) pool_ledger 2 (Some num_trades)
             "randomized_shuffling" (Some 42) 0)
      = Raise (too_many_trades num_trades (Z.of_nat (length pool_profits))))
  /\ (forall num_trades : option Z,
      default (Z.of_nat (length pool_profits)) num_trades = Z.of_nat (length pool_profits) ->
      0 <= 2 ->
      0 <= 42 < 2 ^ 32 ->
      exists m : ndarray,
        fst (monte_carlo_simulation (H := lcg_random) pool_ledger 2 num_trades
               "randomized_shuffling" (Some 42) 0) = Ret m
        /\ shape m = [Z.to_nat 2; length pool_profits]
        /\ Forall (fun row => row ≡ₚ pool_profits)
             (chunk (length pool_profits) (Z.to_nat 2) (data m))).
Proof.
  split; [reflexivity|]. split; [reflexivity|].
  apply (shuffling_is_without_replacement (H := lcg_random)
           pool_ledger pool_cells pool_profits 2 (Some 42) 0); reflexivity.
Defined.

Example shuffling_run :
  fst (monte_carlo_simulation (H := lcg_random) pool_ledger 2 None
         "randomized_shuffling" (Some 1) 0)
  = Ret (mk_ndarray [2%nat; 3%nat] (map f64_of_Z [-5; 20; 10; 10; -5; 20])).
Proof. vm_compute. reflexivity. Qed.

Example shuffling_too_many :
  fst (monte_carlo_simulation (H := lcg_random) pool_ledger 2 (Some 4)
         "randomized_shuffling" None 0)
  = Raise (ValueError
      "For 'randomized_shuffling', num_trades (4) cannot exceed the total number of available trades (3).").
Proof. vm_compute. reflexivity. Qed.

(** C7. With a seed given, the output of [monte_carlo_simulation] does
    not depend on the state the process-wide generator was in: two calls
    with the same seed and the same ledger, number of simulations, number
    of trades and method yield the same outcome (the same matrix, or the
    same error), whatever happened to the generator between them; in
    particular when the second call starts from the state the first one
    left. *)
Theorem seeded_simulation_is_reproducible `{NumpyRandom}
    (trades : DataFrame) (num_simulations : Z) (num_trades : option Z)
    (method : string) (seed : Z) (g1 g2 : rng_state) :
  fst (monte_carlo_simulation trades num_simulations num_trades method (Some seed) g1)
  = fst (monte_carlo_simulation trades num_simulations num_trades method (Some seed) g2).
Proof.
  unfold monte_carlo_simulation.
  destruct (get_column "Profit" trades) as [cells|]; [|reflexivity].
  destruct (as_floats cells) as [profits|e]; [|reflexivity].
  destruct (negb _); [reflexivity|].
  destruct (_ && _); [reflexivity|].
  destruct (np_random_seed_forgets seed g1 g2) as [Hout Hstate].
  destruct (np_random_seed seed g1) as [r1 s1], (np_random_seed seed g2) as [r2 s2].
  simpl in *. subst r2. destruct r1 as [[]|e]; [|reflexivity].
  rewrite (Hstate eq_refl). reflexivity.
Qed.

(** Without a seed the outcome does follow the generator. *)
Example unseeded_simulation_differs :
  fst (monte_carlo_simulation (H := lcg_random) pool_ledger 1 None "randomized_shuffling" None 0)
  <> fst (monte_carlo_simulation (H := lcg_random) pool_ledger 1 None "randomized_shuffling" None 1).
Proof. vm_compute. discriminate. Qed.


(** ** Metrics *)

Section MetricsFacts.
Context `{Externals}.

Lemma filter_none {A} (f : A -> bool) (l : list A) :
  (forall x, x ∈ l -> f x = false) -> List.filter f l = [].
Proof.
  induction l as [|x l IH]; intros Hall; simpl; [reflexivity|].
  rewrite (Hall x) by left. apply IH. intros y Hy. apply Hall. now right.
Qed.

Lemma fdiv_nan_r (x : float64) : fdiv x fnan = fnan.
Proof. destruct x; reflexivity. Qed.

Lemma get_column_setitem_ne (name other : string) (cells : list cell) (df : DataFrame) :
  name <> other -> get_column name (setitem other cells df) = get_column name df.
Proof.
  intros Hne. induction df as [|[n old] df IH]; simpl.
  - destruct (String.eqb_spec other name); [congruence|reflexivity].
  - destruct (String.eqb_spec n other) as [->|Hno]; simpl.
    + destruct (String.eqb_spec other name); [congruence|reflexivity].
    + destruct (String.eqb_spec n name); [reflexivity|exact IH].
Qed.

Lemma get_column_setitem_eq (name : string) (cells : list cell) (df : DataFrame) :
  get_column name (setitem name cells df) = Some cells.
Proof.
  induction df as [|[n old] df IH]; simpl.
  - now rewrite String.eqb_refl.
  - destruct (String.eqb_spec n name) as [->|Hno]; simpl.
    + now rewrite String.eqb_refl.
    + destruct (String.eqb_spec n name); [congruence|exact IH].
Qed.

Lemma get_column_take_rows (name : string) (rows : list nat) (df : DataFrame) :
  get_column name (take_rows rows df)
  = (fun cells => omap (fun i => cells !! i) rows) <$> get_column name df.
Proof.
  induction df as [|[n cells] df IH]; simpl; [reflexivity|].
  destruct (String.eqb n name); [reflexivity|exact IH].
Qed.

Lemma omap_lookup_subset (cells : list cell) (rows : list nat) (c : cell) :
  c ∈ omap (fun i => cells !! i) rows -> c ∈ cells.
Proof.
  intros Hin. apply list_elem_of_omap in Hin. destruct Hin as (i & _ & Hi).
  eapply list_elem_of_lookup_2. exact Hi.
Qed.

Lemma as_floats_elem (cells : list cell) (xs : list float64) (x : float64) :
  as_floats cells = Ret xs -> x ∈ xs -> CNum x ∈ cells.
Proof.
  revert xs. induction cells as [|c cells IH]; intros xs; simpl.
  - intros [= <-] Hin. inversion Hin.
  - destruct c; try discriminate.
    destruct (as_floats cells) as [ys|e]; simpl; [|discriminate].
    intros [= <-] Hin. apply elem_of_cons in Hin. destruct Hin as [->|Hin].
    + left.
    + right. now apply (IH ys).
Qed.

Lemma to_datetime_no_number (cells dates : list cell) (x : float64) :
  to_datetime cells = Ret dates -> CNum x ∉ dates.
Proof.
  revert dates. induction cells as [|c cells IH]; intros dates; simpl.
  - intros [= <-] Hin. inversion Hin.
  - destruct (parse_datetime c); try discriminate;
      (destruct (to_datetime cells) as [ds|e]; simpl; [|discriminate]);
      intros [= <-] Hin; apply elem_of_cons in Hin;
      (destruct Hin as [Hin|Hin]; [discriminate|now apply (IH ds)]).
Qed.

(** The profits the metrics are computed from are profits of the ledger:
    dating and sorting add none. *)
Lemma sorted_net_profit_from_ledger (trades sorted : DataFrame) (date_column : string)
    (dates cells : list cell) (net_profit : list float64) (x : float64) :
  to_datetime dates = Ret cells ->
  sort_values date_column (setitem date_column cells trades) = Ret sorted ->
  forall column, getitem "Net Profit" sorted = Ret column ->
  as_floats column = Ret net_profit -> x ∈ net_profit ->
  exists original, get_column "Net Profit" trades = Some original /\ CNum x ∈ original.
Proof.
  intros Hdates Hsort column Hget Hfloats Hin.
  unfold sort_values, getitem in Hsort.
  rewrite get_column_setitem_eq in Hsort. simpl in Hsort. injection Hsort as <-.
  unfold getitem in Hget. rewrite get_column_take_rows in Hget.
  pose proof (as_floats_elem _ _ _ Hfloats Hin) as Hcell.
  destruct (String.eqb_spec "Net Profit" date_column) as [<-|Hne].
  - rewrite get_column_setitem_eq in Hget. simpl in Hget. injection Hget as <-.
    apply omap_lookup_subset in Hcell.
    exfalso. exact (to_datetime_no_number _ _ _ Hdates Hcell).
  - rewrite get_column_setitem_ne in Hget by exact Hne.
    destruct (get_column "Net Profit" trades) as [original|]; simpl in Hget; [|discriminate].
    injection Hget as <-. exists original. split; [reflexivity|].
    now apply omap_lookup_subset in Hcell.
Qed.

End MetricsFacts.

(** C3 (what the code does). On a ledger none of whose trades has a
    strictly positive net profit, whenever [calculate_metrics] returns, the
    risk/reward value it returns is NaN: the mean of no winning trade is
    NaN, NaN is truthy so [or 0] keeps it, NaN differs from 0 so the
    division is taken, and a division by NaN is NaN. The [+infinity] branch
    is not the one taken. *)
Theorem risk_reward_without_winner_is_nan `{Externals}
    (trades : DataFrame) (date_column : string) (initial_balance risk_free_rate : float64)
    (include_buy_and_hold : bool) (original : list cell) (m : Metrics) (curve : DataFrame) :
  get_column "Net Profit" trades = Some original ->
  (forall x, CNum x ∈ original -> fgt x fzero = false) ->
  calculate_metrics trades date_column initial_balance risk_free_rate include_buy_and_hold
    = Ret (m, curve) ->
  risk_reward_ratio m = fnan /\ risk_reward_ratio m <> finf.
Proof.
  intros Hcol Hnowin Hret. unfold calculate_metrics in Hret.
  destruct (getitem date_column trades) as [dates|e]; simpl in Hret; [|discriminate].
  destruct (to_datetime dates) as [cells|e] eqn:Hdates; simpl in Hret; [|discriminate].
  destruct (sort_values date_column (setitem date_column cells trades)) as [sorted|e] eqn:Hsort;
    simpl in Hret; [|discriminate].
  destruct (getitem "Net Profit" sorted) as [column|e] eqn:Hget; simpl in Hret; [|discriminate].
  destruct (as_floats column) as [net_profit|e] eqn:Hfloats; simpl in Hret; [|discriminate].
  assert (Hnone : List.filter (fun x => fgt x fzero) net_profit = []).
  { apply filter_none. intros x Hin.
    destruct (sorted_net_profit_from_ledger trades sorted date_column dates cells
                net_profit x Hdates Hsort column Hget Hfloats Hin) as (orig & Horig & Hcell).
    rewrite Hcol in Horig. injection Horig as <-.
    exact (Hnowin x Hcell). }
  rewrite Hnone in Hret.
  destruct (time_series_block _ _ _ _) as [stats|e]; simpl in Hret; [|discriminate].
  destruct include_buy_and_hold; simpl in Hret.
  - destruct (calculate_buy_and_hold _ _ _) as [[[c d] p]|e]; simpl in Hret; [|discriminate].
    injection Hret as <- _. simpl. rewrite fdiv_nan_r. split; [reflexivity|discriminate].
  - injection Hret as <- _. simpl. rewrite fdiv_nan_r. split; [reflexivity|discriminate].
Qed.

Lemma risk_reward_without_winner_is_nan_witness :
  exists (m : Metrics) (curve : DataFrame),
    calculate_metrics (H := plain_externals) one_loss_ledger "Entry Date"
      default_balance DEFAULT_RISK_FREE_RATE true = Ret (m, curve)
    /\ risk_reward_ratio m = fnan /\ risk_reward_ratio m <> finf.
Proof.
  eexists _, _. split; [vm_compute; reflexivity|].
  eapply (risk_reward_without_winner_is_nan (H := plain_externals)
            one_loss_ledger "Entry Date" default_balance DEFAULT_RISK_FREE_RATE true
            [CNum (f64_of_Z (-50))]).
  - reflexivity.
  - intros x Hx. apply list_elem_of_singleton in Hx. injection Hx as ->. reflexivity.
  - vm_compute. reflexivity.
Defined.

(** The same on the ledger of one losing trade, evaluated: the entry
    rendered as the Risk-Reward Ratio is NaN. *)
Example risk_reward_one_loss :
  match calculate_metrics (H := plain_externals) one_loss_ledger "Entry Date"
          default_balance DEFAULT_RISK_FREE_RATE false with
  | Ret (m, _) => risk_reward_ratio m = fnan /\ win_rate m = fzero
  | Raise _ => False
  end.
Proof. vm_compute. split; reflexivity. Qed.

(** C5 (what the code does). On the canonical ledger with no trade and
    the default [include_buy_and_hold=True], [calculate_metrics] raises: if
    the time-series block gets through, the benchmark reads the first row
    of the ledger ([iloc[0]]) and raises IndexError. The guard on the win
    rate is there all the same: without the benchmark, whenever the call
    returns, the win rate is 0. *)
Theorem empty_ledger_metrics_raise `{Externals} (initial_balance risk_free_rate : float64) :
  raises (calculate_metrics empty_ledger "Entry Date" initial_balance risk_free_rate true)
  /\ (forall stats,
        time_series_block empty_ledger "Entry Date" initial_balance risk_free_rate = Ret stats ->
        calculate_metrics empty_ledger "Entry Date" initial_balance risk_free_rate true
        = Raise out_of_bounds)
  /\ (forall m curve,
        calculate_metrics empty_ledger "Entry Date" initial_balance risk_free_rate false
        = Ret (m, curve) ->
        win_rate m = fzero).
Proof.
  unfold calculate_metrics, raises. simpl.
  change (time_series_block _ _ _ _)
    with (time_series_block empty_ledger "Entry Date" initial_balance risk_free_rate).
  destruct (time_series_block empty_ledger "Entry Date" initial_balance risk_free_rate)
    as [stats|e]; simpl.
  - split; [eexists; reflexivity|]. split; [reflexivity|].
    intros m curve [= <- _]. reflexivity.
  - split; [eexists; reflexivity|]. split; discriminate.
Qed.

Example empty_ledger_metrics_run :
  calculate_metrics (H := plain_externals) empty_ledger "Entry Date"
    default_balance DEFAULT_RISK_FREE_RATE true
  = Raise (IndexError "single positional indexer is out-of-bounds").
Proof. vm_compute. reflexivity. Qed.

(** ** The normaliser *)

Section NormaliserFacts.
Context `{Externals}.

Lemma bind_ret {A B} (m : result A) (f : A -> result B) (b : B) :
  (m ≫= f) = Ret b -> exists a, m = Ret a /\ f a = Ret b.
Proof. destruct m as [a|e]; simpl; [eauto|discriminate]. Qed.

Lemma getitem_ret (name : string) (df : DataFrame) (cells : list cell) :
  getitem name df = Ret cells <-> get_column name df = Some cells.
Proof.
  unfold getitem. destruct (get_column name df); split; intros [= ->]; reflexivity.
Qed.

Lemma string_length_append (p s : string) :
  String.length (p +:+ s) = (String.length p + String.length s)%nat.
Proof. induction p as [|a p IH]; simpl; [reflexivity|]. now rewrite IH. Qed.

(** A suffixed name is none of the names the pairing looks up. *)
Lemma suffixed_not_type (p s : string) :
  (4 < String.length s)%nat -> p +:+ s <> "Type".
Proof.
  intros Hs Heq. apply (f_equal String.length) in Heq.
  rewrite string_length_append in Heq. simpl in Heq. lia.
Qed.

Lemma entry_suffixed_not_trade (p : string) : p +:+ "_Entry" <> "Trade #".
Proof.
  intros Heq. pose proof (f_equal String.length Heq) as Hlen.
  rewrite string_length_append in Hlen. simpl in Hlen.
  destruct p as [|a [|b p]]; simpl in *; try discriminate; lia.
Qed.

Lemma exit_suffixed_not_trade (p : string) : p +:+ "_Exit" <> "Trade #".
Proof.
  intros Heq. pose proof (f_equal String.length Heq) as Hlen.
  rewrite string_length_append in Hlen. simpl in Hlen.
  destruct p as [|a [|b [|c p]]]; simpl in *; try discriminate; lia.
Qed.

(** Renaming leaves alone a name that is neither renamed nor a new name. *)
Lemma get_column_rename (name : string) (mapping : list (string * string)) (df : DataFrame) :
  Forall (fun '(old, new) => old <> name /\ new <> name) mapping ->
  get_column name (rename_columns mapping df) = get_column name df.
Proof.
  intros Hmap. induction df as [|[n cells] df IH]; simpl; [reflexivity|].
  destruct (find (fun '(old, _) => String.eqb old n) mapping) as [[old new]|] eqn:Hfind; simpl.
  - apply find_some in Hfind. destruct Hfind as [Hin Heq].
    apply String.eqb_eq in Heq. subst old.
    rewrite Forall_forall in Hmap. apply list_elem_of_In in Hin.
    specialize (Hmap _ Hin). simpl in Hmap. destruct Hmap as [Hn Hnew].
    destruct (String.eqb_spec new name); [congruence|].
    destruct (String.eqb_spec n name); [congruence|]. exact IH.
  - destruct (String.eqb n name); [reflexivity|exact IH].
Qed.

Lemma contains_profit_not_fixed (profit_column : string) :
  contains "Profit" profit_column = true ->
  profit_column <> "Type" /\ profit_column <> "Trade #".
Proof. intros Hc. split; intros ->; vm_compute in Hc; discriminate. Qed.

Lemma find_first_filter {A} (f : A -> bool) (l : list A) :
  head (List.filter f l) = find f l.
Proof.
  induction l as [|x l IH]; simpl; [reflexivity|]. destruct (f x); [reflexivity|exact IH].
Qed.

(** Filtering by a mask computed from a column keeps, of that column,
    the cells at which the test holds, in their order. *)
Lemma mask_positions_lookup {A} (f : A -> bool) (pre l : list A) :
  omap (fun j => (pre ++ l) !! j) (mask_positions (map f l) (length pre)) = List.filter f l.
Proof.
  revert pre. induction l as [|x l IH]; intros pre; simpl; [reflexivity|].
  assert (Hrest : omap (fun j => (pre ++ x :: l) !! j)
                    (mask_positions (map f l) (S (length pre))) = List.filter f l).
  { rewrite <- (IH (pre ++ [x])). rewrite <- app_assoc. simpl.
    rewrite length_app. simpl. now rewrite Nat.add_1_r. }
  destruct (f x); [|exact Hrest].
  rewrite <- Hrest. cbn [omap list_omap].
  now rewrite list_lookup_middle by reflexivity.
Qed.

Lemma filtered_column (name : string) (f : cell -> bool) (types : list cell) (df : DataFrame)
    (cells : list cell) :
  get_column name df = Some cells ->
  get_column name (filter_rows (map f cells) df) = Some (List.filter f cells).
Proof.
  intros Hcol. unfold filter_rows. rewrite get_column_take_rows, Hcol. simpl.
  f_equal. exact (mask_positions_lookup f [] cells).
Qed.

End NormaliserFacts.

Section PairingFacts.
Context `{Externals}.

Lemma length_omap_le {A B} (f : A -> option B) (l : list A) :
  (length (omap f l) <= length l)%nat.
Proof.
  induction l as [|x l IH]; [simpl; lia|].
  change (omap f (x :: l)) with (match f x with Some y => y :: omap f l | None => omap f l end).
  destruct (f x); simpl; lia.
Qed.

Lemma mask_positions_length {A} (f : A -> bool) (l : list A) (i : nat) :
  length (mask_positions (map f l) i) = length (List.filter f l).
Proof.
  revert i. induction l as [|x l IH]; intros i; simpl; [reflexivity|].
  destruct (f x); simpl; now rewrite IH.
Qed.

Lemma frame_len_take_rows (rows : list nat) (df : DataFrame) :
  (frame_len (take_rows rows df) <= length rows)%nat.
Proof. destruct df as [|[n cells] df]; simpl; [lia|]. apply length_omap_le. Qed.

Lemma merge_key_column (left right merged : DataFrame) (key sl sr : string) :
  merge left right key sl sr = Ret merged ->
  exists keys, get_column key merged = Some keys /\ frame_len merged = length keys.
Proof.
  unfold merge. intros Hm.
  apply bind_ret in Hm as (lkeys & _ & Hm). apply bind_ret in Hm as (rkeys & _ & Hm).
  injection Hm as <-. eexists. simpl. rewrite String.eqb_refl. split; reflexivity.
Qed.

End PairingFacts.

(** C10. On the pairing path (the input is not already in final format)
    every cell of the [Type] column of the normalised ledger is the [Type]
    of the first row of the input whose [Type] contains "Entry"
    (whatever the case): all normalised trades carry that one side,
    whichever side each of them had. *)
Theorem paired_type_is_first_entry_type `{Externals}
    (trade_data : DataFrame) (input_filename : string) (formatted : DataFrame) :
  forallb (fun col => has_column col trade_data) final_format_cols = false ->
  fst (format_trade_data_body trade_data input_filename) = Ret formatted ->
  exists (types : list cell) (side : cell),
    get_column "Type" trade_data = Some types
    /\ find (str_contains_nocase "Entry") types = Some side
    /\ get_column "Type" formatted = Some (replicate (frame_len formatted) side).
Proof.
  intros Hraw Hret. unfold format_trade_data_body in Hret. rewrite Hraw in Hret.
  destruct (schema_and_lots trade_data input_filename)
    as [[[price_column profit_column] lots]|e] eqn:Hschema; [|discriminate].
  (* the profit column is named after a profit *)
  assert (Hprofit : contains "Profit" profit_column = true).
  { unfold schema_and_lots in Hschema.
    apply bind_ret in Hschema as (_ & _ & Hschema).
    destruct (find (String.prefix "Price") (columns trade_data)); [|discriminate].
    destruct (find (contains "Profit") (columns trade_data)) as [p|] eqn:Hfind; [|discriminate].
    apply bind_ret in Hschema as (? & _ & Hschema).
    apply bind_ret in Hschema as (? & _ & Hschema).
    injection Hschema as _ -> _. apply find_some in Hfind. apply Hfind. }
  apply contains_profit_not_fixed in Hprofit as [HpT HpK].
  cbn [fst] in Hret.
  remember (setitem "Commission" (map (fun x => CNum (fmul x (f64_of_Z 4))) lots)
              (setitem "Lots" (map CNum lots) trade_data)) as td eqn:Htd.
  assert (Htype_td : get_column "Type" td = get_column "Type" trade_data).
  { subst td. now rewrite !get_column_setitem_ne by discriminate. }
  clear Htd. unfold pair_trades in Hret.
  apply bind_ret in Hret as (types & Htypes & Hret).
  apply getitem_ret in Htypes.
  set (entries := filter_rows (map (str_contains_nocase "Entry") types) td) in *.
  destruct (frame_empty entries) eqn:Hentries; [discriminate|]. cbn [orb negb] in Hret.
  destruct (frame_empty (filter_rows (map (str_contains_nocase "Exit") types) td));
    [discriminate|].
  apply bind_ret in Hret as (left & _ & Hret).
  apply bind_ret in Hret as (right & _ & Hret).
  apply bind_ret in Hret as (paired & Hmerge & Hret).
  apply bind_ret in Hret as (entry_types & Hentry_types & Hret).
  apply merge_key_column in Hmerge as (keys & Hkeys & Hlen).
  (* the side is the Type of the first entry row *)
  apply getitem_ret in Hentry_types. unfold entries in Hentry_types.
  rewrite (filtered_column "Type" _ types td types Htypes) in Hentry_types.
  injection Hentry_types as <-.
  assert (Hside : exists side, find (str_contains_nocase "Entry") types = Some side).
  { rewrite <- find_first_filter.
    destruct (List.filter (str_contains_nocase "Entry") types) as [|c cs] eqn:Hf; [|simpl; eauto].
    exfalso. unfold frame_empty in Hentries. apply Nat.eqb_neq in Hentries.
    pose proof (frame_len_take_rows
                  (mask_positions (map (str_contains_nocase "Entry") types) 0) td) as Hle.
    rewrite mask_positions_length, Hf in Hle. simpl in Hle.
    unfold entries, filter_rows in Hentries. lia. }
  destruct Hside as [side Hside].
  rewrite find_first_filter, Hside in Hret. cbn [default] in Hret.
  exists types, side. rewrite <- Htype_td. split; [exact Htypes|]. split; [exact Hside|].
  unfold id in Hret.
  set (renamed := rename_columns _ _) in Hret.
  assert (HrT : get_column "Type" renamed = Some (replicate (frame_len paired) side)).
  { unfold renamed. rewrite get_column_rename; [apply get_column_setitem_eq|].
    repeat constructor; try discriminate; try exact HpT;
      apply suffixed_not_type; simpl; lia. }
  assert (HrK : get_column "Trade #" renamed = Some keys).
  { unfold renamed. rewrite get_column_rename.
    - rewrite get_column_setitem_ne by discriminate. exact Hkeys.
    - repeat constructor; try discriminate; try exact HpK;
        auto using entry_suffixed_not_trade, exit_suffixed_not_trade. }
  apply bind_ret in Hret as (commission & _ & Hret).
  apply bind_ret in Hret as (profit & _ & Hret).
  apply bind_ret in Hret as (profits & _ & Hret).
  apply bind_ret in Hret as (total & _ & Hret).
  apply bind_ret in Hret as (totals & _ & Hret).
  cbn [select_columns] in Hret.
  apply bind_ret in Hret as (c1 & Hc1 & Hret).
  apply bind_ret in Hret as (rest & Hrest & Hret). injection Hret as <-.
  apply bind_ret in Hrest as (c2 & Hc2 & Hrest).
  apply bind_ret in Hrest as (rest' & _ & Hrest). injection Hrest as <-.
  apply getitem_ret in Hc1, Hc2.
  rewrite !get_column_setitem_ne in Hc1, Hc2 by discriminate.
  rewrite HrK in Hc1. rewrite HrT in Hc2. injection Hc1 as <-. injection Hc2 as <-.
  simpl. now rewrite Hlen.
Qed.


Lemma paired_type_is_first_entry_type_witness :
  exists (types : list cell) (side : cell),
    get_column "Type" raw_trades = Some types
    /\ find (str_contains_nocase "Entry") types = Some side
    /\ get_column "Type" raw_trades_formatted
       = Some (replicate (frame_len raw_trades_formatted) side).
Proof.
  apply (paired_type_is_first_entry_type (H := plain_externals)
           raw_trades "trades.csv" raw_trades_formatted); vm_compute; reflexivity.
Defined.

(** The short trade 2 comes out with the side of trade 1, and the entry
    without an exit (trade 3) is dropped. *)
Example raw_trades_sides :
  get_column "Type" raw_trades_formatted = Some [CStr "Entry Long"; CStr "Entry Long"]
  /\ get_column "Trade #" raw_trades_formatted = Some [CNum (f64_of_Z 1); CNum (f64_of_Z 2)].
Proof. split; vm_compute; reflexivity. Qed.

(** ** Where exceptions stop *)

(** C1 as the specification words it: on the ledger that lacks its
    [Net Profit] column the metrics would come back absent. They do not:
    the KeyError of the column read leaves [calculate_metrics], and so
    does a failure of the time-series block on a complete ledger. *)
Lemma metrics_exception_reaches_caller :
  calculate_metrics (H := plain_externals) ledger_without_net_profit "Entry Date"
    default_balance DEFAULT_RISK_FREE_RATE true
  = Raise (KeyError "Net Profit")
  /\ ~ (exists outcome,
         calculate_metrics (H := plain_externals) ledger_without_net_profit "Entry Date"
           default_balance DEFAULT_RISK_FREE_RATE true = Ret outcome)
  /\ calculate_metrics (H := failing_series_externals) one_loss_ledger "Entry Date"
       default_balance DEFAULT_RISK_FREE_RATE false
     = Raise series_failure.
Proof.
  assert (Hrun : calculate_metrics (H := plain_externals) ledger_without_net_profit
                   "Entry Date" default_balance DEFAULT_RISK_FREE_RATE true
                 = Raise (KeyError "Net Profit")) by (vm_compute; reflexivity).
  split; [exact Hrun|]. split; [|vm_compute; reflexivity].
  intros [outcome Hout]. rewrite Hrun in Hout. discriminate.
Qed.

(** Takes apart a statement that some step failed, against the steps
    that are known to have returned. *)
Ltac unwind_steps Hsort :=
  intros;
  repeat match goal with
  | H : _ \/ _ |- _ => destruct H
  | H : ex _ |- _ => destruct H
  | H : _ /\ _ |- _ => destruct H
  | H : Ret _ = Ret _ |- _ => injection H as <-
  | H : Ret _ = Raise _ |- _ => discriminate H
  | H : Raise _ = Ret _ |- _ => discriminate H
  | H : true = true |- _ => clear H
  | H : false = true |- _ => discriminate H
  | H : sort_values _ _ = Ret _ |- _ => rewrite Hsort in H
  | H1 : ?x = Ret _, H2 : ?x = Ret _ |- _ => rewrite H1 in H2
  | H1 : ?x = Ret _, H2 : ?x = Raise _ |- _ => rewrite H1 in H2
  | H1 : ?x = Raise _, H2 : ?x = Ret _ |- _ => rewrite H1 in H2
  | H1 : ?x = Raise _, H2 : ?x = Raise _ |- _ => rewrite H1 in H2
  end; try congruence.

(** C1 (amended). [calculate_metrics] has no catching boundary. It
    raises [e] exactly when the first of its steps to fail raises [e]: the
    read of the date column, the parsing of the dates, the read of
    [Net Profit] from the sorted ledger, its reading as numbers, the
    time-series block, and the benchmark when it is asked for. It returns
    a pair exactly when every one of these steps returns; a ledger
    without [Net Profit] makes the call raise. The catching boundary is
    the normaliser's: [format_trade_data] returns the absent result
    exactly when its body raises, and a result otherwise. *)
Theorem metrics_exceptions_propagate `{Externals}
    (trades : DataFrame) (date_column : string) (initial_balance risk_free_rate : float64)
    (include_buy_and_hold : bool) :
  (forall e : exn,
     calculate_metrics trades date_column initial_balance risk_free_rate include_buy_and_hold
     = Raise e
     <-> getitem date_column trades = Raise e
         \/ exists dates,
              getitem date_column trades = Ret dates
              /\ (to_datetime dates = Raise e
                  \/ exists cells sorted,
                       to_datetime dates = Ret cells
                       /\ sort_values date_column (setitem date_column cells trades) = Ret sorted
                       /\ (getitem "Net Profit" sorted = Raise e
                           \/ exists column,
                                getitem "Net Profit" sorted = Ret column
                                /\ (as_floats column = Raise e
                                    \/ exists net_profit,
                                         as_floats column = Ret net_profit
                                         /\ (time_series_block sorted date_column
                                               initial_balance risk_free_rate = Raise e
                                             \/ exists stats,
                                                  time_series_block sorted date_column
                                                    initial_balance risk_free_rate = Ret stats
                                                  /\ include_buy_and_hold = true
                                                  /\ calculate_buy_and_hold sorted date_column
                                                       initial_balance = Raise e)))))
  /\ ((exists outcome,
         calculate_metrics trades date_column initial_balance risk_free_rate
           include_buy_and_hold = Ret outcome)
      <-> exists dates cells sorted column net_profit stats,
            getitem date_column trades = Ret dates
            /\ to_datetime dates = Ret cells
            /\ sort_values date_column (setitem date_column cells trades) = Ret sorted
            /\ getitem "Net Profit" sorted = Ret column
            /\ as_floats column = Ret net_profit
            /\ time_series_block sorted date_column initial_balance risk_free_rate = Ret stats
            /\ (include_buy_and_hold = true ->
                exists benchmark,
                  calculate_buy_and_hold sorted date_column initial_balance = Ret benchmark))
  /\ (get_column "Net Profit" trades = None ->
      raises (calculate_metrics trades date_column initial_balance risk_free_rate
                include_buy_and_hold))
  /\ (forall (st : store) (l : loc) (input_filename : string) (df : DataFrame),
        st !! l = Some df ->
        (fst (format_trade_data st l input_filename) = None
         <-> raises (fst (format_trade_data_body df input_filename)))
        /\ (forall formatted,
              fst (format_trade_data st l input_filename) = Some formatted
              <-> fst (format_trade_data_body df input_filename) = Ret formatted)).
Proof.
  assert (Hsort : forall cells,
            sort_values date_column (setitem date_column cells trades)
            = Ret (take_rows (argsort cells) (setitem date_column cells trades))).
  { intros cells. unfold sort_values, getitem. now rewrite get_column_setitem_eq. }
  split; [|split; [|split]].
  - intros e. unfold calculate_metrics.
    destruct (getitem date_column trades) as [dates|e1] eqn:Hdates; simpl;
      [|split; [intros [= <-]; auto|unwind_steps Hsort]].
    destruct (to_datetime dates) as [cells|e2] eqn:Hcells; simpl;
      [|split; [intros [= <-]; eauto 10|unwind_steps Hsort]].
    rewrite Hsort. simpl.
    destruct (getitem "Net Profit" (take_rows (argsort cells) (setitem date_column cells trades)))
      as [column|e3] eqn:Hcolumn; simpl;
      [|split; [intros [= <-]; eauto 15|unwind_steps Hsort]].
    destruct (as_floats column) as [net_profit|e4] eqn:Hfloats; simpl;
      [|split; [intros [= <-]; eauto 20|unwind_steps Hsort]].
    destruct (time_series_block (take_rows (argsort cells) (setitem date_column cells trades))
                date_column initial_balance risk_free_rate)
      as [stats|e5] eqn:Hstats; simpl;
      [|split; [intros [= <-]; eauto 25|unwind_steps Hsort]].
    destruct include_buy_and_hold; simpl.
    + destruct (calculate_buy_and_hold
                  (take_rows (argsort cells) (setitem date_column cells trades))
                  date_column initial_balance)
        as [[[c d] p]|e6] eqn:Hbah; simpl.
      * split; [discriminate|unwind_steps Hsort].
      * split; [intros [= <-]; eauto 30|unwind_steps Hsort].
    + split; [discriminate|unwind_steps Hsort].
  - unfold calculate_metrics. split.
    + intros [outcome Hout].
      apply bind_ret in Hout as (dates & Hdates & Hout).
      apply bind_ret in Hout as (cells & Hcells & Hout).
      apply bind_ret in Hout as (sorted & Hsorted & Hout).
      apply bind_ret in Hout as (column & Hcolumn & Hout).
      apply bind_ret in Hout as (net_profit & Hfloats & Hout).
      apply bind_ret in Hout as (stats & Hstats & Hout).
      apply bind_ret in Hout as (bah & Hbah & _).
      exists dates, cells, sorted, column, net_profit, stats.
      repeat (split; [assumption|]). intros ->.
      destruct (calculate_buy_and_hold sorted date_column initial_balance) as [b|e];
        [eauto|discriminate].
    + intros (dates & cells & sorted & column & net_profit & stats
              & Hdates & Hcells & Hsorted & Hcolumn & Hfloats & Hstats & Hbah).
      rewrite Hdates. simpl. rewrite Hcells. simpl. rewrite Hsorted. simpl.
      rewrite Hcolumn. simpl. rewrite Hfloats. simpl. rewrite Hstats. simpl.
      destruct include_buy_and_hold; simpl; [|eauto].
      destruct (Hbah eq_refl) as [[[c d] p] ->]. simpl. eauto.
  - intros Hnet. unfold calculate_metrics, raises, getitem.
    destruct (get_column date_column trades) as [dates|] eqn:Hcol; simpl; [|eauto].
    destruct (to_datetime dates) as [cells|e] eqn:Hdates; simpl; [|eauto].
    unfold sort_values, getitem. rewrite get_column_setitem_eq. simpl.
    rewrite get_column_take_rows.
    destruct (String.eqb_spec "Net Profit" date_column) as [<-|Hne].
    + congruence.
    + rewrite get_column_setitem_ne by exact Hne. rewrite Hnet. simpl. eauto.
  - intros st l input_filename df Hl. unfold format_trade_data, raises. rewrite Hl.
    destruct (format_trade_data_body df input_filename) as [[formatted|e] df']; simpl.
    + split.
      * split; [discriminate|]. intros [e He]. discriminate.
      * intros f. split; intros [= ->]; reflexivity.
    + split.
      * split; [eauto|reflexivity].
      * intros f. split; discriminate.
Qed.

Lemma metrics_exceptions_propagate_witness :
  calculate_metrics (H := failing_series_externals) one_loss_ledger "Entry Date"
    default_balance DEFAULT_RISK_FREE_RATE true
  = Raise series_failure.
Proof.
  apply (metrics_exceptions_propagate (H := failing_series_externals) one_loss_ledger
           "Entry Date" default_balance DEFAULT_RISK_FREE_RATE true).
  right. exists [CTime 0]. split; [reflexivity|]. right.
  exists [CTime 0], one_loss_ledger. split; [reflexivity|]. split; [reflexivity|].
  right. exists [CNum (f64_of_Z (-50))]. split; [reflexivity|].
  right. exists [f64_of_Z (-50)]. split; [reflexivity|].
  left. reflexivity.
Defined.

(** The normaliser on a frame that has no [Type] column: nothing is
    raised, the result is absent. *)
Example normaliser_absorbs :
  fst (format_trade_data (H := plain_externals) {[ 1%positive := one_loss_ledger ]}
         1%positive "trades.csv") = None.
Proof. vm_compute. reflexivity. Qed.

(** ** The confidence-level table *)

Section TableFacts.
Context `{Externals}.

Lemma monte_carlo_rows_forall (P : MonteCarloRow -> Prop)
    (cumulative_profits : ndarray) (initial_balance : float64) (levels : list Z)
    (rows : list MonteCarloRow) :
  (forall level row,
      monte_carlo_row cumulative_profits initial_balance level = Ret row -> P row) ->
  monte_carlo_rows cumulative_profits initial_balance levels = Ret rows ->
  Forall P rows /\ length rows = length levels.
Proof.
  intros Hrow. revert rows. induction levels as [|level levels IH]; intros rows; simpl.
  - intros [= <-]. split; [constructor|reflexivity].
  - intros Hrows. apply bind_ret in Hrows as (row & Hr & Hrows).
    apply bind_ret in Hrows as (rest & Hrest & Hrows). injection Hrows as <-.
    destruct (IH rest Hrest) as [Hall Hlen]. split.
    + constructor; [exact (Hrow level row Hr)|exact Hall].
    + simpl. now rewrite Hlen.
Qed.

End TableFacts.

(** C4 (what the code does). On a cumulative-profit matrix of [r] paths
    and [c] days, every line of the confidence-level table has as its
    annualised return the growth factor
    [(net_profit + initial_balance) / initial_balance] raised to the power
    [1 / r], minus 1: the exponent is taken from [len(cumulative_profits)],
    the number of simulated paths, not from the number of days [c]. *)
Theorem annual_return_exponent_is_path_count `{Externals}
    (cumulative_profits : ndarray) (r c : nat) (initial_balance : float64)
    (rows : list MonteCarloRow) :
  shape cumulative_profits = [r; c] ->
  display_monte_carlo_metrics cumulative_profits initial_balance = Ret rows ->
  Forall (fun row =>
            mc_annual_return row
            = fsub (np_power (fdiv (fadd (mc_net_profit row) initial_balance) initial_balance)
                             (fdiv fone (f64_of_Z (Z.of_nat r))))
                   fone) rows
  /\ length rows = 7%nat.
Proof.
  intros Hshape Hrows. unfold display_monte_carlo_metrics in Hrows.
  eapply monte_carlo_rows_forall in Hrows; [exact Hrows|].
  intros level row Hrow. unfold monte_carlo_row in Hrow.
  apply bind_ret in Hrow as (max_dd & _ & Hrow).
  apply bind_ret in Hrow as (finals & _ & Hrow).
  apply bind_ret in Hrow as (n & Hn & Hrow).
  apply bind_ret in Hrow as (exponent & Hexp & Hrow).
  injection Hrow as <-. simpl.
  unfold ndarray_len in Hn. rewrite Hshape in Hn. injection Hn as <-.
  unfold int_reciprocal in Hexp. destruct (Z.of_nat r =? 0); [discriminate|].
  now injection Hexp as <-.
Qed.

Lemma annual_return_exponent_is_path_count_witness :
  exists rows : list MonteCarloRow,
    display_monte_carlo_metrics (H := plain_externals) two_paths_three_days (f64_of_Z 100)
    = Ret rows
    /\ Forall (fun row =>
            mc_annual_return row
            = fsub (np_power (fdiv (fadd (mc_net_profit row) (f64_of_Z 100)) (f64_of_Z 100))
                             (fdiv fone (f64_of_Z (Z.of_nat 2))))
                   fone) rows
    /\ length rows = 7%nat.
Proof.
  eexists. split; [vm_compute; reflexivity|].
  eapply (annual_return_exponent_is_path_count (H := plain_externals)
            two_paths_three_days 2 3 (f64_of_Z 100)).
  - reflexivity.
  - vm_compute. reflexivity.
Defined.

(** Two paths over three days: the exponent is 1/2, and 1/2 is not 1/3. *)
Example exponent_two_paths_three_days :
  (ndarray_len two_paths_three_days ≫= int_reciprocal) = Ret (fdiv fone (f64_of_Z 2))
  /\ fdiv fone (f64_of_Z 2) <> fdiv fone (f64_of_Z 3).
Proof. split; [vm_compute; reflexivity|vm_compute; discriminate]. Qed.

(** ** What is written into the caller's ledger *)

Section FrameEffects.
Context `{Externals}.

Lemma has_column_setitem_eq (name : string) (cells : list cell) (df : DataFrame) :
  has_column name (setitem name cells df) = true.
Proof. unfold has_column. now rewrite get_column_setitem_eq. Qed.

Lemma has_column_setitem_ne (name other : string) (cells : list cell) (df : DataFrame) :
  name <> other -> has_column name (setitem other cells df) = has_column name df.
Proof. intros Hne. unfold has_column. now rewrite get_column_setitem_ne. Qed.

(** The monthly table leaves its three helper columns in the frame. *)
Lemma monthly_performance_frame_columns (trades : DataFrame) (date_column : string) :
  fst (monthly_performance_frame trades date_column) = Ret tt ->
  let after := snd (monthly_performance_frame trades date_column) in
  has_column "Year" after = true /\ has_column "Month" after = true
  /\ has_column "Month_Num" after = true.
Proof.
  unfold monthly_performance_frame.
  destruct (getitem date_column trades ≫= to_datetime) as [dates|e]; [|discriminate].
  destruct (getitem date_column (setitem date_column dates trades) ≫= dt) as [ts1|e];
    [|discriminate].
  destruct (getitem date_column _ ≫= dt) as [ts2|e]; [|discriminate].
  destruct (getitem date_column _ ≫= dt) as [ts3|e]; [|discriminate].
  intros _. cbn [snd].
  rewrite !has_column_setitem_ne by discriminate.
  rewrite (has_column_setitem_ne "Month" "Month_Num") by discriminate.
  now rewrite !has_column_setitem_eq.
Qed.

(** The metrics work on a copy: the session is what it was. *)
Lemma calculate_metrics_call_keeps_store (st : store) (l : loc) (date_column : string)
    (initial_balance risk_free_rate : float64) (include_buy_and_hold : bool) :
  snd (calculate_metrics_call st l date_column initial_balance risk_free_rate
         include_buy_and_hold) = st.
Proof. unfold calculate_metrics_call. destruct (st !! l); reflexivity. Qed.

End FrameEffects.

(** C6 (what the code does). [monthly_performance_table] writes into the
    ledger it is given: whenever it returns, the caller's object holds the
    columns [Year], [Month] and [Month_Num], so a ledger that had no
    [Month_Num] column is no longer the ledger it was. *)
Theorem monthly_table_writes_into_ledger `{Externals}
    (st : store) (l : loc) (ledger : DataFrame) (date_column : string)
    (initial_balance : float64) (mode : string) :
  st !! l = Some ledger ->
  fst (monthly_performance_table st l date_column initial_balance mode) = Ret tt ->
  exists after : DataFrame,
    snd (monthly_performance_table st l date_column initial_balance mode) !! l = Some after
    /\ has_column "Year" after = true /\ has_column "Month" after = true
    /\ has_column "Month_Num" after = true
    /\ (has_column "Month_Num" ledger = false -> after <> ledger).
Proof.
  intros Hl Hret. unfold monthly_performance_table in *. rewrite Hl in *.
  pose proof (monthly_performance_frame_columns ledger date_column) as Hcols.
  destruct (monthly_performance_frame ledger date_column) as [outcome after]. simpl in *.
  exists after. rewrite lookup_insert_eq. split; [reflexivity|].
  destruct (Hcols Hret) as (Hy & Hm & Hn). repeat split; try assumption.
  intros Hbefore ->. congruence.
Qed.

Lemma monthly_table_writes_into_ledger_witness :
  exists after : DataFrame,
    snd (monthly_performance_table (H := plain_externals) session 1%positive "Entry Date"
           default_balance "Dollar ($)") !! 1%positive = Some after
    /\ has_column "Year" after = true /\ has_column "Month" after = true
    /\ has_column "Month_Num" after = true
    /\ (has_column "Month_Num" one_loss_ledger = false -> after <> one_loss_ledger).
Proof.
  apply (monthly_table_writes_into_ledger (H := plain_externals) session 1%positive
           one_loss_ledger "Entry Date" default_balance "Dollar ($)").
  - reflexivity.
  - vm_compute. reflexivity.
Defined.

(** The ledger of the session before and after the table is shown. *)
Example session_after_monthly_table :
  columns <$> (session !! 1%positive)
    = Some ["Entry Date"; "Entry Price"; "Profit"; "Net Profit"]
  /\ columns <$> (snd (monthly_performance_table (H := plain_externals) session 1%positive
                         "Entry Date" default_balance "Dollar ($)") !! 1%positive)
    = Some ["Entry Date"; "Entry Price"; "Profit"; "Net Profit"; "Year"; "Month"; "Month_Num"].
Proof. split; vm_compute; reflexivity. Qed.

(** The normaliser writes too: a raw export comes back with [Lots] and
    [Commission] added to the frame that was passed in. *)
Example raw_trades_after_normaliser :
  columns (snd (format_trade_data_body (H := plain_externals) raw_trades "trades.csv"))
  = columns raw_trades ++ ["Lots"; "Commission"].
Proof. vm_compute. reflexivity. Qed.

(* ===================================================================== *)
(** * Part III. Further properties of the engine                           *)
(* ===================================================================== *)

(** ** Order of floats

    A comparison of two numbers is the comparison of their keys: the
    infinities at the ends, the negative numbers by falling exponent and
    mantissa, the zeros, the positive numbers by rising exponent and
    mantissa. *)

Section FloatOrder.

Lemma SFcompare_key (x y : float64) :
  is_nan x = false -> is_nan y = false ->
  exists c, SFcompare x y = Some c
    /\ (c = Lt <-> key_lt (float_key x) (float_key y))
    /\ (c = Gt <-> key_lt (float_key y) (float_key x)).
Proof.
  destruct x as [sx|sx| |sx mx ex], y as [sy|sy| |sy my ey]; simpl;
    intros Hx Hy; try discriminate; eexists; (split; [reflexivity|]);
    try (destruct sx; simpl; split; split; intros; try discriminate; try reflexivity; lia);
    try (destruct sy; simpl; split; split; intros; try discriminate; try reflexivity; lia);
    try (destruct sx, sy; simpl; split; split; intros; try discriminate; try reflexivity; lia).
  all: try (simpl; split; split; intros; try discriminate; lia).
  all: change (Pos.compare_cont Eq mx my) with (Pos.compare mx my).
  all: destruct sx, sy; simpl.
  all: destruct (Z.compare_spec ex ey); destruct (Pos.compare_spec mx my); simpl;
       split; split; intros; try discriminate; try reflexivity; lia.
Qed.

Lemma flt_key (x y : float64) :
  is_nan x = false -> is_nan y = false ->
  flt x y = true <-> key_lt (float_key x) (float_key y).
Proof.
  intros Hx Hy. destruct (SFcompare_key x y Hx Hy) as (c & Hc & Hlt & _).
  unfold flt, SFltb. rewrite Hc. rewrite <- Hlt. destruct c; split; congruence.
Qed.

Lemma fle_key (x y : float64) :
  is_nan x = false -> is_nan y = false ->
  fle x y = true <-> ~ key_lt (float_key y) (float_key x).
Proof.
  intros Hx Hy. destruct (SFcompare_key x y Hx Hy) as (c & Hc & _ & Hgt).
  unfold fle, SFleb. rewrite Hc. rewrite <- Hgt. destruct c; split; congruence.
Qed.

Lemma flt_is_number (x y : float64) :
  flt x y = true -> is_nan x = false /\ is_nan y = false.
Proof. destruct x, y; simpl; try discriminate; auto. Qed.

Lemma fle_is_number (x y : float64) :
  fle x y = true -> is_nan x = false /\ is_nan y = false.
Proof. destruct x, y; simpl; try discriminate; auto. Qed.

Lemma key_lt_irrefl (k : Z * Z * Z) : ~ key_lt k k.
Proof. destruct k as [[a b] c]. simpl. lia. Qed.

Lemma key_lt_asym (k1 k2 : Z * Z * Z) : key_lt k1 k2 -> ~ key_lt k2 k1.
Proof. destruct k1 as [[a1 b1] c1], k2 as [[a2 b2] c2]. simpl. lia. Qed.

Lemma flt_irrefl (x : float64) : flt x x = false.
Proof.
  destruct (flt x x) eqn:Hlt; [|reflexivity].
  destruct (flt_is_number x x Hlt) as [Hx _].
  apply (flt_key x x Hx Hx) in Hlt. now apply key_lt_irrefl in Hlt.
Qed.

(** No float is both below and above another one. *)
Lemma flt_asym (x y : float64) : flt x y = true -> flt y x = false.
Proof.
  intros Hlt. destruct (flt_is_number x y Hlt) as [Hx Hy].
  apply (flt_key x y Hx Hy) in Hlt. apply key_lt_asym in Hlt.
  destruct (flt y x) eqn:Hgt; [|reflexivity].
  apply (flt_key y x Hy Hx) in Hgt. contradiction.
Qed.

(** Among numbers, what is not below is at least. *)
Lemma fle_negb_flt (x y : float64) :
  is_nan x = false -> is_nan y = false -> fle y x = negb (flt x y).
Proof.
  intros Hx Hy. pose proof (flt_key x y Hx Hy) as Hlt. pose proof (fle_key y x Hy Hx) as Hle.
  destruct (flt x y), (fle y x); simpl; try reflexivity; intuition congruence.
Qed.

Lemma flt_nan_r (x : float64) : flt x fnan = false.
Proof. destruct x; reflexivity. Qed.

End FloatOrder.

(** ** The quality classes *)

(** X1. [interpret_sqn] sorts every number into the class of its
    interval, with no gap between the classes: below 1, [1, 2), [2, 3),
    [3, 5), [5, 7), and 7 or more. What is not a number (the SQN of a
    ledger whose deviation is undefined) fails every test and is classed
    "Holy Grail". *)
Theorem interpret_sqn_classes (sqn : float64) :
  (interpret_sqn sqn = "Very hard to trade" <-> flt sqn (f64_of_Z 1) = true)
  /\ (interpret_sqn sqn = "Average"
      <-> fle (f64_of_Z 1) sqn = true /\ flt sqn (f64_of_Z 2) = true)
  /\ (interpret_sqn sqn = "Good"
      <-> fle (f64_of_Z 2) sqn = true /\ flt sqn (f64_of_Z 3) = true)
  /\ (interpret_sqn sqn = "Excellent"
      <-> fle (f64_of_Z 3) sqn = true /\ flt sqn (f64_of_Z 5) = true)
  /\ (interpret_sqn sqn = "Superb"
      <-> fle (f64_of_Z 5) sqn = true /\ flt sqn (f64_of_Z 7) = true)
  /\ (interpret_sqn sqn = "Holy Grail"
      <-> is_nan sqn = true \/ fle (f64_of_Z 7) sqn = true).
Proof.
  destruct (is_nan sqn) eqn:Hnan.
  { destruct sqn; try discriminate. vm_compute.
    repeat split; intros; try discriminate; auto; intuition discriminate. }
  assert (Hchain : forall a b : Z, In (a, b) [(1, 2); (2, 3); (3, 5); (5, 7)] ->
             flt sqn (f64_of_Z a) = true -> flt sqn (f64_of_Z b) = true).
  { intros a b Hin Ha.
    assert (Hnum : is_nan (f64_of_Z a) = false /\ is_nan (f64_of_Z b) = false
                   /\ key_lt (float_key (f64_of_Z a)) (float_key (f64_of_Z b))).
    { simpl in Hin. destruct Hin as [H|[H|[H|[H|[]]]]]; injection H as <- <-;
        (split; [reflexivity|split; [reflexivity|]]);
        match goal with
        | |- key_lt (float_key ?x) (float_key ?y) =>
            let kx := eval vm_compute in (float_key x) in
            let ky := eval vm_compute in (float_key y) in
            change (key_lt kx ky); simpl; lia
        end. }
    destruct Hnum as (Hna & Hnb & Hab).
    apply (flt_key sqn _ Hnan Hna) in Ha. apply (flt_key sqn _ Hnan Hnb).
    destruct (float_key sqn) as [[k1 k2] k3], (float_key (f64_of_Z a)) as [[a1 a2] a3],
      (float_key (f64_of_Z b)) as [[b1 b2] b3]. simpl in *. lia. }
  unfold interpret_sqn.
  rewrite !(fle_negb_flt sqn) by (exact Hnan || reflexivity).
  pose proof (Hchain 1 2 ltac:(simpl; auto)) as H12.
  pose proof (Hchain 2 3 ltac:(simpl; auto)) as H23.
  pose proof (Hchain 3 5 ltac:(simpl; auto)) as H35.
  pose proof (Hchain 5 7 ltac:(simpl; auto)) as H57.
  destruct (flt sqn (f64_of_Z 1)) eqn:E1.
  { rewrite (H12 eq_refl), (H23 (H12 eq_refl)), (H35 (H23 (H12 eq_refl))),
      (H57 (H35 (H23 (H12 eq_refl)))). simpl.
    repeat split; intros; try discriminate; auto; intuition discriminate. }
  destruct (flt sqn (f64_of_Z 2)) eqn:E2.
  { rewrite (H23 eq_refl), (H35 (H23 eq_refl)), (H57 (H35 (H23 eq_refl))). simpl.
    repeat split; intros; try discriminate; auto; intuition discriminate. }
  destruct (flt sqn (f64_of_Z 3)) eqn:E3.
  { rewrite (H35 eq_refl), (H57 (H35 eq_refl)). simpl.
    repeat split; intros; try discriminate; auto; intuition discriminate. }
  destruct (flt sqn (f64_of_Z 5)) eqn:E5.
  { rewrite (H57 eq_refl). simpl.
    repeat split; intros; try discriminate; auto; intuition discriminate. }
  destruct (flt sqn (f64_of_Z 7)) eqn:E7; simpl;
    repeat split; intros; try discriminate; auto; intuition discriminate.
Qed.

(** The thresholds of the classes. *)
Example interpret_sqn_thresholds :
  interpret_sqn (fdiv (f64_of_Z 99) (f64_of_Z 100)) = "Very hard to trade"
  /\ interpret_sqn (f64_of_Z 1) = "Average"
  /\ interpret_sqn (fdiv (f64_of_Z 699) (f64_of_Z 100)) = "Superb"
  /\ interpret_sqn (f64_of_Z 7) = "Holy Grail"
  /\ interpret_sqn fnan = "Holy Grail".
Proof. repeat split; vm_compute; reflexivity. Qed.

(** ** Streaks of a ledger *)

Section StreakBounds.

Lemma losses_as_flags (profits : list float64) :
  max_consecutive_losses profits = fst (flag_state (map (fun x => flt x fzero) profits)).
Proof. unfold max_consecutive_losses, flag_state. now rewrite loss_state_flags. Qed.

Lemma wins_as_flags (profits : list float64) :
  max_consecutive_wins profits = fst (flag_state (map (fun x => fgt x fzero) profits)).
Proof. unfold max_consecutive_wins, flag_state. now rewrite win_state_flags. Qed.

Lemma run_at_length {A} (p : A -> bool) (l : list A) (i n : nat) :
  run_at p l i n -> (i + n <= length l)%nat.
Proof. now intros [Hlen _]. Qed.

Lemma run_at_elem {A} (p : A -> bool) (l : list A) (i n k : nat) :
  run_at p l i n -> (i <= k < i + n)%nat -> exists x, l !! k = Some x /\ p x = true.
Proof.
  intros [Hlen Hall] Hk.
  destruct (lookup_lt_is_Some_2 l k) as [x Hx]; [lia|].
  exists x. split; [exact Hx|]. exact (Hall k x Hk Hx).
Qed.

Lemma run_at_one {A} (p : A -> bool) (l : list A) (k : nat) (x : A) :
  l !! k = Some x -> p x = true -> run_at p l k 1.
Proof.
  intros Hx Hp. split.
  - apply lookup_lt_Some in Hx. lia.
  - intros j y Hj Hy. assert (j = k) as -> by lia. congruence.
Qed.

(** The longest run is empty exactly when no element passes the test. *)
Lemma longest_run_zero {A} (p : A -> bool) (l : list A) (n : nat) :
  longest_run p l n -> (n = 0%nat <-> forall x, x ∈ l -> p x = false).
Proof.
  intros [[i Hrun] Hmax]. split.
  - intros -> x Hin. destruct (p x) eqn:Hp; [|reflexivity].
    apply list_elem_of_lookup in Hin. destruct Hin as [k Hk].
    pose proof (Hmax k 1%nat (run_at_one p l k x Hk Hp)). lia.
  - intros Hnone. destruct n as [|n]; [reflexivity|].
    destruct (run_at_elem p l i (S n) i Hrun) as (x & Hx & Hp); [lia|].
    apply list_elem_of_lookup_2 in Hx. rewrite (Hnone x Hx) in Hp. discriminate.
Qed.

(** Runs of two tests that no element passes together do not overlap. *)
Lemma disjoint_runs {A} (p q : A -> bool) (l : list A) (i n j m : nat) :
  (forall x, p x = true -> q x = false) ->
  run_at p l i n -> run_at q l j m -> (n + m <= length l)%nat.
Proof.
  intros Hpq Hp Hq.
  pose proof (run_at_length p l i n Hp). pose proof (run_at_length q l j m Hq).
  destruct (decide (n = 0%nat)); [lia|]. destruct (decide (m = 0%nat)); [lia|].
  destruct (decide (i + n <= j \/ j + m <= i)%nat) as [Hapart|Hmeet]; [lia|].
  exfalso.
  destruct (run_at_elem p l i n (Nat.max i j) Hp) as (x & Hx & Hpx); [lia|].
  destruct (run_at_elem q l j m (Nat.max i j) Hq) as (y & Hy & Hqy); [lia|].
  rewrite Hx in Hy. injection Hy as <-. rewrite (Hpq x Hpx) in Hqy. discriminate.
Qed.

End StreakBounds.

(** X2. The longest losing streak and the longest winning streak of a
    sequence of profits are counts between 0 and its length, and together
    they never exceed the number of trades: a trade is not a loss and a win
    at once. *)
Theorem streaks_within_trade_count (profits : list float64) :
  0 <= max_consecutive_losses profits
  /\ 0 <= max_consecutive_wins profits
  /\ max_consecutive_losses profits + max_consecutive_wins profits
     <= Z.of_nat (length profits).
Proof.
  rewrite losses_as_flags, wins_as_flags.
  pose proof (flag_state_bounds (map (fun x => flt x fzero) profits)) as [Hl _].
  pose proof (flag_state_bounds (map (fun x => fgt x fzero) profits)) as [Hw _].
  destruct (flag_state_longest_run (fun x => flt x fzero) profits) as [[i Hloss] _].
  destruct (flag_state_longest_run (fun x => fgt x fzero) profits) as [[j Hwin] _].
  pose proof (disjoint_runs (fun x => flt x fzero) (fun x => fgt x fzero) profits _ _ _ _
                (fun x Hx => flt_asym x fzero Hx) Hloss Hwin).
  lia.
Qed.

(** X3. The longest losing streak is 0 exactly when no profit is strictly
    negative, and the longest winning streak is 0 exactly when no profit is
    strictly positive; zeros and missing numbers count for neither. *)
Theorem streak_is_zero_iff_none (profits : list float64) :
  (max_consecutive_losses profits = 0 <-> forall x, x ∈ profits -> flt x fzero = false)
  /\ (max_consecutive_wins profits = 0 <-> forall x, x ∈ profits -> fgt x fzero = false).
Proof.
  rewrite losses_as_flags, wins_as_flags.
  pose proof (flag_state_bounds (map (fun x => flt x fzero) profits)) as [Hl _].
  pose proof (flag_state_bounds (map (fun x => fgt x fzero) profits)) as [Hw _].
  pose proof (longest_run_zero _ _ _ (flag_state_longest_run (fun x => flt x fzero) profits))
    as Hloss.
  pose proof (longest_run_zero _ _ _ (flag_state_longest_run (fun x => fgt x fzero) profits))
    as Hwin.
  split; [rewrite <- Hloss|rewrite <- Hwin]; lia.
Qed.

(** ** The drawdown period *)

Section DrawdownPeriod.

Lemma cummax_length (xs : list float64) : length (cummax xs) = length xs.
Proof.
  unfold cummax. rewrite length_zip_with, maximum_accumulate_length, length_map. lia.
Qed.

(** On its first day a series is at its peak. *)
Lemma first_day_not_in_drawdown (x : float64) (xs : list float64) :
  exists flags, zip_with flt (x :: xs) (cummax (x :: xs)) = false :: flags.
Proof.
  unfold cummax. simpl. eexists. f_equal.
  destruct (is_nan x); [apply flt_nan_r|apply flt_irrefl].
Qed.

End DrawdownPeriod.

(** X4. [max_drawdown_period] is the length of the longest run of days on
    which the series is strictly below its running peak. It is never
    negative and, the first day being a peak, it is less than the number of
    days of a non-empty series. *)
Theorem max_drawdown_period_spec (cumulative_profit : list float64) :
  longest_run (fun b : bool => b)
    (zip_with flt cumulative_profit (cummax cumulative_profit))
    (Z.to_nat (max_drawdown_period cumulative_profit))
  /\ 0 <= max_drawdown_period cumulative_profit
  /\ (cumulative_profit <> [] ->
      max_drawdown_period cumulative_profit < Z.of_nat (length cumulative_profit)).
Proof.
  unfold max_drawdown_period.
  change drawdown_period_step with flag_step.
  set (flags := zip_with flt cumulative_profit (cummax cumulative_profit)).
  change (fold_left flag_step flags (0, 0)) with (flag_state flags).
  pose proof (flag_state_longest_run (fun b : bool => b) flags) as Hrun.
  rewrite map_id in Hrun.
  pose proof (flag_state_bounds flags) as [Hpos _].
  split; [exact Hrun|]. split; [lia|].
  intros Hne. destruct cumulative_profit as [|x xs]; [congruence|].
  destruct (first_day_not_in_drawdown x xs) as [rest Hflags].
  assert (Hlen : length flags = length (x :: xs)).
  { unfold flags. rewrite length_zip_with, cummax_length. lia. }
  destruct Hrun as [[i Hi] _].
  pose proof (run_at_length _ _ _ _ Hi) as Hbound.
  destruct (decide (i = 0 /\ Z.to_nat (fst (flag_state flags)) <> 0)%nat) as [[-> Hn]|Hok].
  - exfalso.
    destruct (run_at_elem _ flags 0 _ 0 Hi) as (b & Hb & Htrue); [lia|].
    fold flags in Hflags. rewrite Hflags in Hb. simpl in Hb. congruence.
  - rewrite Hlen in Hbound. simpl length in *. lia.
Qed.

Lemma max_drawdown_period_spec_witness :
  map f64_of_Z [100; 90; 95] <> []
  /\ max_drawdown_period (map f64_of_Z [100; 90; 95]) < 3.
Proof.
  split; [discriminate|].
  destruct (max_drawdown_period_spec (map f64_of_Z [100; 90; 95])) as (_ & _ & Hlt).
  apply Hlt. discriminate.
Defined.

Example max_drawdown_period_example :
  max_drawdown_period (map f64_of_Z [100; 90; 95; 110; 105; 104; 103; 120]) = 3
  /\ max_drawdown_period [] = 0
  /\ max_drawdown_period (map f64_of_Z [100; 100; 100]) = 0.
Proof. repeat split; vm_compute; reflexivity. Qed.

(** ** Resampling with and without replacement *)

Section ResamplingFacts.
Context `{NumpyRandom}.

Lemma draw_indices_spec (k bound : nat) (g : rng_state) :
  (0 < bound)%nat ->
  length (fst (draw_indices k bound g)) = k
  /\ Forall (fun i => (i < bound)%nat) (fst (draw_indices k bound g)).
Proof.
  intros Hb. revert g. induction k as [|k IH]; intros g; simpl.
  - split; [reflexivity|constructor].
  - pose proof (random_index_bound bound g Hb) as Hi.
    destruct (random_index bound g) as [i g1]. simpl in Hi.
    specialize (IH g1). destruct (draw_indices k bound g1) as [rest g2]. simpl in *.
    destruct IH as [Hlen Hall]. split; [now rewrite Hlen|now constructor].
Qed.


Lemma seeding_succeeds (seed : option Z) (g : rng_state) :
  match seed with Some s => 0 <= s < 2 ^ 32 | None => True end ->
  exists g0,
    match seed with
    | Some s => np_random_seed s g
    | None => (Ret tt, g)
    end = (Ret tt, g0).
Proof.
  intros Hseed. destruct seed as [s|]; [|eauto]. unfold np_random_seed.
  destruct (Z.leb_spec 0 s); [|lia]. destruct (Z.ltb_spec s (2 ^ 32)); [|lia].
  simpl. eauto.
Qed.


End ResamplingFacts.

(** X5. Sampling with replacement ("random_choice") from a non-empty
    numeric pool, with non-negative sizes and an admissible seed, returns
    a well-formed [num_simulations x num_trades] matrix, every entry of
    which is one of the historical profits; the number of trades may
    exceed the size of the pool. *)
Theorem random_choice_draws_from_pool `{NumpyRandom}
    (trades : DataFrame) (cells : list cell) (profits : list float64)
    (num_simulations : Z) (num_trades : option Z) (seed : option Z) (g : rng_state) :
  get_column "Profit" trades = Some cells ->
  as_floats cells = Ret profits ->
  profits <> [] ->
  0 <= num_simulations ->
  0 <= default (Z.of_nat (length profits)) num_trades ->
  match seed with Some s => 0 <= s < 2 ^ 32 | None => True end ->
  exists m : ndarray,
    fst (monte_carlo_simulation trades num_simulations num_trades "random_choice" seed g)
    = Ret m
    /\ shape m = [Z.to_nat num_simulations;
                  Z.to_nat (default (Z.of_nat (length profits)) num_trades)]
    /\ ndarray_wf m
    /\ Forall (fun x => x ∈ profits) (data m).
Proof.
  intros Hcol Hfloats Hne Hsims Htrades Hseed. unfold monte_carlo_simulation.
  rewrite Hcol, Hfloats. simpl.
  destruct (seeding_succeeds seed g Hseed) as [g0 ->].
  unfold np_random_choice.
  assert (Hlen : (0 < length profits)%nat) by (destruct profits; [congruence|simpl; lia]).
  destruct (Nat.eqb_spec (length profits) 0); [lia|]. simpl.
  destruct (Z.ltb_spec num_simulations 0); [lia|].
  destruct (Z.ltb_spec (default (Z.of_nat (length profits)) num_trades) 0); [lia|]. simpl.
  pose proof (draw_indices_spec
                (Z.to_nat num_simulations
                 * Z.to_nat (default (Z.of_nat (length profits)) num_trades))
                (length profits) g0 Hlen) as [Hcount Hbound].
  destruct (draw_indices _ (length profits) g0) as [indices g1]. simpl in *.
  eexists. split; [reflexivity|]. simpl. split; [reflexivity|]. split.
  - unfold ndarray_wf. simpl. rewrite length_map, Hcount. lia.
  - apply Forall_map. eapply Forall_impl; [exact Hbound|].
    intros i Hi. simpl. now apply nth_elem_of.
Qed.

Lemma random_choice_draws_from_pool_witness :
  exists m : ndarray,
    fst (monte_carlo_simulation (H := lcg_random) pool_ledger 4 (Some 5)
           "random_choice" (Some 7) 0) = Ret m
    /\ shape m = [Z.to_nat 4; Z.to_nat (default (Z.of_nat (length pool_profits)) (Some 5))]
    /\ ndarray_wf m
    /\ Forall (fun x => x ∈ pool_profits) (data m).
Proof.
  apply (random_choice_draws_from_pool (H := lcg_random) pool_ledger pool_cells pool_profits
           4 (Some 5) (Some 7) 0); try reflexivity; try discriminate; simpl; lia.
Defined.



(** ** Drawdowns of simple paths *)

Section DrawdownFacts.

Lemma np_maximum_same (x : float64) : np_maximum x x = x.
Proof. unfold np_maximum. now destruct (_ || _). Qed.

Lemma maximum_accumulate_from_flat (x : float64) (n : nat) :
  maximum_accumulate_from x (replicate n x) = replicate n x.
Proof.
  induction n as [|n IH]; simpl; [reflexivity|]. rewrite np_maximum_same. now rewrite IH.
Qed.

Lemma maximum_accumulate_flat (x : float64) (n : nat) :
  maximum_accumulate (replicate n x) = replicate n x.
Proof. destruct n as [|n]; simpl; [reflexivity|]. now rewrite maximum_accumulate_from_flat. Qed.

Lemma zip_with_replicate {A B C} (f : A -> B -> C) (n : nat) (a : A) (b : B) :
  zip_with f (replicate n a) (replicate n b) = replicate n (f a b).
Proof. induction n as [|n IH]; simpl; [reflexivity|]. now rewrite IH. Qed.

Lemma map_replicate {A B} (f : A -> B) (n : nat) (a : A) :
  map f (replicate n a) = replicate n (f a).
Proof. induction n as [|n IH]; simpl; [reflexivity|]. now rewrite IH. Qed.

Lemma fold_maximum_flat (x : float64) (n : nat) :
  fold_left np_maximum (replicate n x) x = x.
Proof. induction n as [|n IH]; simpl; [reflexivity|]. now rewrite np_maximum_same. Qed.

(** A finite number minus itself is the positive zero. *)
Lemma fsub_same (x : float64) : is_finite x = true -> fsub x x = fzero.
Proof.
  destruct x as [s|s| |s m e]; simpl; try discriminate; intros _.
  - now destruct s.
  - unfold fsub, SFsub. rewrite Z.sub_diag. reflexivity.
Qed.

(** The percentage of no drawdown is a zero, whatever the peak. *)
Lemma zero_percentage (x : float64) :
  is_finite x = true ->
  feq (fmul (fdiv fzero (if feq x fzero then fone else x)) (f64_of_Z 100)) fzero = true.
Proof.
  destruct x as [s|s| |s m e]; simpl; try discriminate; intros _.
  - reflexivity.
  - destruct s; vm_compute; reflexivity.
Qed.

Lemma max_axis1_rows (rows : list (list float64)) :
  Forall (fun row => row <> []) rows ->
  exists v, max_axis1 rows = Ret v /\ length v = length rows.
Proof.
  induction 1 as [|row rows Hrow _ (v & Hv & Hlen)]; simpl; [eauto|].
  destruct row as [|x row]; [congruence|]. simpl. rewrite Hv. simpl.
  eexists. split; [reflexivity|]. simpl. now rewrite Hlen.
Qed.

End DrawdownFacts.

(** X7. A flat path, all its values the same finite number, has no
    drawdown: [calculate_max_drawdown] returns one zero for it, in dollars
    and in percent, also when the path is flat at 0 (the zero peak is
    replaced by 1 before the division, so nothing is divided by zero). *)
Theorem flat_path_has_no_drawdown (x : float64) (n : nat) (as_percentage : bool) :
  is_finite x = true -> (0 < n)%nat ->
  exists z : float64,
    calculate_max_drawdown (VNdarray (mk_ndarray [n] (replicate n x))) as_percentage
    = Ret [z]
    /\ feq z fzero = true.
Proof.
  intros Hfin Hn. unfold calculate_max_drawdown, ndim, reshape_1_row. simpl.
  rewrite length_replicate. destruct (decide (n = 0%nat)); [lia|].
  rewrite firstn_all2 by (rewrite length_replicate; lia).
  unfold drawdown_row. rewrite maximum_accumulate_flat, zip_with_replicate, (fsub_same x Hfin).
  destruct n as [|n]; [lia|]. destruct as_percentage.
  - rewrite map_replicate, zip_with_replicate. simpl. rewrite fold_maximum_flat.
    eexists. split; [reflexivity|]. now apply zero_percentage.
  - simpl. rewrite fold_maximum_flat. eexists. split; reflexivity.
Qed.

Lemma flat_path_has_no_drawdown_witness :
  exists z : float64,
    calculate_max_drawdown (VNdarray (mk_ndarray [3%nat] (replicate 3 (f64_of_Z (-250))))) true
    = Ret [z]
    /\ feq z fzero = true.
Proof.
  apply (flat_path_has_no_drawdown (f64_of_Z (-250)) 3 true); [reflexivity|lia].
Defined.

(** X8. On a well-formed matrix of [r] paths over [c] steps,
    [calculate_max_drawdown] returns one drawdown per path when [c > 0]
    (none for a matrix without rows), and raises the ValueError of an
    empty reduction when [c = 0], with or without rows. *)
Theorem max_drawdown_one_value_per_path (a : ndarray) (r c : nat) (as_percentage : bool) :
  shape a = [r; c] -> ndarray_wf a ->
  ((0 < c)%nat ->
   exists v, calculate_max_drawdown (VNdarray a) as_percentage = Ret v /\ length v = r)
  /\ (c = 0%nat ->
      calculate_max_drawdown (VNdarray a) as_percentage = Raise zero_size_reduction).
Proof.
  intros Hshape Hwf. unfold calculate_max_drawdown, ndim. rewrite Hshape. simpl.
  rewrite Hshape. split.
  - intros Hc. destruct (decide (c = 0%nat)); [lia|].
    assert (Hrect : Forall (fun row => length row = c) (chunk c r (data a))).
    { apply chunk_rectangular. unfold ndarray_wf in Hwf. rewrite Hshape in Hwf.
      simpl in Hwf. lia. }
    destruct (max_axis1_rows (map (drawdown_row as_percentage) (chunk c r (data a))))
      as (v & Hv & Hlen).
    + apply Forall_map. eapply Forall_impl; [exact Hrect|].
      intros row Hrow Hnil. simpl in *. apply (f_equal (@length float64)) in Hnil.
      rewrite drawdown_row_length in Hnil. simpl in Hnil. lia.
    + exists v. split; [exact Hv|]. now rewrite Hlen, length_map, chunk_length.
  - intros ->. reflexivity.
Qed.

Lemma max_drawdown_one_value_per_path_witness :
  ((0 < 3)%nat ->
   exists v, calculate_max_drawdown (VNdarray two_paths_three_days) true = Ret v
             /\ length v = 2%nat)
  /\ (3%nat = 0%nat ->
      calculate_max_drawdown (VNdarray two_paths_three_days) true
      = Raise zero_size_reduction).
Proof.
  apply (max_drawdown_one_value_per_path two_paths_three_days 2 3 true); reflexivity.
Defined.

Example max_drawdown_empty_shapes :
  calculate_max_drawdown (VNdarray (mk_ndarray [0%nat; 3%nat] [])) false = Ret []
  /\ calculate_max_drawdown (VNdarray (mk_ndarray [0%nat; 0%nat] [])) false
     = Raise zero_size_reduction
  /\ calculate_max_drawdown (VNdarray (mk_ndarray [0%nat] [])) false
     = Raise zero_size_reduction.
Proof. repeat split; reflexivity. Qed.

(** ** The normalised ledger *)

Section NormalisedLedger.
Context `{Externals}.

Lemma select_columns_spec (names : list string) (df out : DataFrame) :
  select_columns names df = Ret out ->
  columns out = names
  /\ forall name, In name names -> get_column name out = get_column name df.
Proof.
  revert out. induction names as [|n names IH]; intros out; simpl.
  - intros [= <-]. split; [reflexivity|]. intros name [].
  - intros Hsel. apply bind_ret in Hsel as (cells & Hcells & Hsel).
    apply bind_ret in Hsel as (rest & Hrest & Hsel). injection Hsel as <-.
    destruct (IH rest Hrest) as [Hcols Hget]. apply getitem_ret in Hcells.
    split; [simpl; now rewrite Hcols|].
    intros name Hin. simpl. destruct (String.eqb_spec n name) as [<-|Hne].
    + now rewrite Hcells.
    + destruct Hin as [Heq|Hin]; [congruence|]. now apply Hget.
Qed.

Lemma has_column_columns (name : string) (df : DataFrame) :
  has_column name df = existsb (fun n => String.eqb n name) (columns df).
Proof.
  unfold has_column. induction df as [|[n cells] df IH]; simpl; [reflexivity|].
  destruct (String.eqb n name); [reflexivity|exact IH].
Qed.

(** What the pairing path selects its result from: a frame whose
    [Net Profit] is the difference of its numeric [Profit] and
    [Total Commission]. *)
Lemma pairing_result (trade_data formatted : DataFrame) (input_filename : string) :
  forallb (fun col => has_column col trade_data) final_format_cols = false ->
  fst (format_trade_data_body trade_data input_filename) = Ret formatted ->
  exists (last : DataFrame) (profit_cells total_cells : list cell) (profit total : list float64),
    select_columns ["Trade #"; "Type"; "Contracts"; "Entry Date"; "Exit Date";
                    "Entry Price"; "Exit Price"; "Profit"; "Total Commission"; "Net Profit"]
                   last = Ret formatted
    /\ get_column "Profit" last = Some profit_cells
    /\ as_floats profit_cells = Ret profit
    /\ get_column "Total Commission" last = Some total_cells
    /\ as_floats total_cells = Ret total
    /\ get_column "Net Profit" last = Some (map CNum (zip_with fsub profit total)).
Proof.
  intros Hraw Hret. unfold format_trade_data_body in Hret. rewrite Hraw in Hret.
  destruct (schema_and_lots trade_data input_filename)
    as [[[price_column profit_column] lots]|e]; [|discriminate].
  cbn [fst] in Hret. unfold pair_trades in Hret.
  apply bind_ret in Hret as (types & _ & Hret).
  destruct (frame_empty _ || frame_empty _); [discriminate|].
  apply bind_ret in Hret as (left & _ & Hret).
  apply bind_ret in Hret as (right & _ & Hret).
  apply bind_ret in Hret as (paired & _ & Hret).
  apply bind_ret in Hret as (entry_types & _ & Hret).
  set (renamed := rename_columns _ _) in Hret.
  apply bind_ret in Hret as (commission & _ & Hret).
  apply bind_ret in Hret as (profit_cells & Hprofit & Hret).
  apply bind_ret in Hret as (profit & Hp & Hret).
  apply bind_ret in Hret as (total_cells & Htotal & Hret).
  apply bind_ret in Hret as (total & Ht & Hret).
  apply getitem_ret in Hprofit, Htotal.
  exists (setitem "Net Profit" (map CNum (zip_with fsub profit total))
            (setitem "Total Commission" commission renamed)),
    profit_cells, total_cells, profit, total.
  split; [exact Hret|].
  split; [rewrite get_column_setitem_ne by discriminate; exact Hprofit|].
  split; [exact Hp|].
  split; [rewrite get_column_setitem_ne by discriminate; exact Htotal|].
  split; [exact Ht|apply get_column_setitem_eq].
Qed.

End NormalisedLedger.

(** X9. A ledger that comes out of the pairing path has exactly the
    columns Trade #, Type, Contracts, Entry Date, Exit Date, Entry Price,
    Exit Price, Profit, Total Commission, Net Profit, in that order, and in
    every row its net profit is the profit minus the total commission. *)
Theorem paired_net_profit_is_profit_minus_commission `{Externals}
    (trade_data formatted : DataFrame) (input_filename : string) :
  forallb (fun col => has_column col trade_data) final_format_cols = false ->
  fst (format_trade_data_body trade_data input_filename) = Ret formatted ->
  columns formatted
  = ["Trade #"; "Type"; "Contracts"; "Entry Date"; "Exit Date";
     "Entry Price"; "Exit Price"; "Profit"; "Total Commission"; "Net Profit"]
  /\ exists (profit_cells total_cells : list cell) (profit total : list float64),
       get_column "Profit" formatted = Some profit_cells
       /\ as_floats profit_cells = Ret profit
       /\ get_column "Total Commission" formatted = Some total_cells
       /\ as_floats total_cells = Ret total
       /\ get_column "Net Profit" formatted = Some (map CNum (zip_with fsub profit total)).
Proof.
  intros Hraw Hret.
  destruct (pairing_result trade_data formatted input_filename Hraw Hret)
    as (last & pc & tc & profit & total & Hsel & Hp & Hpf & Ht & Htf & Hn).
  apply select_columns_spec in Hsel as [Hcols Hget].
  split; [exact Hcols|]. exists pc, tc, profit, total.
  rewrite !Hget by (simpl; tauto). auto.
Qed.

Lemma paired_net_profit_is_profit_minus_commission_witness :
  columns raw_trades_formatted
  = ["Trade #"; "Type"; "Contracts"; "Entry Date"; "Exit Date";
     "Entry Price"; "Exit Price"; "Profit"; "Total Commission"; "Net Profit"]
  /\ exists (profit_cells total_cells : list cell) (profit total : list float64),
       get_column "Profit" raw_trades_formatted = Some profit_cells
       /\ as_floats profit_cells = Ret profit
       /\ get_column "Total Commission" raw_trades_formatted = Some total_cells
       /\ as_floats total_cells = Ret total
       /\ get_column "Net Profit" raw_trades_formatted
          = Some (map CNum (zip_with fsub profit total)).
Proof.
  apply (paired_net_profit_is_profit_minus_commission (H := plain_externals)
           raw_trades raw_trades_formatted "trades.csv"); vm_compute; reflexivity.
Defined.

(** X10. A ledger that came out of the pairing path is not accepted
    again: it has a [Contracts] column where the final format asks for
    [lots], and no [Date/Time] column, so normalising it a second time
    stops at the schema check ("Column 'Date/Time' not found") and the
    ledger is left as it is. *)
Theorem paired_ledger_is_not_renormalised `{Externals}
    (trade_data formatted : DataFrame) (input_filename again : string) :
  forallb (fun col => has_column col trade_data) final_format_cols = false ->
  fst (format_trade_data_body trade_data input_filename) = Ret formatted ->
  format_trade_data_body formatted again
  = (Raise (column_not_found "Date/Time" again), formatted).
Proof.
  intros Hraw Hret.
  destruct (pairing_result trade_data formatted input_filename Hraw Hret)
    as (last & _ & _ & _ & _ & Hsel & _).
  apply select_columns_spec in Hsel as [Hcols _].
  unfold format_trade_data_body, schema_and_lots. simpl.
  rewrite !has_column_columns, Hcols. reflexivity.
Qed.

Lemma paired_ledger_is_not_renormalised_witness :
  format_trade_data_body (H := plain_externals) raw_trades_formatted "saved.csv"
  = (Raise (column_not_found "Date/Time" "saved.csv"), raw_trades_formatted).
Proof.
  apply (paired_ledger_is_not_renormalised (H := plain_externals)
           raw_trades raw_trades_formatted "trades.csv" "saved.csv");
    vm_compute; reflexivity.
Defined.

(** ** Ledgers already in final format, and files that are rejected *)

Section PassThrough.
Context `{Externals}.

Lemma to_datetime_coerce_idempotent (cells : list cell) :
  to_datetime_coerce (to_datetime_coerce cells) = to_datetime_coerce cells.
Proof.
  unfold to_datetime_coerce. rewrite map_map. apply map_ext. intros c.
  destruct (parse_datetime c).
  - now rewrite parse_datetime_time.
  - now rewrite parse_datetime_nat.
  - now rewrite parse_datetime_nat.
Qed.

Lemma has_column_setitem (name other : string) (cells : list cell) (df : DataFrame) :
  has_column name df = true -> has_column name (setitem other cells df) = true.
Proof.
  intros Hhas. destruct (String.eqb_spec name other) as [->|Hne].
  - apply has_column_setitem_eq.
  - now rewrite has_column_setitem_ne.
Qed.

Lemma setitem_same (name : string) (cells : list cell) (df : DataFrame) :
  get_column name df = Some cells -> setitem name cells df = df.
Proof.
  induction df as [|[n old] df IH]; simpl; [discriminate|].
  destruct (String.eqb_spec n name) as [->|Hne].
  - now intros [= ->].
  - intros Hget. now rewrite IH.
Qed.

Lemma select_columns_total (names : list string) (df : DataFrame) :
  forallb (fun col => has_column col df) names = true ->
  exists out, select_columns names df = Ret out.
Proof.
  induction names as [|n names IH]; simpl; [eauto|].
  intros Hall. apply andb_true_iff in Hall as [Hn Hall].
  destruct (IH Hall) as [rest Hrest]. unfold getitem, has_column in *.
  destruct (get_column n df) as [cells|]; [|discriminate]. simpl.
  rewrite Hrest. simpl. eauto.
Qed.

Lemma select_columns_skip (names : list string) (n : string) (cells : list cell)
    (df : DataFrame) :
  ~ In n names -> select_columns names ((n, cells) :: df) = select_columns names df.
Proof.
  induction names as [|m names IH]; intros Hnot; simpl; [reflexivity|].
  unfold getitem. cbn [get_column].
  destruct (String.eqb_spec n m) as [->|Hne]; [exfalso; apply Hnot; now left|].
  rewrite IH; [reflexivity|]. intros Hin. apply Hnot. now right.
Qed.

(** Selecting all the columns of a frame, in their order, is the frame. *)
Lemma select_columns_self (df : DataFrame) :
  List.NoDup (columns df) -> select_columns (columns df) df = Ret df.
Proof.
  induction df as [|[n cells] df IH]; simpl; [reflexivity|].
  intros Hnd. inversion Hnd as [|? ? Hnot Hnd']; subst.
  unfold getitem. simpl. rewrite String.eqb_refl. simpl.
  rewrite select_columns_skip by exact Hnot. now rewrite IH.
Qed.

Lemma final_format_cols_distinct : List.NoDup final_format_cols.
Proof.
  unfold final_format_cols.
  repeat (constructor; [simpl; intuition discriminate|]). constructor.
Qed.

(** The loop over the required columns stops at the first one missing. *)
Lemma check_required_first_missing (names : list string) (df : DataFrame)
    (input_filename col : string) :
  find (fun c => negb (has_column c df)) names = Some col ->
  check_required names df input_filename = Raise (column_not_found col input_filename).
Proof.
  induction names as [|n names IH]; simpl; [discriminate|].
  destruct (has_column n df); simpl; [exact IH|]. now intros [= ->].
Qed.

End PassThrough.

(** X11. A ledger that has the ten final columns is passed through: the
    result holds exactly those columns, and it is a fixed point, for
    normalising the result again returns it as it is and writes nothing
    new into it. *)
Theorem final_format_is_a_fixed_point `{Externals}
    (trade_data : DataFrame) (input_filename again : string) :
  forallb (fun col => has_column col trade_data) final_format_cols = true ->
  exists formatted : DataFrame,
    fst (format_trade_data_body trade_data input_filename) = Ret formatted
    /\ columns formatted = final_format_cols
    /\ format_trade_data_body formatted again = (Ret formatted, formatted).
Proof.
  intros Hfinal. unfold format_trade_data_body at 1. rewrite Hfinal. cbn [fst].
  set (entry_date := to_datetime_coerce (default [] (get_column "Entry Date" trade_data))).
  set (td1 := setitem "Entry Date" entry_date trade_data).
  set (exit_date := to_datetime_coerce (default [] (get_column "Exit Date" td1))).
  set (td2 := setitem "Exit Date" exit_date td1).
  assert (Hall : forallb (fun col => has_column col td2) final_format_cols = true).
  { rewrite forallb_forall in *. intros col Hin.
    unfold td2, td1. now apply has_column_setitem, has_column_setitem, Hfinal. }
  destruct (select_columns_total final_format_cols td2 Hall) as [formatted Hsel].
  exists formatted. split; [exact Hsel|].
  apply select_columns_spec in Hsel as [Hcols Hget]. split; [exact Hcols|].
  assert (Hentry : get_column "Entry Date" formatted = Some entry_date).
  { rewrite Hget by (simpl; tauto). unfold td2, td1.
    rewrite get_column_setitem_ne by discriminate. apply get_column_setitem_eq. }
  assert (Hexit : get_column "Exit Date" formatted = Some exit_date).
  { rewrite Hget by (simpl; tauto). apply get_column_setitem_eq. }
  unfold format_trade_data_body.
  assert (Hagain : forallb (fun col => has_column col formatted) final_format_cols = true).
  { apply forallb_forall. intros col Hin. rewrite has_column_columns, Hcols.
    apply existsb_exists. exists col. split; [exact Hin|apply String.eqb_refl]. }
  assert (Hentry' : to_datetime_coerce entry_date = entry_date)
    by apply to_datetime_coerce_idempotent.
  assert (Hexit' : to_datetime_coerce exit_date = exit_date)
    by apply to_datetime_coerce_idempotent.
  rewrite Hagain, Hentry. cbn [default]. unfold id.
  rewrite Hentry', (setitem_same _ _ _ Hentry), Hexit. cbn [default]. unfold id.
  rewrite Hexit', (setitem_same _ _ _ Hexit).
  rewrite <- Hcols at 1. rewrite select_columns_self; [reflexivity|].
  rewrite Hcols. apply final_format_cols_distinct.
Qed.

Lemma final_format_is_a_fixed_point_witness :
  exists formatted : DataFrame,
    fst (format_trade_data_body (H := plain_externals) final_ledger "final.csv") = Ret formatted
    /\ columns formatted = final_format_cols
    /\ format_trade_data_body (H := plain_externals) formatted "again.csv"
       = (Ret formatted, formatted).
Proof.
  apply (final_format_is_a_fixed_point (H := plain_externals) final_ledger
           "final.csv" "again.csv").
  reflexivity.
Defined.

(** X12. A file that is not in final format and lacks one of the columns
    Type, Trade #, Date/Time, Contracts is rejected with an error that
    names the first of them that is missing, in that order, and the file;
    the caller gets no ledger and the frame it passed is not written to. *)
Theorem missing_required_column_is_reported `{Externals}
    (st : store) (l : loc) (trade_data : DataFrame) (input_filename col : string) :
  st !! l = Some trade_data ->
  forallb (fun c => has_column c trade_data) final_format_cols = false ->
  find (fun c => negb (has_column c trade_data)) required_columns = Some col ->
  format_trade_data_body trade_data input_filename
  = (Raise (column_not_found col input_filename), trade_data)
  /\ format_trade_data st l input_filename = (None, st).
Proof.
  intros Hl Hraw Hmissing.
  assert (Hbody : format_trade_data_body trade_data input_filename
                  = (Raise (column_not_found col input_filename), trade_data)).
  { unfold format_trade_data_body, schema_and_lots. rewrite Hraw.
    now rewrite (check_required_first_missing _ _ _ _ Hmissing). }
  split; [exact Hbody|].
  unfold format_trade_data. rewrite Hl, Hbody. f_equal. now apply insert_id.
Qed.

Lemma missing_required_column_is_reported_witness :
  format_trade_data_body (H := plain_externals) one_loss_ledger "trades.csv"
  = (Raise (column_not_found "Type" "trades.csv"), one_loss_ledger)
  /\ format_trade_data (H := plain_externals) session 1%positive "trades.csv"
     = (None, session).
Proof.
  apply (missing_required_column_is_reported (H := plain_externals) session 1%positive
           one_loss_ledger "trades.csv" "Type"); reflexivity.
Defined.

(** ** Which trades are paired *)

Section Pairing.
Context `{Externals}.

Lemma elem_of_mask_positions {A} (f : A -> bool) (l : list A) (s i : nat) :
  i ∈ mask_positions (map f l) s
  <-> exists x, (s <= i)%nat /\ l !! (i - s)%nat = Some x /\ f x = true.
Proof.
  revert s. induction l as [|y l IH]; intros s; simpl.
  - split; [intros Hin; inversion Hin|intros (x & _ & Hx & _); discriminate].
  - assert (Hrest : i ∈ mask_positions (map f l) (S s)
                    <-> exists x, (S s <= i)%nat /\ (y :: l) !! (i - s)%nat = Some x
                                  /\ f x = true).
    { rewrite IH. split; intros (x & Hle & Hx & Hf); exists x; (split; [lia|]);
        (split; [|exact Hf]).
      - replace (i - s)%nat with (S (i - S s)) by lia. exact Hx.
      - replace (i - s)%nat with (S (i - S s)) in Hx by lia. exact Hx. }
    destruct (f y) eqn:Hy.
    + rewrite elem_of_cons, Hrest. split.
      * intros [->|(x & Hle & Hx & Hf)].
        -- exists y. rewrite Nat.sub_diag. auto.
        -- exists x. split; [lia|auto].
      * intros (x & Hle & Hx & Hf). destruct (decide (i = s)) as [->|Hne]; [now left|].
        right. exists x. split; [lia|auto].
    + rewrite Hrest. split.
      * intros (x & Hle & Hx & Hf). exists x. split; [lia|auto].
      * intros (x & Hle & Hx & Hf). destruct (decide (i = s)) as [->|Hne].
        -- rewrite Nat.sub_diag in Hx. simpl in Hx. congruence.
        -- exists x. split; [lia|auto].
Qed.

Lemma elem_of_zip_seq {A} (l : list A) (s i : nat) (k : A) :
  (i, k) ∈ zip (seq s (length l)) l <-> (s <= i)%nat /\ l !! (i - s)%nat = Some k.
Proof.
  revert s. induction l as [|y l IH]; intros s; simpl.
  - split; [intros Hin; inversion Hin|intros [_ Hx]; discriminate].
  - rewrite elem_of_cons, IH. split.
    + intros [[= -> ->]|[Hle Hx]].
      * rewrite Nat.sub_diag. auto.
      * split; [lia|]. replace (i - s)%nat with (S (i - S s)) by lia. exact Hx.
    + intros [Hle Hx]. destruct (decide (i = s)) as [->|Hne].
      * rewrite Nat.sub_diag in Hx. injection Hx as ->. now left.
      * right. split; [lia|]. replace (i - s)%nat with (S (i - S s)) in Hx by lia. exact Hx.
Qed.

(** The join pairs exactly the positions whose keys are the same. *)
Lemma elem_of_join_positions (lkeys rkeys : list cell) (i j : nat) :
  (i, j) ∈ join_positions lkeys rkeys
  <-> exists k k', lkeys !! i = Some k /\ rkeys !! j = Some k' /\ same_key k k' = true.
Proof.
  unfold join_positions. rewrite list_elem_of_In, in_flat_map. split.
  - intros ([a k] & Ha & Hin). apply list_elem_of_In, elem_of_zip_seq in Ha as [_ Ha].
    rewrite Nat.sub_0_r in Ha. apply in_flat_map in Hin as ([b k'] & Hb & Hin).
    apply list_elem_of_In, elem_of_zip_seq in Hb as [_ Hb]. rewrite Nat.sub_0_r in Hb.
    destruct (same_key k k') eqn:Hsame; [|destruct Hin].
    destruct Hin as [[= <- <-]|[]]. eauto.
  - intros (k & k' & Hi & Hj & Hsame). exists (i, k). split.
    + apply list_elem_of_In, elem_of_zip_seq. rewrite Nat.sub_0_r. split; [lia|exact Hi].
    + apply in_flat_map. exists (j, k'). split.
      * apply list_elem_of_In, elem_of_zip_seq. rewrite Nat.sub_0_r. split; [lia|exact Hj].
      * rewrite Hsame. now left.
Qed.

Lemma merge_key_cells (left right merged : DataFrame) (key sl sr : string) :
  merge left right key sl sr = Ret merged ->
  exists lkeys rkeys,
    get_column key left = Some lkeys /\ get_column key right = Some rkeys
    /\ get_column key merged
       = Some (omap (fun p => lkeys !! fst p) (join_positions lkeys rkeys)).
Proof.
  unfold merge. intros Hm.
  apply bind_ret in Hm as (lkeys & Hl & Hm). apply bind_ret in Hm as (rkeys & Hr & Hm).
  injection Hm as <-. apply getitem_ret in Hl, Hr. exists lkeys, rkeys.
  split; [exact Hl|]. split; [exact Hr|]. simpl. now rewrite String.eqb_refl.
Qed.

(** The trade numbers of the normalised ledger, read off the input. *)
Lemma pairing_trade_numbers (trade_data formatted : DataFrame) (input_filename : string) :
  forallb (fun col => has_column col trade_data) final_format_cols = false ->
  fst (format_trade_data_body trade_data input_filename) = Ret formatted ->
  exists types ids : list cell,
    get_column "Type" trade_data = Some types
    /\ get_column "Trade #" trade_data = Some ids
    /\ let entry_ids :=
         omap (fun i => ids !! i) (mask_positions (map (str_contains_nocase "Entry") types) 0) in
       let exit_ids :=
         omap (fun i => ids !! i) (mask_positions (map (str_contains_nocase "Exit") types) 0) in
       get_column "Trade #" formatted
       = Some (omap (fun p => entry_ids !! fst p) (join_positions entry_ids exit_ids)).
Proof.
  intros Hraw Hret. unfold format_trade_data_body in Hret. rewrite Hraw in Hret.
  destruct (schema_and_lots trade_data input_filename)
    as [[[price_column profit_column] lots]|e] eqn:Hschema; [|discriminate].
  assert (Hprofit : contains "Profit" profit_column = true).
  { unfold schema_and_lots in Hschema.
    apply bind_ret in Hschema as (_ & _ & Hschema).
    destruct (find (String.prefix "Price") (columns trade_data)); [|discriminate].
    destruct (find (contains "Profit") (columns trade_data)) as [p|] eqn:Hfind; [|discriminate].
    apply bind_ret in Hschema as (? & _ & Hschema).
    apply bind_ret in Hschema as (? & _ & Hschema).
    injection Hschema as _ -> _. apply find_some in Hfind. apply Hfind. }
  apply contains_profit_not_fixed in Hprofit as [_ HpK].
  cbn [fst] in Hret.
  remember (setitem "Commission" (map (fun x => CNum (fmul x (f64_of_Z 4))) lots)
              (setitem "Lots" (map CNum lots) trade_data)) as td eqn:Htd.
  assert (Htype_td : get_column "Type" td = get_column "Type" trade_data).
  { subst td. now rewrite !get_column_setitem_ne by discriminate. }
  assert (Hids_td : get_column "Trade #" td = get_column "Trade #" trade_data).
  { subst td. now rewrite !get_column_setitem_ne by discriminate. }
  clear Htd. unfold pair_trades in Hret.
  apply bind_ret in Hret as (types & Htypes & Hret). apply getitem_ret in Htypes.
  destruct (frame_empty _ || frame_empty _); [discriminate|].
  apply bind_ret in Hret as (left & Hleft & Hret).
  apply bind_ret in Hret as (right & Hright & Hret).
  apply bind_ret in Hret as (paired & Hmerge & Hret).
  apply bind_ret in Hret as (entry_types & _ & Hret).
  apply merge_key_cells in Hmerge as (lkeys & rkeys & Hl & Hr & Hkeys).
  apply select_columns_spec in Hleft as [_ Hleft], Hright as [_ Hright].
  rewrite Hleft in Hl by (simpl; tauto). rewrite Hright in Hr by (simpl; tauto).
  unfold filter_rows in Hl, Hr. rewrite get_column_take_rows, Hids_td in Hl, Hr.
  destruct (get_column "Trade #" trade_data) as [ids|]; [|discriminate].
  simpl in Hl, Hr. injection Hl as <-. injection Hr as <-.
  exists types, ids. rewrite <- Htype_td. split; [exact Htypes|]. split; [reflexivity|].
  set (renamed := rename_columns _ _) in Hret.
  assert (HrK : get_column "Trade #" renamed = get_column "Trade #" paired).
  { unfold renamed. rewrite get_column_rename.
    - now rewrite get_column_setitem_ne by discriminate.
    - repeat constructor; try discriminate; try exact HpK;
        auto using entry_suffixed_not_trade, exit_suffixed_not_trade. }
  apply bind_ret in Hret as (commission & _ & Hret).
  apply bind_ret in Hret as (profit & _ & Hret).
  apply bind_ret in Hret as (profits & _ & Hret).
  apply bind_ret in Hret as (total & _ & Hret).
  apply bind_ret in Hret as (totals & _ & Hret).
  apply select_columns_spec in Hret as [_ Hget]. cbn zeta.
  rewrite Hget by (simpl; tauto).
  rewrite !get_column_setitem_ne by discriminate. now rewrite HrK, Hkeys.
Qed.

End Pairing.

(** X13. The pairing is an inner join on the trade number: a trade number
    is in the normalised ledger exactly when the input has an entry row
    with that number and an exit row with the same number. An entry that
    was never closed, or an exit without its entry, is dropped, and no
    trade number is made up. *)
Theorem paired_trades_are_the_matched_ones `{Externals}
    (trade_data formatted : DataFrame) (input_filename : string) :
  forallb (fun col => has_column col trade_data) final_format_cols = false ->
  fst (format_trade_data_body trade_data input_filename) = Ret formatted ->
  exists types ids paired_ids : list cell,
    get_column "Type" trade_data = Some types
    /\ get_column "Trade #" trade_data = Some ids
    /\ get_column "Trade #" formatted = Some paired_ids
    /\ forall k : cell,
         k ∈ paired_ids
         <-> exists (i j : nat) (k' : cell),
               entry_row types ids i k /\ exit_row types ids j k' /\ same_key k k' = true.
Proof.
  intros Hraw Hret.
  destruct (pairing_trade_numbers trade_data formatted input_filename Hraw Hret)
    as (types & ids & Htypes & Hids & Hout).
  cbn zeta in Hout. eexists types, ids, _.
  split; [exact Htypes|]. split; [exact Hids|]. split; [exact Hout|].
  intros k. rewrite list_elem_of_omap. split.
  - intros ([a b] & Hpair & Hk). simpl in Hk.
    apply elem_of_join_positions in Hpair as (ka & kb & Ha & Hb & Hsame).
    rewrite Ha in Hk. injection Hk as ->.
    apply list_elem_of_lookup_2 in Ha, Hb.
    apply list_elem_of_omap in Ha as (i & Hi & Hik), Hb as (j & Hj & Hjk).
    apply elem_of_mask_positions in Hi as (t & _ & Ht & Hentry).
    apply elem_of_mask_positions in Hj as (t' & _ & Ht' & Hexit).
    rewrite Nat.sub_0_r in Ht, Ht'.
    exists i, j, kb. split; [exists t; auto|]. split; [exists t'; auto|exact Hsame].
  - intros (i & j & k' & (t & Ht & Hik & Hentry) & (t' & Ht' & Hjk & Hexit) & Hsame).
    assert (Hin_e : k ∈ omap (fun i => ids !! i)
                          (mask_positions (map (str_contains_nocase "Entry") types) 0)).
    { apply list_elem_of_omap. exists i. split; [|exact Hik].
      apply elem_of_mask_positions. exists t. rewrite Nat.sub_0_r. split; [lia|auto]. }
    assert (Hin_x : k' ∈ omap (fun i => ids !! i)
                           (mask_positions (map (str_contains_nocase "Exit") types) 0)).
    { apply list_elem_of_omap. exists j. split; [|exact Hjk].
      apply elem_of_mask_positions. exists t'. rewrite Nat.sub_0_r. split; [lia|auto]. }
    apply list_elem_of_lookup_1 in Hin_e as [a Ha], Hin_x as [b Hb].
    exists (a, b). split; [|exact Ha].
    apply elem_of_join_positions. eauto.
Qed.

Lemma paired_trades_are_the_matched_ones_witness :
  exists types ids paired_ids : list cell,
    get_column "Type" raw_trades = Some types
    /\ get_column "Trade #" raw_trades = Some ids
    /\ get_column "Trade #" raw_trades_formatted = Some paired_ids
    /\ forall k : cell,
         k ∈ paired_ids
         <-> exists (i j : nat) (k' : cell),
               entry_row types ids i k /\ exit_row types ids j k' /\ same_key k k' = true.
Proof.
  apply (paired_trades_are_the_matched_ones (H := plain_externals)
           raw_trades raw_trades_formatted "trades.csv"); vm_compute; reflexivity.
Defined.

(** ** The tables, when they fail and when they do not *)

Section TableEdges.
Context `{Externals}.

(** Parsed dates are what the [.dt] accessor takes. *)
Lemma dt_of_to_datetime (dates cells : list cell) :
  to_datetime dates = Ret cells -> exists ts, dt cells = Ret ts.
Proof.
  revert cells. induction dates as [|c dates IH]; intros cells; simpl.
  - intros [= <-]. simpl. eauto.
  - destruct (parse_datetime c); try discriminate;
      (destruct (to_datetime dates) as [cs|e]; simpl; [|discriminate]);
      intros [= <-]; destruct (IH cs eq_refl) as [ts Hts]; simpl; rewrite Hts; simpl; eauto.
Qed.

Lemma max_drawdown_of_matrix (a : ndarray) (r c : nat) (as_percentage : bool) :
  shape a = [r; c] -> ndarray_wf a -> (0 < c)%nat ->
  exists v, calculate_max_drawdown (VNdarray a) as_percentage = Ret v /\ length v = r.
Proof.
  intros Hshape Hwf Hc. unfold calculate_max_drawdown, ndim. rewrite Hshape. simpl.
  rewrite Hshape. destruct (decide (c = 0%nat)); [lia|].
  assert (Hrect : Forall (fun row => length row = c) (chunk c r (data a))).
  { apply chunk_rectangular. unfold ndarray_wf in Hwf. rewrite Hshape in Hwf.
    simpl in Hwf. lia. }
  destruct (max_axis1_rows (map (drawdown_row as_percentage) (chunk c r (data a))))
    as (v & Hv & Hlen).
  - apply Forall_map. eapply Forall_impl; [exact Hrect|].
    intros row Hrow Hnil. simpl in *. apply (f_equal (@length float64)) in Hnil.
    rewrite drawdown_row_length in Hnil. simpl in Hnil. lia.
  - exists v. split; [exact Hv|]. now rewrite Hlen, length_map, chunk_length.
Qed.

Lemma monte_carlo_rows_levels (a : ndarray) (initial_balance : float64) (levels : list Z)
    (rows : list MonteCarloRow) :
  monte_carlo_rows a initial_balance levels = Ret rows -> map mc_level rows = levels.
Proof.
  revert rows. induction levels as [|level levels IH]; intros rows; simpl.
  - now intros [= <-].
  - intros Hrows. apply bind_ret in Hrows as (row & Hrow & Hrows).
    apply bind_ret in Hrows as (rest & Hrest & Hrows). injection Hrows as <-.
    simpl. rewrite (IH rest Hrest). f_equal.
    unfold monte_carlo_row in Hrow.
    apply bind_ret in Hrow as (? & _ & Hrow). apply bind_ret in Hrow as (? & _ & Hrow).
    apply bind_ret in Hrow as (? & _ & Hrow). apply bind_ret in Hrow as (? & _ & Hrow).
    now injection Hrow as <-.
Qed.

Lemma monte_carlo_rows_total (a : ndarray) (initial_balance : float64) (levels : list Z) :
  (forall level, exists row, monte_carlo_row a initial_balance level = Ret row) ->
  exists rows, monte_carlo_rows a initial_balance levels = Ret rows.
Proof.
  intros Hrow. induction levels as [|level levels [rest Hrest]]; simpl; [eauto|].
  destruct (Hrow level) as [row ->]. simpl. rewrite Hrest. simpl. eauto.
Qed.

End TableEdges.

(** X14. The confidence-level table is produced for a well-formed array
    exactly when it is a matrix with at least one path and at least one
    step; every other input (a 1-D path, which [calculate_max_drawdown]
    alone would take, a matrix without rows or without columns, more
    dimensions) raises. When produced, it has one line per confidence
    level 50, 70, 80, 90, 95, 98, 100, in that order. *)
Theorem monte_carlo_table_needs_a_matrix `{Externals}
    (cumulative_profits : ndarray) (initial_balance : float64) :
  ndarray_wf cumulative_profits ->
  ((exists rows, display_monte_carlo_metrics cumulative_profits initial_balance = Ret rows)
   <-> exists r c : nat, shape cumulative_profits = [r; c] /\ (0 < r)%nat /\ (0 < c)%nat)
  /\ (forall rows,
        display_monte_carlo_metrics cumulative_profits initial_balance = Ret rows ->
        map mc_level rows = [50; 70; 80; 90; 95; 98; 100]).
Proof.
  intros Hwf. split; [split|].
  - intros [rows Hrows]. unfold display_monte_carlo_metrics, confidence_levels in Hrows.
    simpl in Hrows. apply bind_ret in Hrows as (row & Hrow & _).
    unfold monte_carlo_row in Hrow.
    apply bind_ret in Hrow as (max_dd & _ & Hrow).
    apply bind_ret in Hrow as (finals & Hlast & Hrow).
    apply bind_ret in Hrow as (n & Hn & Hrow).
    apply bind_ret in Hrow as (exponent & Hexp & _).
    unfold last_column in Hlast. unfold ndarray_len in Hn.
    destruct (shape cumulative_profits) as [|r [|c [|d ds]]]; try discriminate.
    exists r, c. split; [reflexivity|].
    injection Hn as <-. unfold int_reciprocal in Hexp.
    destruct (Z.eqb_spec (Z.of_nat r) 0); [discriminate|].
    destruct (Nat.eqb_spec c 0); [discriminate|]. lia.
  - intros (r & c & Hshape & Hr & Hc).
    apply monte_carlo_rows_total. intros level. unfold monte_carlo_row.
    destruct (max_drawdown_of_matrix cumulative_profits r c false Hshape Hwf Hc)
      as (v & -> & _). simpl.
    unfold last_column, ndarray_len, int_reciprocal. rewrite Hshape.
    destruct (Nat.eqb_spec c 0); [lia|]. simpl.
    destruct (Z.eqb_spec (Z.of_nat r) 0); [lia|]. simpl. eauto.
  - intros rows Hrows. exact (monte_carlo_rows_levels _ _ _ _ Hrows).
Qed.

Lemma monte_carlo_table_needs_a_matrix_witness :
  ((exists rows, display_monte_carlo_metrics (H := plain_externals) two_paths_three_days
                   (f64_of_Z 100) = Ret rows)
   <-> exists r c : nat, shape two_paths_three_days = [r; c] /\ (0 < r)%nat /\ (0 < c)%nat)
  /\ (forall rows,
        display_monte_carlo_metrics (H := plain_externals) two_paths_three_days
          (f64_of_Z 100) = Ret rows ->
        map mc_level rows = [50; 70; 80; 90; 95; 98; 100]).
Proof.
  apply (monte_carlo_table_needs_a_matrix (H := plain_externals) two_paths_three_days
           (f64_of_Z 100)).
  reflexivity.
Defined.

Example monte_carlo_table_of_one_path :
  display_monte_carlo_metrics (H := plain_externals) one_path (f64_of_Z 100)
  = Raise (IndexError "too many indices for array")
  /\ calculate_max_drawdown (VNdarray one_path) false = Ret [f64_of_Z 40].
Proof. split; vm_compute; reflexivity. Qed.

(** X15. When [monthly_performance_table] fails at its grouping because
    the ledger has no [Profit] column, its writes are not undone: the call
    raises the KeyError of the grouped selection ('Column not found:
    Profit') and the caller's ledger keeps the parsed date column and the
    new columns [Year], [Month] and [Month_Num]. *)
Theorem monthly_table_failure_keeps_its_writes `{Externals}
    (st : store) (l : loc) (ledger : DataFrame) (date_column : string)
    (dates cells : list cell) (initial_balance : float64) (mode : string) :
  st !! l = Some ledger ->
  get_column date_column ledger = Some dates ->
  to_datetime dates = Ret cells ->
  ~ In date_column ["Year"; "Month"; "Month_Num"] ->
  has_column "Profit" ledger = false ->
  fst (monthly_performance_table st l date_column initial_balance mode)
  = Raise (KeyError "Column not found: Profit")
  /\ exists after : DataFrame,
       snd (monthly_performance_table st l date_column initial_balance mode) !! l = Some after
       /\ get_column date_column after = Some cells
       /\ has_column "Year" after = true /\ has_column "Month" after = true
       /\ has_column "Month_Num" after = true.
Proof.
  intros Hl Hcol Hdates Hnot Hprofit.
  assert (Hy : date_column <> "Year") by (intros ->; apply Hnot; simpl; tauto).
  assert (Hm : date_column <> "Month") by (intros ->; apply Hnot; simpl; tauto).
  assert (Hn : date_column <> "Month_Num") by (intros ->; apply Hnot; simpl; tauto).
  assert (Hp : "Profit" <> date_column).
  { intros <-. unfold has_column in Hprofit. rewrite Hcol in Hprofit. discriminate. }
  destruct (dt_of_to_datetime dates cells Hdates) as [ts Hts].
  unfold monthly_performance_table. rewrite Hl.
  unfold monthly_performance_frame, groupby_getitem, getitem.
  rewrite Hcol. simpl. rewrite Hdates.
  rewrite get_column_setitem_eq. simpl. rewrite Hts.
  rewrite (get_column_setitem_ne date_column "Year") by exact Hy.
  rewrite get_column_setitem_eq. simpl. rewrite Hts.
  rewrite (get_column_setitem_ne date_column "Month") by exact Hm.
  rewrite (get_column_setitem_ne date_column "Year") by exact Hy.
  rewrite get_column_setitem_eq. simpl. rewrite Hts.
  rewrite !(get_column_setitem_ne "Profit") by (discriminate || exact Hp).
  unfold has_column in Hprofit.
  destruct (get_column "Profit" ledger); [discriminate|]. simpl.
  split; [reflexivity|]. eexists. rewrite lookup_insert_eq. split; [reflexivity|].
  rewrite !(get_column_setitem_ne date_column) by assumption.
  rewrite get_column_setitem_eq. split; [reflexivity|].
  rewrite !has_column_setitem_ne by discriminate.
  rewrite (has_column_setitem_ne "Month" "Month_Num") by discriminate.
  now rewrite !has_column_setitem_eq.
Qed.

Lemma monthly_table_failure_keeps_its_writes_witness :
  fst (monthly_performance_table (H := plain_externals)
         {[ 1%positive := ledger_without_profit ]} 1%positive "Entry Date"
         default_balance "Dollar ($)")
  = Raise (KeyError "Column not found: Profit")
  /\ exists after : DataFrame,
       snd (monthly_performance_table (H := plain_externals)
              {[ 1%positive := ledger_without_profit ]} 1%positive "Entry Date"
              default_balance "Dollar ($)") !! 1%positive = Some after
       /\ get_column "Entry Date" after = Some [CTime 0]
       /\ has_column "Year" after = true /\ has_column "Month" after = true
       /\ has_column "Month_Num" after = true.
Proof.
  apply (monthly_table_failure_keeps_its_writes (H := plain_externals)
           {[ 1%positive := ledger_without_profit ]} 1%positive ledger_without_profit
           "Entry Date" [CTime 0] [CTime 0] default_balance "Dollar ($)").
  - reflexivity.
  - reflexivity.
  - reflexivity.
  - simpl. intuition discriminate.
  - reflexivity.
Defined.

(** ** Streaks per simulated path *)

Section PathStreaks.

Lemma flag_streaks_bound (row : list float64) :
  0 <= fst (flag_state (map (fun x => flt x fzero) row))
  /\ 0 <= fst (flag_state (map (fun x => fgt x fzero) row))
  /\ fst (flag_state (map (fun x => flt x fzero) row))
     + fst (flag_state (map (fun x => fgt x fzero) row)) <= Z.of_nat (length row).
Proof.
  pose proof (flag_state_bounds (map (fun x => flt x fzero) row)) as [Hl _].
  pose proof (flag_state_bounds (map (fun x => fgt x fzero) row)) as [Hw _].
  destruct (flag_state_longest_run (fun x => flt x fzero) row) as [[i Hloss] _].
  destruct (flag_state_longest_run (fun x => fgt x fzero) row) as [[j Hwin] _].
  pose proof (disjoint_runs (fun x => flt x fzero) (fun x => fgt x fzero) row _ _ _ _
                (fun x Hx => flt_asym x fzero Hx) Hloss Hwin).
  lia.
Qed.

Lemma streaks_of_matrix (a : ndarray) (r c : nat) (f : float64 -> bool) :
  shape a = [r; c] -> ndarray_wf a -> Z.of_nat c < 2 ^ 63 ->
  Forall (fun row => length row = c) (chunk c r (data a))
  /\ streaks_of_mask r c (map (map f) (chunk c r (data a)))
     = map (fun row => fst (flag_state (map f row))) (chunk c r (data a)).
Proof.
  intros Hshape Hwf Hc.
  assert (Hrect : Forall (fun row => length row = c) (chunk c r (data a))).
  { apply chunk_rectangular. unfold ndarray_wf in Hwf. rewrite Hshape in Hwf.
    simpl in Hwf. lia. }
  split; [exact Hrect|].
  replace r with (length (map (map f) (chunk c r (data a)))) at 1
    by (rewrite length_map; apply chunk_length).
  rewrite streaks_of_mask_rows with (c := c); [now rewrite map_map| |exact Hc].
  apply Forall_map. eapply Forall_impl; [exact Hrect|].
  intros row Hrow. simpl in *. now rewrite length_map.
Qed.

End PathStreaks.

(** X16. On a well-formed matrix of [r] paths over [c] trades, the two
    vectorised streak functions return [r] counts each, and on every path
    the losing and the winning streak are non-negative and together at
    most [c]. An array that is not two-dimensional, a single 1-D path
    included, is refused by both with a ValueError. *)
Theorem path_streaks_within_trades (a : ndarray) (r c : nat) :
  (shape a = [r; c] -> ndarray_wf a -> Z.of_nat c < 2 ^ 63 ->
   exists losses wins : list Z,
     calculate_max_consecutive_losing_trades a = Ret losses
     /\ calculate_max_consecutive_winning_trades a = Ret wins
     /\ length losses = r /\ length wins = r
     /\ forall i l w, losses !! i = Some l -> wins !! i = Some w ->
                      0 <= l /\ 0 <= w /\ l + w <= Z.of_nat c)
  /\ (ndim a <> 2%nat ->
      calculate_max_consecutive_losing_trades a
      = Raise (ValueError "simulated_trades must be a 2D array.")
      /\ calculate_max_consecutive_winning_trades a
         = Raise (ValueError "simulated_trades must be a 2D array.")).
Proof.
  split.
  - intros Hshape Hwf Hc.
    destruct (streaks_of_matrix a r c (fun x => flt x fzero) Hshape Hwf Hc) as [Hrect Hloss].
    destruct (streaks_of_matrix a r c (fun x => fgt x fzero) Hshape Hwf Hc) as [_ Hwin].
    unfold calculate_max_consecutive_losing_trades, calculate_max_consecutive_winning_trades.
    rewrite Hshape, Hloss, Hwin. eexists _, _.
    split; [reflexivity|]. split; [reflexivity|].
    rewrite !length_map, chunk_length. split; [reflexivity|]. split; [reflexivity|].
    intros i l w Hl Hw. rewrite list_lookup_fmap in Hl, Hw.
    destruct (chunk c r (data a) !! i) as [row|] eqn:Hrow; [|discriminate].
    simpl in Hl, Hw. injection Hl as <-. injection Hw as <-.
    rewrite Forall_forall in Hrect.
    pose proof (Hrect row (list_elem_of_lookup_2 _ _ _ Hrow)) as Hlen. simpl in Hlen.
    rewrite <- Hlen. apply flag_streaks_bound.
  - intros Hdim. unfold ndim in Hdim.
    unfold calculate_max_consecutive_losing_trades, calculate_max_consecutive_winning_trades.
    destruct (shape a) as [|d1 [|d2 [|d3 ds]]]; simpl in Hdim; try lia; split; reflexivity.
Qed.

Lemma path_streaks_within_trades_witness :
  exists losses wins : list Z,
    calculate_max_consecutive_losing_trades two_paths = Ret losses
    /\ calculate_max_consecutive_winning_trades two_paths = Ret wins
    /\ length losses = 2%nat /\ length wins = 2%nat
    /\ forall i l w, losses !! i = Some l -> wins !! i = Some w ->
                     0 <= l /\ 0 <= w /\ l + w <= Z.of_nat 3.
Proof.
  apply (path_streaks_within_trades two_paths 2 3); [reflexivity|reflexivity|lia].
Defined.

(** ** What the metrics count *)

Section MetricsCounts.
Context `{Externals}.

Lemma insert_by_key_perm (k : cell * nat) (sorted : list (cell * nat)) :
  insert_by_key k sorted ≡ₚ k :: sorted.
Proof.
  induction sorted as [|k' sorted IH]; simpl; [reflexivity|].
  destruct (key_le (fst k) (fst k')); [reflexivity|].
  rewrite IH. apply Permutation_swap.
Qed.

(** Sorting reorders the rows and loses none. *)
Lemma argsort_perm (keys : list cell) : argsort keys ≡ₚ seq 0 (length keys).
Proof.
  unfold argsort.
  assert (Hsort : forall l : list (cell * nat), foldr insert_by_key [] l ≡ₚ l).
  { induction l as [|k l IH]; simpl; [reflexivity|].
    now rewrite insert_by_key_perm, IH. }
  rewrite Hsort. rewrite <- (snd_zip keys (seq 0 (length keys))) at 2
    by (rewrite length_seq; lia).
  reflexivity.
Qed.

Lemma omap_lookup_seq (cells : list cell) (pre : list cell) :
  omap (fun i => (pre ++ cells) !! i) (seq (length pre) (length cells)) = cells.
Proof.
  revert pre. induction cells as [|c cells IH]; intros pre; [reflexivity|].
  cbn [length seq omap list_omap]. rewrite list_lookup_middle by reflexivity.
  f_equal. specialize (IH (pre ++ [c])). rewrite <- app_assoc in IH. simpl in IH.
  rewrite length_app in IH. simpl in IH. now rewrite Nat.add_1_r in IH.
Qed.

Lemma sorted_column_perm (cells keys : list cell) :
  length cells = length keys ->
  omap (fun i => cells !! i) (argsort keys) ≡ₚ cells.
Proof.
  intros Hlen. rewrite argsort_perm, <- Hlen.
  now rewrite <- (omap_lookup_seq cells []) at 2.
Qed.

Lemma to_datetime_length (dates cells : list cell) :
  to_datetime dates = Ret cells -> length cells = length dates.
Proof.
  revert cells. induction dates as [|c dates IH]; intros cells; simpl.
  - now intros [= <-].
  - destruct (parse_datetime c); try discriminate;
      (destruct (to_datetime dates) as [cs|e]; simpl; [|discriminate]);
      intros [= <-]; simpl; now rewrite (IH cs eq_refl).
Qed.

Lemma as_floats_cells (cells : list cell) (xs : list float64) :
  as_floats cells = Ret xs -> cells = map CNum xs.
Proof.
  revert xs. induction cells as [|c cells IH]; intros xs; simpl.
  - now intros [= <-].
  - destruct c; try discriminate.
    destruct (as_floats cells) as [ys|e]; simpl; [|discriminate].
    intros [= <-]. simpl. now rewrite (IH ys eq_refl).
Qed.

Lemma get_column_length (name : string) (df : DataFrame) (cells : list cell) (n : nat) :
  Forall (fun col => length (snd col) = n) df ->
  get_column name df = Some cells -> length cells = n.
Proof.
  induction 1 as [|[m c] df Hc _ IH]; simpl; [discriminate|].
  destruct (String.eqb m name); [now intros [= <-]|exact IH].
Qed.

Lemma setitem_rectangular (name : string) (cells : list cell) (df : DataFrame) (n : nat) :
  Forall (fun col => length (snd col) = n) df -> length cells = n ->
  Forall (fun col => length (snd col) = n) (setitem name cells df).
Proof.
  intros Hdf Hcells. induction Hdf as [|[m c] df Hc Hdf IH]; simpl.
  - now repeat constructor.
  - destruct (String.eqb m name); constructor; auto.
Qed.

Lemma frame_len_sorted (df : DataFrame) (keys : list cell) (n : nat) :
  Forall (fun col => length (snd col) = n) df -> df <> [] -> length keys = n ->
  frame_len (take_rows (argsort keys) df) = n.
Proof.
  intros Hdf Hne Hkeys. destruct df as [|[m c] df]; [congruence|]. simpl.
  inversion Hdf as [|? ? Hc _]; subst. simpl in Hc.
  assert (Hlen : length c = length keys) by lia.
  rewrite (Permutation_length (sorted_column_perm c keys Hlen)). exact Hlen.
Qed.

End MetricsCounts.

(** X17. On a rectangular ledger of [n] rows, whenever
    [calculate_metrics] returns, its trade count is [n], its two streaks
    are non-negative and together at most [n], and (the date column not
    being the net profit) its longest losing streak is 0 exactly when the
    ledger has no strictly negative net profit, its longest winning streak
    0 exactly when it has no strictly positive one: sorting by date
    reorders the trades and loses none. *)
Theorem metrics_count_the_ledger `{Externals}
    (trades : DataFrame) (date_column : string) (initial_balance risk_free_rate : float64)
    (include_buy_and_hold : bool) (n : nat) (net_cells : list cell)
    (m : Metrics) (curve : DataFrame) :
  Forall (fun col => length (snd col) = n) trades ->
  get_column "Net Profit" trades = Some net_cells ->
  date_column <> "Net Profit" ->
  calculate_metrics trades date_column initial_balance risk_free_rate include_buy_and_hold
    = Ret (m, curve) ->
  number_of_trades m = Z.of_nat n
  /\ 0 <= max_consec_losses m /\ 0 <= max_consec_wins m
  /\ max_consec_losses m + max_consec_wins m <= number_of_trades m
  /\ (max_consec_losses m = 0 <-> forall x, CNum x ∈ net_cells -> flt x fzero = false)
  /\ (max_consec_wins m = 0 <-> forall x, CNum x ∈ net_cells -> fgt x fzero = false).
Proof.
  intros Hrect Hnet Hdate Hret. unfold calculate_metrics in Hret.
  apply bind_ret in Hret as (dates & Hdates & Hret). apply getitem_ret in Hdates.
  apply bind_ret in Hret as (cells & Hcells & Hret).
  pose proof (to_datetime_length _ _ Hcells) as Hlen_cells.
  rewrite (get_column_length _ _ _ _ Hrect Hdates) in Hlen_cells.
  apply bind_ret in Hret as (sorted & Hsort & Hret).
  unfold sort_values, getitem in Hsort. rewrite get_column_setitem_eq in Hsort.
  simpl in Hsort. injection Hsort as <-.
  apply bind_ret in Hret as (column & Hcolumn & Hret). apply getitem_ret in Hcolumn.
  rewrite get_column_take_rows, get_column_setitem_ne, Hnet in Hcolumn by congruence.
  simpl in Hcolumn. injection Hcolumn as <-.
  apply bind_ret in Hret as (net_profit & Hfloats & Hret).
  pose proof (sorted_column_perm net_cells cells
                ltac:(rewrite (get_column_length _ _ _ _ Hrect Hnet); lia)) as Hperm.
  apply as_floats_cells in Hfloats. rewrite Hfloats in Hperm.
  assert (Hcount : length net_profit = n).
  { apply Permutation_length in Hperm. rewrite length_map in Hperm.
    now rewrite Hperm, (get_column_length _ _ _ _ Hrect Hnet). }
  assert (Hrows : frame_len (take_rows (argsort cells) (setitem date_column cells trades)) = n).
  { apply frame_len_sorted; [now apply setitem_rectangular| |exact Hlen_cells].
    destruct trades as [|[c0 x0] trades']; [discriminate|]. simpl.
    destruct (String.eqb c0 date_column); discriminate. }
  assert (Helem : forall x, x ∈ net_profit <-> CNum x ∈ net_cells).
  { intros x. rewrite <- Hperm. rewrite list_elem_of_fmap. split.
    - intros Hx. eauto.
    - intros (y & [= ->] & Hy). exact Hy. }
  assert (Hfields : number_of_trades m = Z.of_nat n
                    /\ max_consec_losses m = max_consecutive_losses net_profit
                    /\ max_consec_wins m = max_consecutive_wins net_profit).
  { rewrite Hrows in Hret.
    destruct (time_series_block _ _ _ _) as [stats|e]; simpl in Hret; [|discriminate].
    destruct include_buy_and_hold; simpl in Hret.
    - destruct (calculate_buy_and_hold _ _ _) as [[[c d] p]|e]; simpl in Hret; [|discriminate].
      injection Hret as <- _. auto.
    - injection Hret as <- _. auto. }
  destruct Hfields as (-> & -> & ->).
  rewrite losses_as_flags, wins_as_flags.
  pose proof (flag_streaks_bound net_profit) as (Hl & Hw & Hsum). rewrite Hcount in Hsum.
  split; [reflexivity|]. split; [exact Hl|]. split; [exact Hw|]. split; [exact Hsum|].
  pose proof (longest_run_zero _ _ _ (flag_state_longest_run (fun x => flt x fzero) net_profit))
    as Hloss.
  pose proof (longest_run_zero _ _ _ (flag_state_longest_run (fun x => fgt x fzero) net_profit))
    as Hwin.
  split.
  - transitivity (forall x, x ∈ net_profit -> flt x fzero = false).
    + rewrite <- Hloss. lia.
    + split; intros Hall x Hx; apply Hall; now apply Helem.
  - transitivity (forall x, x ∈ net_profit -> fgt x fzero = false).
    + rewrite <- Hwin. lia.
    + split; intros Hall x Hx; apply Hall; now apply Helem.
Qed.

Lemma metrics_count_the_ledger_witness :
  exists (m : Metrics) (curve : DataFrame),
    calculate_metrics (H := plain_externals) three_trades "Entry Date"
      default_balance DEFAULT_RISK_FREE_RATE true = Ret (m, curve)
    /\ number_of_trades m = Z.of_nat 3
    /\ 0 <= max_consec_losses m /\ 0 <= max_consec_wins m
    /\ max_consec_losses m + max_consec_wins m <= number_of_trades m
    /\ (max_consec_losses m = 0
        <-> forall x, CNum x ∈ map (fun z => CNum (f64_of_Z z)) [-5; 10; -7]
                      -> flt x fzero = false)
    /\ (max_consec_wins m = 0
        <-> forall x, CNum x ∈ map (fun z => CNum (f64_of_Z z)) [-5; 10; -7]
                      -> fgt x fzero = false).
Proof.
  eexists _, _. split; [vm_compute; reflexivity|].
  eapply (metrics_count_the_ledger (H := plain_externals) three_trades "Entry Date"
            default_balance DEFAULT_RISK_FREE_RATE true 3).
  - repeat constructor.
  - reflexivity.
  - discriminate.
  - vm_compute. reflexivity.
Defined.

(** The streaks follow the dates, not the order of the upload: the two
    losses of [three_trades] are uploaded apart and dated next to each
    other. *)
Example streaks_follow_the_dates :
  max_consecutive_losses (map f64_of_Z [-5; 10; -7]) = 1
  /\ match calculate_metrics (H := plain_externals) three_trades "Entry Date"
             default_balance DEFAULT_RISK_FREE_RATE false with
     | Ret (m, _) => max_consec_losses m = 2
     | Raise _ => False
     end.
Proof. split; vm_compute; reflexivity. Qed.

(** ** The monthly table, called again *)

Section TableAgain.
Context `{Externals}.

(** Parsing parsed dates changes nothing. *)
Lemma to_datetime_idempotent (dates cells : list cell) :
  to_datetime dates = Ret cells -> to_datetime cells = Ret cells.
Proof.
  revert cells. induction dates as [|c dates IH]; intros cells; simpl.
  - now intros [= <-].
  - destruct (parse_datetime c); try discriminate;
      (destruct (to_datetime dates) as [cs|e]; simpl; [|discriminate]);
      intros [= <-]; simpl;
      rewrite ?parse_datetime_time, ?parse_datetime_nat, (IH cs eq_refl); reflexivity.
Qed.

Lemma monthly_performance_frame_again (ledger after : DataFrame) (date_column : string) :
  ~ In date_column ["Year"; "Month"; "Month_Num"] ->
  monthly_performance_frame ledger date_column = (Ret tt, after) ->
  monthly_performance_frame after date_column = (Ret tt, after).
Proof.
  intros Hdate Hfirst.
  assert (Hy : date_column <> "Year") by (intros ->; apply Hdate; simpl; auto).
  assert (Hm : date_column <> "Month") by (intros ->; apply Hdate; simpl; auto).
  assert (Hn : date_column <> "Month_Num") by (intros ->; apply Hdate; simpl; auto).
  unfold monthly_performance_frame in Hfirst.
  destruct (getitem date_column ledger ≫= to_datetime) as [cells|e] eqn:Hcells;
    [|discriminate].
  apply bind_ret in Hcells as (dates & _ & Hcells).
  destruct (dt_of_to_datetime _ _ Hcells) as [ts Hts].
  unfold getitem in Hfirst.
  rewrite get_column_setitem_eq in Hfirst. simpl in Hfirst. rewrite Hts in Hfirst.
  rewrite get_column_setitem_ne, get_column_setitem_eq in Hfirst by congruence.
  simpl in Hfirst. rewrite Hts in Hfirst.
  rewrite !get_column_setitem_ne, get_column_setitem_eq in Hfirst by congruence.
  simpl in Hfirst. rewrite Hts in Hfirst.
  injection Hfirst as Hprofit Hafter.
  assert (Hdate_after : get_column date_column after = Some cells).
  { rewrite <- Hafter. rewrite !get_column_setitem_ne by congruence.
    apply get_column_setitem_eq. }
  assert (Hyear : get_column "Year" after = Some (map year_cell ts)).
  { rewrite <- Hafter. rewrite !get_column_setitem_ne by discriminate.
    apply get_column_setitem_eq. }
  assert (Hmonth : get_column "Month" after = Some (map month_name_cell ts)).
  { rewrite <- Hafter. rewrite get_column_setitem_ne by discriminate.
    apply get_column_setitem_eq. }
  assert (Hnum : get_column "Month_Num" after = Some (map month_cell ts)).
  { rewrite <- Hafter. apply get_column_setitem_eq. }
  unfold monthly_performance_frame, getitem. rewrite Hdate_after. simpl.
  rewrite (to_datetime_idempotent _ _ Hcells). simpl.
  rewrite (setitem_same _ _ _ Hdate_after), Hdate_after. simpl. rewrite Hts.
  rewrite (setitem_same _ _ _ Hyear), Hdate_after. simpl. rewrite Hts.
  rewrite (setitem_same _ _ _ Hmonth), Hdate_after. simpl. rewrite Hts.
  rewrite (setitem_same _ _ _ Hnum).
  f_equal. subst after. exact Hprofit.
Qed.

End TableAgain.

(** X18. [monthly_performance_table] writes into the caller's ledger only
    once: after a call that got through, a second call on the same ledger,
    with any balance and mode, gets through as well and leaves the ledger,
    with its parsed dates and its [Year], [Month] and [Month_Num] columns,
    exactly as the first call left it. *)
Theorem monthly_table_second_call_writes_nothing `{Externals}
    (st : store) (l : loc) (ledger : DataFrame) (date_column : string)
    (initial_balance initial_balance' : float64) (mode mode' : string) :
  st !! l = Some ledger ->
  ~ In date_column ["Year"; "Month"; "Month_Num"] ->
  fst (monthly_performance_table st l date_column initial_balance mode) = Ret tt ->
  monthly_performance_table
    (snd (monthly_performance_table st l date_column initial_balance mode))
    l date_column initial_balance' mode'
  = (Ret tt, snd (monthly_performance_table st l date_column initial_balance mode)).
Proof.
  intros Hst Hdate Hfirst. unfold monthly_performance_table in *. rewrite Hst in *.
  destruct (monthly_performance_frame ledger date_column) as [outcome after] eqn:Hframe.
  simpl in Hfirst. subst outcome. simpl. rewrite lookup_insert_eq.
  rewrite (monthly_performance_frame_again _ _ _ Hdate Hframe).
  now rewrite insert_insert_eq.
Qed.

Lemma monthly_table_second_call_writes_nothing_witness :
  monthly_performance_table (H := plain_externals)
    (snd (monthly_performance_table (H := plain_externals) session 1%positive "Entry Date"
            default_balance "Dollar ($)"))
    1%positive "Entry Date" (f64_of_Z 500) "Percentage (%)"
  = (Ret tt, snd (monthly_performance_table (H := plain_externals) session 1%positive
                    "Entry Date" default_balance "Dollar ($)")).
Proof.
  apply (monthly_table_second_call_writes_nothing (H := plain_externals) session 1%positive
           one_loss_ledger "Entry Date" default_balance (f64_of_Z 500)
           "Dollar ($)" "Percentage (%)").
  - reflexivity.
  - simpl. intros [Hd|[Hd|[Hd|[]]]]; discriminate.
  - vm_compute. reflexivity.
Defined.

(** ** Simulations that fail *)

(** X19. A call of [monte_carlo_simulation] on a numeric [Profit] column
    that fails has drawn no random number, and the state it leaves is
    determined. When the method is unknown, or more trades are asked of
    the shuffling than the pool holds, or no seed is given, or the seed is
    out of range, the generator is as it was. When the parameters are
    accepted and a seed in range is given, the failure is the sampling's
    refusal of its sizes and the generator is exactly the freshly seeded
    one. *)
Theorem failed_simulation_draws_nothing `{NumpyRandom}
    (trades : DataFrame) (cells : list cell) (profits : list float64)
    (num_simulations : Z) (num_trades : option Z)
    (method : string) (seed : option Z) (g : rng_state) (e : exn) :
  get_column "Profit" trades = Some cells ->
  as_floats cells = Ret profits ->
  fst (monte_carlo_simulation trades num_simulations num_trades method seed g) = Raise e ->
  ((method <> "random_choice" /\ method <> "randomized_shuffling")
   \/ (method = "randomized_shuffling"
       /\ default (Z.of_nat (length profits)) num_trades > Z.of_nat (length profits))
   \/ seed = None
   \/ (exists s, seed = Some s /\ ~ 0 <= s < 2 ^ 32) ->
   snd (monte_carlo_simulation trades num_simulations num_trades method seed g) = g)
  /\ (forall s : Z,
        method = "random_choice"
        \/ (method = "randomized_shuffling"
            /\ default (Z.of_nat (length profits)) num_trades <= Z.of_nat (length profits)) ->
        seed = Some s -> 0 <= s < 2 ^ 32 ->
        snd (monte_carlo_simulation trades num_simulations num_trades method seed g)
        = rng_of_seed s
        /\ (e = negative_dimensions
            \/ e = ValueError "'a' cannot be empty unless no samples are taken")).
Proof.
  intros Hcol Hnum. unfold monte_carlo_simulation. rewrite Hcol, Hnum.
  set (n := default (Z.of_nat (length profits)) num_trades).
  assert (Hsample : forall g0 : rng_state,
    let r := if String.eqb method "random_choice"
             then np_random_choice profits num_simulations n g0
             else if (num_simulations <? 0) || (n <? 0)
             then (Raise negative_dimensions, g0)
             else
               let '(rows, g1) :=
                 shuffled_rows (Z.to_nat num_simulations) profits (Z.to_nat n) g0 in
               (Ret (mk_ndarray [Z.to_nat num_simulations; Z.to_nat n] (concat rows)), g1) in
    fst r = Raise e ->
    snd r = g0
    /\ (e = negative_dimensions
        \/ e = ValueError "'a' cannot be empty unless no samples are taken")).
  { intros g0. cbv zeta. destruct (String.eqb method "random_choice").
    - unfold np_random_choice. destruct (_ && _).
      + simpl. intros [= <-]. auto.
      + destruct (_ || _).
        * simpl. intros [= <-]. auto.
        * destruct (draw_indices _ _ _). discriminate.
    - destruct (_ || _).
      + simpl. intros [= <-]. auto.
      + destruct (shuffled_rows _ _ _ _). discriminate. }
  assert (Hunknown : negb (String.eqb method "random_choice"
                           || String.eqb method "randomized_shuffling") = true
                     <-> method <> "random_choice" /\ method <> "randomized_shuffling").
  { rewrite negb_true_iff, orb_false_iff, !String.eqb_neq. reflexivity. }
  assert (Hmany : String.eqb method "randomized_shuffling" && (n >? Z.of_nat (length profits))
                  = true
                  <-> method = "randomized_shuffling" /\ n > Z.of_nat (length profits)).
  { rewrite andb_true_iff, String.eqb_eq, Z.gtb_lt. split; intros [? ?]; split; auto; lia. }
  destruct (negb (String.eqb method "random_choice"
                  || String.eqb method "randomized_shuffling")) eqn:Hneg.
  { intros _. split; [reflexivity|]. intros s Hok. exfalso.
    destruct (proj1 Hunknown eq_refl) as [Hrc Hrs]. destruct Hok as [?|[? _]]; congruence. }
  destruct (String.eqb method "randomized_shuffling" && (n >? Z.of_nat (length profits)))
    eqn:Htoo.
  { intros _. split; [reflexivity|]. intros s Hok. exfalso.
    destruct (proj1 Hmany eq_refl) as [Hrs Hgt].
    destruct Hok as [->|[_ Hle]]; [discriminate|lia]. }
  assert (Haccepted : ~ (method <> "random_choice" /\ method <> "randomized_shuffling")
                      /\ ~ (method = "randomized_shuffling" /\ n > Z.of_nat (length profits))).
  { split; intros Hbad; [apply Hunknown in Hbad|apply Hmany in Hbad]; discriminate. }
  destruct Haccepted as [Hknown Hfits].
  destruct seed as [s|].
  - unfold np_random_seed. destruct ((0 <=? s) && (s <? 2 ^ 32)) eqn:Hs.
    + intros Hfail. destruct (Hsample (rng_of_seed s) Hfail) as [Hg He].
      apply andb_true_iff in Hs as [Hlo Hhi]. apply Z.leb_le in Hlo. apply Z.ltb_lt in Hhi.
      split.
      * intros [Hbad|[Hbad|[Hbad|(s' & [= <-] & Hbad)]]];
          [contradiction|contradiction|discriminate|]. exfalso. apply Hbad. lia.
      * intros s' _ [= <-] _. split; assumption.
    + intros _. split; [reflexivity|]. intros s' _ [= <-] Hrange. exfalso.
      apply andb_false_iff in Hs as [Hlo|Hhi];
        [apply Z.leb_gt in Hlo|apply Z.ltb_ge in Hhi]; lia.
  - intros Hfail. destruct (Hsample g Hfail) as [Hg He].
    split; [intros _; exact Hg|]. intros s' _ [=].
Qed.

Lemma failed_simulation_draws_nothing_witness :
  snd (monte_carlo_simulation (H := lcg_random) pool_ledger (-1) None "random_choice"
         (Some 7) 0) = rng_of_seed (NumpyRandom := lcg_random) 7
  /\ rng_of_seed (NumpyRandom := lcg_random) 7 <> 0
  /\ (negative_dimensions = negative_dimensions
      \/ negative_dimensions = ValueError "'a' cannot be empty unless no samples are taken").
Proof.
  destruct (failed_simulation_draws_nothing (H := lcg_random) pool_ledger pool_cells
              pool_profits (-1) None "random_choice" (Some 7) 0 negative_dimensions
              eq_refl eq_refl eq_refl) as [_ Hseeded].
  destruct (Hseeded 7 (or_introl eq_refl) eq_refl ltac:(lia)) as [Hstate Herr].
  split; [exact Hstate|]. split; [discriminate|exact Herr].
Defined.

(** ** The benchmark *)

Section BuyAndHold.
Context `{Externals}.

Lemma key_le_refl (a : cell) : key_le a a = true.
Proof. destruct a; simpl; try reflexivity. apply Z.leb_refl. Qed.

Lemma key_le_total (a b : cell) : key_le a b = false -> key_le b a = true.
Proof.
  intros Hab. destruct a, b; simpl in *; try discriminate; try reflexivity.
  apply Z.leb_gt in Hab. apply Z.leb_le. lia.
Qed.

Lemma key_le_trans (a b c : cell) :
  key_le a b = true -> key_le b c = true -> key_le a c = true.
Proof.
  intros Hab Hbc. destruct a, b, c; simpl in *; try discriminate; try reflexivity.
  apply Z.leb_le in Hab, Hbc. apply Z.leb_le. lia.
Qed.

(** The insertion sort puts a least key first. *)
Lemma sorted_head_min (l : list (cell * nat)) :
  l <> [] ->
  exists h rest, foldr insert_by_key [] l = h :: rest /\ h ∈ l
                 /\ forall x, x ∈ l -> key_le (fst h) (fst x) = true.
Proof.
  induction l as [|k l IH]; [congruence|]. intros _.
  destruct l as [|k' l'].
  - exists k, []. split; [reflexivity|]. split; [apply elem_of_cons; auto|].
    intros x Hx. apply elem_of_cons in Hx as [->|Hx]; [apply key_le_refl|inversion Hx].
  - destruct IH as (h & rest & Hs & Hin & Hmin); [discriminate|].
    change (foldr insert_by_key [] (k :: k' :: l'))
      with (insert_by_key k (foldr insert_by_key [] (k' :: l'))).
    rewrite Hs. simpl. destruct (key_le (fst k) (fst h)) eqn:Hk.
    + exists k, (h :: rest). split; [reflexivity|]. split; [apply elem_of_cons; auto|].
      intros x Hx. apply elem_of_cons in Hx as [->|Hx]; [apply key_le_refl|].
      eapply key_le_trans; [exact Hk|auto].
    + exists h, (insert_by_key k rest). split; [reflexivity|].
      split; [apply elem_of_cons; auto|].
      intros x Hx. apply elem_of_cons in Hx as [->|Hx]; [now apply key_le_total|auto].
Qed.

(** The first position of the sort order holds a least key. *)
Lemma argsort_head (keys : list cell) :
  keys <> [] ->
  exists i rest k, argsort keys = i :: rest /\ keys !! i = Some k
                   /\ forall d, d ∈ keys -> key_le k d = true.
Proof.
  intros Hne. unfold argsort.
  destruct (sorted_head_min (zip keys (seq 0 (length keys))))
    as ([k i] & rest & Hs & Hin & Hmin).
  { destruct keys; [congruence|]. simpl. discriminate. }
  rewrite Hs. simpl. exists i, (map snd rest), k. split; [reflexivity|].
  assert (Hzip : forall d j, (d, j) ∈ zip keys (seq 0 (length keys)) <-> keys !! j = Some d).
  { intros d j. rewrite list_elem_of_lookup. split.
    - intros [p Hp]. apply lookup_zip_with_Some in Hp as (x & y & [= <- <-] & Hx & Hy).
      apply lookup_seq in Hy as [-> _]. exact Hx.
    - intros Hj. exists j. apply lookup_zip_with_Some. exists d, j.
      split; [reflexivity|]. split; [exact Hj|]. apply lookup_seq.
      split; [reflexivity|]. now apply lookup_lt_Some in Hj. }
  split; [now apply Hzip|].
  intros d Hd. apply list_elem_of_lookup in Hd as [j Hj].
  apply (Hmin (d, j)). now apply Hzip.
Qed.

(** A frame with rows keeps a first row through sorting and the removal
    of duplicates. *)
Lemma frame_len_first_row (df : DataFrame) (n i : nat) (rest occ : list nat) :
  Forall (fun col => length (snd col) = n) df -> df <> [] -> (i < n)%nat ->
  (frame_len (take_rows (0%nat :: occ) (take_rows (i :: rest) df)) =? 0)%nat = false.
Proof.
  intros Hrect Hne Hi. destruct df as [|[m c] df]; [congruence|].
  inversion Hrect as [|? ? Hc _]. simpl in Hc.
  destruct (lookup_lt_is_Some_2 c i) as [first Hfirst]; [lia|].
  simpl. rewrite Hfirst. reflexivity.
Qed.

End BuyAndHold.

(** X20. The buy-and-hold benchmark buys at the earliest trade: on a
    ledger with at least one row whose dates parse, the buy price that
    [calculate_buy_and_hold] takes from the first row after sorting and
    dropping duplicate dates is the [Entry Price] of a row whose date is
    a least one (missing dates last), wherever that row stands in the
    upload. *)
Theorem buy_and_hold_buys_at_earliest_date `{Externals}
    (trades : DataFrame) (date_column : string) (initial_balance : float64)
    (n : nat) (dates cells prices : list cell) :
  Forall (fun col => length (snd col) = n) trades -> (0 < n)%nat ->
  get_column date_column trades = Some dates ->
  to_datetime dates = Ret cells ->
  get_column "Entry Price" trades = Some prices ->
  date_column <> "Entry Price" ->
  exists (i : nat) (date buy_price : cell) (trades_sorted : DataFrame),
    cells !! i = Some date /\ prices !! i = Some buy_price
    /\ (forall d, d ∈ cells -> key_le date d = true)
    /\ calculate_buy_and_hold trades date_column initial_balance
       = buy_and_hold_block trades_sorted date_column buy_price initial_balance.
Proof.
  intros Hrect Hn Hdates Hcells Hprices Hne.
  pose proof (to_datetime_length _ _ Hcells) as Hlen.
  rewrite (get_column_length _ _ _ _ Hrect Hdates) in Hlen.
  pose proof (get_column_length _ _ _ _ Hrect Hprices) as Hlen_prices.
  destruct (argsort_head cells) as (i & rest & date & Harg & Hi & Hmin).
  { intros ->. simpl in Hlen. lia. }
  destruct (lookup_lt_is_Some_2 prices i) as [buy_price Hprice].
  { apply lookup_lt_Some in Hi. lia. }
  exists i, date, buy_price,
    (take_rows (first_occurrences [] (omap (fun j => cells !! j) (argsort cells)) 0)
       (take_rows (argsort cells) (setitem date_column cells trades))).
  split; [exact Hi|]. split; [exact Hprice|].
  split; [exact Hmin|].
  unfold calculate_buy_and_hold.
  rewrite (proj2 (getitem_ret _ _ _) Hdates). simpl. rewrite Hcells. simpl.
  unfold sort_values. rewrite (proj2 (getitem_ret _ _ _) (get_column_setitem_eq _ _ _)). simpl.
  unfold drop_duplicates.
  rewrite (proj2 (getitem_ret date_column _ _)
             (eq_trans (get_column_take_rows _ _ _)
                (f_equal _ (get_column_setitem_eq date_column cells trades)))).
  simpl. rewrite Harg.
  assert (Hocc : exists occ, first_occurrences [] (omap (fun j => cells !! j) (i :: rest)) 0
                             = 0%nat :: occ).
  { simpl. rewrite Hi. simpl. eauto. }
  destruct Hocc as [occ ->].
  rewrite (frame_len_first_row _ n).
  - unfold getitem.
    rewrite !get_column_take_rows, get_column_setitem_ne, Hprices by congruence.
    simpl. rewrite Hprice. simpl. reflexivity.
  - apply setitem_rectangular; [exact Hrect|exact Hlen].
  - destruct trades as [|[c0 x0] trades']; [discriminate|]. simpl.
    destruct (String.eqb c0 date_column); discriminate.
  - apply lookup_lt_Some in Hi. lia.
Qed.

Lemma buy_and_hold_buys_at_earliest_date_witness :
  exists (i : nat) (date buy_price : cell) (trades_sorted : DataFrame),
    map CTime [259200; 86400; 172800] !! i = Some date
    /\ map (fun z => CNum (f64_of_Z z)) [10; 11; 12] !! i = Some buy_price
    /\ (forall d, d ∈ map CTime [259200; 86400; 172800] -> key_le date d = true)
    /\ calculate_buy_and_hold (H := plain_externals) three_trades "Entry Date" default_balance
       = buy_and_hold_block (Externals := plain_externals) trades_sorted "Entry Date"
           buy_price default_balance.
Proof.
  apply (buy_and_hold_buys_at_earliest_date (H := plain_externals) three_trades "Entry Date"
           default_balance 3 (map CTime [259200; 86400; 172800])).
  - repeat constructor.
  - lia.
  - reflexivity.
  - reflexivity.
  - reflexivity.
  - discriminate.
Defined.
